(** * virium-csi-driver-iscsi: node-side attach/detach and controller calls

    A shallow embedding of [cmd/virium-iscsiplugin/iscsi_util.go] (the
    attach/detach orchestrator [AttachDisk], [DetachDisk]), of
    [cmd/virium-iscsiplugin/iscsi.go] (request parsing: [getISCSIInfo],
    [portalMounter], [parseSessionSecret], ...) and of the controller server
    ([CreateVolume], [DeleteVolume], [ControllerExpandVolume]).

    Pure Go functions are Rocq functions.  Functions that talk to the
    operating system, the iSCSI initiator or the volume API are programs of a
    free monad [Prog] over the calls they make; a program is run either
    against an arbitrary oracle that answers every call (all behaviours of
    the collaborators at once) or against a small model of the node. *)

From Stdlib Require Import Ascii.
From stdpp Require Import base gmap strings list pretty.

Local Open Scope string_scope.

(** ** Go values shared by all files *)

(** [google.golang.org/grpc/codes.Code]. *)
Inductive Code :=
| OK | Canceled | Unknown | InvalidArgument | DeadlineExceeded | NotFound
| AlreadyExists | PermissionDenied | ResourceExhausted | FailedPrecondition
| Aborted | OutOfRange | Unimplemented | Internal | Unavailable | DataLoss
| Unauthenticated.

Definition Code_String (c : Code) : string :=
  match c with
  | OK => "OK" | Canceled => "Canceled" | Unknown => "Unknown"
  | InvalidArgument => "InvalidArgument"
  | DeadlineExceeded => "DeadlineExceeded" | NotFound => "NotFound"
  | AlreadyExists => "AlreadyExists" | PermissionDenied => "PermissionDenied"
  | ResourceExhausted => "ResourceExhausted"
  | FailedPrecondition => "FailedPrecondition" | Aborted => "Aborted"
  | OutOfRange => "OutOfRange" | Unimplemented => "Unimplemented"
  | Internal => "Internal" | Unavailable => "Unavailable"
  | DataLoss => "DataLoss" | Unauthenticated => "Unauthenticated"
  end.

(** A non-nil Go [error].  The driver builds two kinds itself: plain errors
    ([fmt.Errorf] with no wrapping verb) and gRPC status errors
    ([status.Error]).  Every other error comes out of a library ([os],
    [mount], [strconv], [encoding/json], the HTTP client); of those the code
    only ever asks for the text and whether [os.IsNotExist] holds. *)
Inductive error :=
| ErrorString (msg : string)
| StatusError (c : Code) (msg : string)
| LibError (notExist : bool) (msg : string).

(** [err.Error()]. *)
Definition Error (e : error) : string :=
  match e with
  | ErrorString msg => msg
  | StatusError c msg => "rpc error: code = " +:+ Code_String c +:+ " desc = " +:+ msg
  | LibError _ msg => msg
  end.

(** [fmt.Errorf] with a format that wraps nothing. *)
Definition fmt_Errorf (msg : string) : error := ErrorString msg.

(** [status.Error(c, msg)] for [c] other than [codes.OK]. *)
Definition status_Error (c : Code) (msg : string) : error := StatusError c msg.

(** [status.Code(err)] for a non-nil error: the code of a status error,
    [codes.Unknown] for anything else. *)
Definition status_Code (e : error) : Code :=
  match e with
  | StatusError c _ => c
  | _ => Unknown
  end.

(** [os.IsNotExist(err)] for a non-nil error. *)
Definition os_IsNotExist (e : error) : bool :=
  match e with
  | LibError notExist _ => notExist
  | _ => false
  end.

(** A Go return pair (pointer, error) of which exactly one side is nil. *)
Inductive result (A : Type) :=
| Ok (a : A)
| Err (e : error).
Arguments Ok {A} a.
Arguments Err {A} e.

(** [x ← r; k] is the Go idiom "call, return the error if there is one". *)
Global Instance result_bind : MBind result := λ A B k r,
  match r with
  | Ok a => k a
  | Err e => Err e
  end.

(** Reading a Go [map[string]string]: a missing key reads as the empty
    string.  A nil map reads like the empty one, so both are [∅]. *)
Definition index (m : gmap string string) (k : string) : string :=
  default "" (m !! k).

(** ** [strings] and [strconv] *)

Fixpoint strings_HasPrefix (s prefix : string) : bool :=
  match prefix, s with
  | EmptyString, _ => true
  | String a p, String b s' => Ascii.eqb a b && strings_HasPrefix s' p
  | String _ _, EmptyString => false
  end.

Fixpoint strings_Contains (s substr : string) : bool :=
  strings_HasPrefix s substr ||
  match s with
  | EmptyString => false
  | String _ s' => strings_Contains s' substr
  end.

Definition is_digit (a : Ascii.ascii) : bool :=
  let n := Ascii.N_of_ascii a in ((48 <=? n) && (n <=? 57))%N.

Fixpoint digits_value (acc : Z) (s : string) : option Z :=
  match s with
  | EmptyString => Some acc
  | String a s' =>
      if is_digit a
      then digits_value (10 * acc + (Z.of_N (Ascii.N_of_ascii a) - 48))%Z s'
      else None
  end.

Definition max_int : Z := (2 ^ 63 - 1)%Z.
Definition min_int : Z := (- 2 ^ 63)%Z.

(** The double quote, for messages that quote their argument. *)
Definition dquote : string := String (Ascii.ascii_of_nat 34) EmptyString.

(** [strconv.Atoi] for a 64-bit [int]: an optional sign, then one or more
    decimal digits; a value outside [int] is a range error.  The error text
    quotes the input without escaping. *)
Definition strconv_Atoi (s : string) : result Z :=
  let syntax :=
    LibError false ("strconv.Atoi: parsing " +:+ dquote +:+ s +:+ dquote +:+ ": invalid syntax") in
  let range :=
    LibError false ("strconv.Atoi: parsing " +:+ dquote +:+ s +:+ dquote +:+ ": value out of range") in
  let '(neg, body) :=
    match s with
    | String "+"%char r => (false, r)
    | String "-"%char r => (true, r)
    | _ => (false, s)
    end in
  match body with
  | EmptyString => Err syntax
  | _ =>
      match digits_value 0 body with
      | None => Err syntax
      | Some n =>
          let v := if neg then (- n)%Z else n in
          if ((min_int <=? v) && (v <=? max_int))%Z then Ok v else Err range
      end
  end.

(** The conversion [int32(l)]: the low 32 bits, read as signed. *)
Definition int32 (l : Z) : Z := ((l + 2 ^ 31) `mod` 2 ^ 32 - 2 ^ 31)%Z.

(** The conversion to a 64-bit [int] after arithmetic. *)
Definition int (l : Z) : Z := ((l + 2 ^ 63) `mod` 2 ^ 64 - 2 ^ 63)%Z.

(** ** Types of the iSCSI library the driver is linked with *)

(** Modelled from the spec: the declaration of [Secrets] is in the iSCSI
    library package, not among the sources; the fields are the ones the
    spec's data model lists and [parseSessionSecret] assigns. *)
Record Secrets := mkSecrets {
  SecretsType : string;
  UserName : string;
  Password : string;
  UserNameIn : string;
  PasswordIn : string;
}.

(** [Secrets{}] *)
Definition Secrets_zero : Secrets := mkSecrets "" "" "" "" "".

Global Instance Secrets_eq_dec : EqDecision Secrets.
Proof. solve_decision. Defined.

(** Modelled from the spec: the declaration of [Connector] is in the iSCSI
    library package; the fields are the ones of the spec's data model, all of
    which but [MultipathDevice] are set by [buildISCSIConnector]. *)
Record Connector := mkConnector {
  VolumeName : string;
  TargetIqn : string;
  TargetPortals : list string;
  Lun : Z;
  DoCHAPDiscovery : bool;
  DiscoverySecrets : Secrets;
  SessionSecrets : Secrets;
  Interface : string;
  MultipathDevice : string;
}.

Global Instance Connector_eq_dec : EqDecision Connector.
Proof. solve_decision. Defined.

(** ** [encoding/json], as far as the node side uses it

    The decoder is a parameter: every theorem below holds whatever
    [encoding/json] answers.  [GoJson] further down is an instance to run
    examples with. *)
Class JsonText := {
  (** [json.Unmarshal(data, &v)] for [v] an empty [[]string]. *)
  json_Unmarshal_strings : string → result (list string);
  (** [json.Unmarshal(data, &v)] for [v] a nil [map[string]string]. *)
  json_Unmarshal_map : string → result (gmap string string);
  (** [json.Marshal(v)] for [v] a [[]string]. *)
  json_Marshal_strings : list string → result string;
}.

(** ** iscsi.go *)

Module Iscsi.

Record iscsiDisk := mkIscsiDisk {
  Portals : list string;
  Iqn : string;
  lun : Z;
  Iface : string;
  chapDiscovery : bool;
  chapSession : bool;
  secret : gmap string string;
  sessionSecret : Secrets;
  discoverySecret : Secrets;
  InitiatorName : string;
  VolName : string;
}.

(** [csi.VolumeCapability_MountVolume]. *)
Record MountVolume := mkMountVolume {
  FsType : string;
  MountFlags : list string;
}.

(** [csi.NodePublishVolumeRequest], the fields the driver reads.  [Mount] is
    what [GetVolumeCapability().GetMount()] returns, nil when the capability
    or its mount access type is absent. *)
Record NodePublishVolumeRequest := mkNodePublishVolumeRequest {
  VolumeId : string;
  VolumeContext : gmap string string;
  TargetPath : string;
  Readonly : bool;
  Mount : option MountVolume;
}.

(** [csi.NodeUnpublishVolumeRequest]. *)
Record NodeUnpublishVolumeRequest := mkNodeUnpublishVolumeRequest {
  unpub_VolumeId : string;
  unpub_TargetPath : string;
}.

Definition portalMounter (portal : string) : string :=
  if negb (strings_Contains portal ":") then portal +:+ ":3260" else portal.

Definition parseSessionSecret (secretParams : gmap string string) : Secrets * option error :=
  let secret := Secrets_zero in
  if (size secretParams =? 0)%nat then (secret, None) else
  match secretParams !! "node.session.auth.username" with
  | None => (Secrets_zero, Some (fmt_Errorf "node.session.auth.username not found in secret"))
  | Some userName =>
  match secretParams !! "node.session.auth.password" with
  | None => (Secrets_zero, Some (fmt_Errorf "node.session.auth.password not found in secret"))
  | Some password =>
  match secretParams !! "node.session.auth.username_in" with
  | None => (Secrets_zero, Some (fmt_Errorf "node.session.auth.username_in not found in secret"))
  | Some userNameIn =>
  match secretParams !! "node.session.auth.password_in" with
  | None => (Secrets_zero, Some (fmt_Errorf "node.session.auth.password_in not found in secret"))
  | Some passwordIn =>
      ({| SecretsType := "chap"; UserName := userName; Password := password;
          UserNameIn := userNameIn; PasswordIn := passwordIn |}, None)
  end end end end.

Definition parseDiscoverySecret (secretParams : gmap string string) : Secrets * option error :=
  let secret := Secrets_zero in
  if (size secretParams =? 0)%nat then (secret, None) else
  match secretParams !! "node.sendtargets.auth.username" with
  | None => (Secrets_zero, Some (fmt_Errorf "node.sendtargets.auth.username not found in secret"))
  | Some userName =>
  match secretParams !! "node.sendtargets.auth.password" with
  | None => (Secrets_zero, Some (fmt_Errorf "node.sendtargets.auth.password not found in secret"))
  | Some password =>
  match secretParams !! "node.sendtargets.auth.username_in" with
  | None => (Secrets_zero, Some (fmt_Errorf "node.sendtargets.auth.username_in not found in secret"))
  | Some userNameIn =>
  match secretParams !! "node.sendtargets.auth.password_in" with
  | None => (Secrets_zero, Some (fmt_Errorf "node.sendtargets.auth.password_in not found in secret"))
  | Some passwordIn =>
      ({| SecretsType := "chap"; UserName := userName; Password := password;
          UserNameIn := userNameIn; PasswordIn := passwordIn |}, None)
  end end end end.

Section WithJson.
Context `{JsonText}.

Definition parseSecret (secretParams : string) : gmap string string :=
  match json_Unmarshal_map secretParams with
  | Err _ => ∅
  | Ok secret => secret
  end.

(** The portal list of [getISCSIInfo]: nothing unless the context has a
    non-empty [portals] value; then the port-completed [target_portal]
    followed by the port-completed entries of the JSON array. *)
Definition portals_of (tp portalList : string) : result (list string) :=
  let bkportal : list string := [] in
  if (0 <? String.length portalList)%nat then
    let portal := portalMounter tp in
    let bkportal := (bkportal ++ [portal])%list in
    portals ← json_Unmarshal_strings portalList;
    Ok (foldl (λ bkportal portal, (bkportal ++ [portalMounter portal])%list) bkportal portals)
  else Ok bkportal.

Definition getISCSIInfo (req : NodePublishVolumeRequest) : result iscsiDisk :=
  let volName := VolumeId req in
  let tp := index (VolumeContext req) "target_portal" in
  let iqn := index (VolumeContext req) "target_iqn" in
  let lun := index (VolumeContext req) "lun" in
  if (tp =? "") || (iqn =? "") || (lun =? "") then
    Err (fmt_Errorf "ISCSI target information is missing")
  else
  let secretParams := index (VolumeContext req) "secret" in
  let secret := parseSecret secretParams in
  match parseSessionSecret secret with
  | (_, Some err) => Err err
  | (sessionSecret, None) =>
  match parseDiscoverySecret secret with
  | (_, Some err) => Err err
  | (discoverySecret, None) =>
  bkportal ← portals_of tp (index (VolumeContext req) "portals");
  let iface := index (VolumeContext req) "iscsiInterface" in
  let initiatorName := index (VolumeContext req) "initiatorName" in
  let chapDiscovery :=
    if index (VolumeContext req) "discoveryCHAPAuth" =? "false" then false else true in
  let chapSession :=
    if index (VolumeContext req) "sessionCHAPAuth" =? "true" then true else false in
  lunVal ← (if negb (lun =? "") then l ← strconv_Atoi lun; Ok (int32 l) else Ok 0%Z);
  Ok {| VolName := volName; Portals := bkportal; Iqn := iqn; lun := lunVal;
        Iface := iface; chapDiscovery := chapDiscovery; chapSession := chapSession;
        secret := secret; sessionSecret := sessionSecret;
        discoverySecret := discoverySecret; InitiatorName := initiatorName |}
  end end.

End WithJson.

Definition buildISCSIConnector (iscsiInfo : option iscsiDisk) : option Connector :=
  match iscsiInfo with
  | None => None
  | Some iscsiInfo =>
      if (VolName iscsiInfo =? "") || (Iqn iscsiInfo =? "") then None else
      let c := {| VolumeName := VolName iscsiInfo;
                  TargetIqn := Iqn iscsiInfo;
                  TargetPortals := Portals iscsiInfo;
                  Lun := lun iscsiInfo;
                  DoCHAPDiscovery := chapDiscovery iscsiInfo;
                  DiscoverySecrets := discoverySecret iscsiInfo;
                  SessionSecrets := sessionSecret iscsiInfo;
                  Interface := Iface iscsiInfo;
                  MultipathDevice := "" |} in
      let c :=
        if bool_decide (sessionSecret iscsiInfo ≠ Secrets_zero) then
          let c := mkConnector (VolumeName c) (TargetIqn c) (TargetPortals c) (Lun c)
                     (DoCHAPDiscovery c) (DiscoverySecrets c) (sessionSecret iscsiInfo)
                     (Interface c) (MultipathDevice c) in
          if bool_decide (discoverySecret iscsiInfo ≠ Secrets_zero) then
            mkConnector (VolumeName c) (TargetIqn c) (TargetPortals c) (Lun c)
              (DoCHAPDiscovery c) (discoverySecret iscsiInfo) (SessionSecrets c)
              (Interface c) (MultipathDevice c)
          else c
        else c in
      Some c
  end.

End Iscsi.

(** ** Programs over external calls

    [E R] is a call to a collaborator that answers with an [R].  A program
    either returns or makes a call and continues with the answer. *)
Inductive Prog (E : Type → Type) (A : Type) : Type :=
| Ret (a : A)
| Vis {R : Type} (e : E R) (k : R → Prog E A).
Arguments Ret {E A} a.
Arguments Vis {E A R} e k.

Fixpoint Prog_bind {E A B} (k : A → Prog E B) (p : Prog E A) : Prog E B :=
  match p with
  | Ret a => k a
  | Vis e h => Vis e (λ r, Prog_bind k (h r))
  end.

Global Instance Prog_mret E : MRet (Prog E) := λ A a, Ret a.
Global Instance Prog_mbind E : MBind (Prog E) := λ A B k p, Prog_bind k p.

Definition call {E R} (e : E R) : Prog E R := Vis e Ret.

Section Run.
Context {E : Type → Type} {Ev : Type}.
(** What a trace records of a call and its answer. *)
Context (obs : ∀ R, E R → R → Ev).

(** An oracle answers a call knowing everything that happened before: any
    behaviour of the collaborators, faults included, is some oracle. *)
Definition oracle : Type := ∀ R, list Ev → E R → R.

(** [run o tr p]: the value [p] returns and the trace, [tr] extended by the
    calls of [p] in the order they are made. *)
Fixpoint run {A} (o : oracle) (tr : list Ev) (p : Prog E A) : A * list Ev :=
  match p with
  | Ret a => (a, tr)
  | Vis e k => let r := o _ tr e in run o (tr ++ [obs _ e r]) (k r)
  end.

(** A handler answers calls from a state it updates. *)
Definition handler (W : Type) : Type := ∀ R, E R → W → R * W.

Fixpoint exec {A W} (h : handler W) (w : W) (tr : list Ev) (p : Prog E A)
  : A * W * list Ev :=
  match p with
  | Ret a => (a, w, tr)
  | Vis e k => let '(r, w') := h _ e w in exec h w' (tr ++ [obs _ e r]) (k r)
  end.

End Run.

(** ** iscsi_util.go *)

Module IscsiUtil.
Import Iscsi.

Inductive Logger := StdLog | KlogInfo | KlogWarning | KlogError.

(** The calls [AttachDisk] and [DetachDisk] make.  [Connect] and
    [DisconnectVolume] are methods of the connector they are called on and
    may update it: their answer starts with the connector as the call left
    it. *)
Inductive NodeE : Type → Type :=
| Log (l : Logger) (msg : string) : NodeE unit
| Connect (c : Connector) : NodeE (Connector * string * option error)
| IsLikelyNotMountPoint (file : string) : NodeE (bool * option error)
| MkdirAll (path : string) (perm : N) : NodeE (option error)
| PersistConnector (c : Connector) (filePath : string) : NodeE (option error)
| FormatAndMount (source target fstype : string) (options : list string)
  : NodeE (option error)
| GetDeviceNameFromMount (mountPath : string) : NodeE (string * Z * option error)
| PathExists (path : string) : NodeE (bool * option error)
| GetConnectorFromFile (filePath : string) : NodeE (result Connector)
| Unmount (target : string) : NodeE (option error)
| DisconnectVolume (c : Connector) : NodeE (Connector * option error)
| Disconnect (targetIqn : string) (targets : list string) : NodeE unit
| RemoveAll (path : string) : NodeE (option error)
| Remove (name : string) : NodeE (option error).

(** A call together with its answer. *)
Inductive NodeEv :=
| EvLog (l : Logger) (msg : string)
| EvConnect (c : Connector) (c' : Connector) (devicePath : string) (err : option error)
| EvIsLikelyNotMountPoint (file : string) (notMnt : bool) (err : option error)
| EvMkdirAll (path : string) (perm : N) (err : option error)
| EvPersistConnector (c : Connector) (filePath : string) (err : option error)
| EvFormatAndMount (source target fstype : string) (options : list string)
    (err : option error)
| EvGetDeviceNameFromMount (mountPath : string) (device : string) (refCount : Z)
    (err : option error)
| EvPathExists (path : string) (exists_ : bool) (err : option error)
| EvGetConnectorFromFile (filePath : string) (r : result Connector)
| EvUnmount (target : string) (err : option error)
| EvDisconnectVolume (c : Connector) (c' : Connector) (err : option error)
| EvDisconnect (targetIqn : string) (targets : list string)
| EvRemoveAll (path : string) (err : option error)
| EvRemove (name : string) (err : option error).

Definition observe (R : Type) (e : NodeE R) : R → NodeEv :=
  match e in NodeE R return R → NodeEv with
  | Log l msg => λ _, EvLog l msg
  | Connect c => λ '(c', devicePath, err), EvConnect c c' devicePath err
  | IsLikelyNotMountPoint file => λ '(notMnt, err), EvIsLikelyNotMountPoint file notMnt err
  | MkdirAll path perm => λ err, EvMkdirAll path perm err
  | PersistConnector c filePath => λ err, EvPersistConnector c filePath err
  | FormatAndMount source target fstype options =>
      λ err, EvFormatAndMount source target fstype options err
  | GetDeviceNameFromMount mountPath =>
      λ '(device, refCount, err), EvGetDeviceNameFromMount mountPath device refCount err
  | PathExists path => λ '(exists_, err), EvPathExists path exists_ err
  | GetConnectorFromFile filePath => λ r, EvGetConnectorFromFile filePath r
  | Unmount target => λ err, EvUnmount target err
  | DisconnectVolume c => λ '(c', err), EvDisconnectVolume c c' err
  | Disconnect targetIqn targets => λ _, EvDisconnect targetIqn targets
  | RemoveAll path => λ err, EvRemoveAll path err
  | Remove name => λ err, EvRemove name err
  end.

(** The embedded descriptor is a pointer in Go; every mounter the driver
    builds has it set, and it is a plain field here.  The collaborators
    ([mounter], [exec], [deviceUtil]) are the calls of [NodeE]. *)
Record iscsiDiskMounter := mkIscsiDiskMounter {
  mounter_disk : iscsiDisk;
  readOnly : bool;
  fsType : string;
  mountOptions : list string;
  targetPath : string;
  connector : option Connector;
}.

Record iscsiDiskUnmounter := mkIscsiDiskUnmounter {
  unmounter_disk : iscsiDisk;
}.

Definition getISCSIDiskMounter (iscsiInfo : iscsiDisk) (req : NodePublishVolumeRequest)
  : iscsiDiskMounter :=
  let readOnly := Readonly req in
  let fsType := from_option FsType "" (Mount req) in
  let mountOptions := from_option MountFlags [] (Mount req) in
  {| mounter_disk := iscsiInfo; fsType := fsType; readOnly := readOnly;
     mountOptions := mountOptions; targetPath := TargetPath req;
     connector := buildISCSIConnector (Some iscsiInfo) |}.

Definition getISCSIDiskUnmounter (req : NodeUnpublishVolumeRequest) : iscsiDiskUnmounter :=
  {| unmounter_disk :=
       {| VolName := unpub_VolumeId req; Portals := []; Iqn := ""; lun := 0;
          Iface := ""; chapDiscovery := false; chapSession := false; secret := ∅;
          sessionSecret := Secrets_zero; discoverySecret := Secrets_zero;
          InitiatorName := "" |} |}.

(** The permission bits [0o750]. *)
Definition perm_0o750 : N := 7 * 64 + 5 * 8 + 0.

Definition newline : string := String (Ascii.ascii_of_nat 10) EmptyString.

Section WithDriverName.
(** The package constant [driverName] is declared outside these files. *)
Variable driverName : string.

Definition getIscsiInfoPath (volumeID : string) : string :=
  let runPath := "/var/run/" +:+ driverName in
  runPath +:+ "/iscsi-" +:+ volumeID +:+ ".json".

Definition AttachDisk (b : iscsiDiskMounter) : Prog NodeE (string * option error) :=
  call (Log StdLog "AttachDisk1");;
  match connector b with
  | None => mret ("", Some (fmt_Errorf "connector is nil"))
  | Some c =>
  call (Log StdLog "AttachDisk2");;
  '(c, devicePath, err) ← call (Connect c);
  match err with
  | Some err => call (Log StdLog ("Error" +:+ Error err));; mret ("", Some err)
  | None =>
  call (Log StdLog "AttachDisk3");;
  if devicePath =? "" then
    mret ("", Some (fmt_Errorf "connect reported success, but no path returned"))
  else
  call (Log StdLog "AttachDisk4");;
  (* Mount device *)
  let mntPath := targetPath b in
  '(notMnt, err) ← call (IsLikelyNotMountPoint mntPath);
  let mounting : Prog NodeE (string * option error) :=
    call (Log StdLog "AttachDisk5");;
    if negb notMnt then
      call (Log KlogInfo ("iscsi: " +:+ mntPath +:+ " already mounted"));;
      mret ("", None)
    else
    call (Log StdLog "AttachDisk6");;
    err ← call (MkdirAll mntPath perm_0o750);
    match err with
    | Some err =>
        call (Log KlogError ("iscsi: failed to mkdir " +:+ mntPath +:+ ", error"));;
        mret ("", Some err)
    | None =>
    call (Log StdLog "AttachDisk7");;
    (* Persist iscsi disk config to json file for DetachDisk path *)
    let iscsiInfoPath := getIscsiInfoPath (VolName (mounter_disk b)) in
    err ← call (PersistConnector c iscsiInfoPath);
    match err with
    | Some err =>
        call (Log KlogError ("failed to persist connection info: " +:+ Error err +:+
          ", disconnecting volume and failing the publish request because persistence files are required for reliable Unpublish"));;
        mret ("", Some (fmt_Errorf "unable to create persistence file for connection"))
    | None =>
    let options : list string := [] in
    let options := if readOnly b then (options ++ ["ro"])%list else (options ++ ["rw"])%list in
    let options := (options ++ mountOptions b)%list in
    call (Log StdLog "AttachDisk8");;
    err ← call (FormatAndMount devicePath mntPath (fsType b) options);
    match err with
    | Some err' =>
        call (Log KlogError ("iscsi: failed to mount iscsi volume " +:+ devicePath +:+
          " [" +:+ fsType b +:+ "] to " +:+ mntPath +:+ ", error " +:+ Error err'))
    | None => mret tt
    end;;
    call (Log StdLog "AttachDisk9");;
    mret (devicePath, err)
    end end in
  match err with
  | Some err =>
      if negb (os_IsNotExist err) then
        mret ("", Some (fmt_Errorf
          ("heuristic determination of mount point failed:" +:+ Error err)))
      else mounting
  | None => mounting
  end
  end end.

Definition DetachDisk (c : iscsiDiskUnmounter) (targetPath : string)
  : Prog NodeE (option error) :=
  '(_, cnt, err) ← call (GetDeviceNameFromMount targetPath);
  match err with
  | Some err =>
      call (Log KlogError ("iscsi detach disk: failed to get device from mnt: " +:+
        targetPath +:+ newline +:+ "Error: " +:+ Error err));;
      mret (Some err)
  | None =>
  '(pathExists, pathErr) ← call (PathExists targetPath);
  match pathErr with
  | Some pathErr =>
      mret (Some (fmt_Errorf ("error checking if path exists: " +:+ Error pathErr)))
  | None =>
  if negb pathExists then
    call (Log KlogWarning
      ("warning: Unmount skipped because path does not exist: " +:+ targetPath));;
    mret None
  else
  let iscsiInfoPath := getIscsiInfoPath (VolName (unmounter_disk c)) in
  call (Log KlogInfo ("loading ISCSI connection info from " +:+ iscsiInfoPath));;
  r ← call (GetConnectorFromFile iscsiInfoPath);
  match r with
  | Err err =>
      if os_IsNotExist err then
        call (Log KlogWarning "assuming that ISCSI connection is already closed");;
        mret None
      else mret (Some (status_Error Internal (Error err)))
  | Ok connector =>
  err ← call (Unmount targetPath);
  match err with
  | Some err =>
      call (Log KlogError ("iscsi detach disk: failed to unmount: " +:+
        targetPath +:+ newline +:+ "Error: " +:+ Error err));;
      mret (Some err)
  | None =>
  let cnt := int (cnt - 1) in
  if negb (cnt =? 0)%Z then
    call (Log KlogError ("the device is in use : " +:+ pretty cnt));;
    mret None
  else
  call (Log KlogInfo "detaching ISCSI device");;
  '(connector, err) ← call (DisconnectVolume connector);
  match err with
  | Some err =>
      call (Log KlogError
        ("iscsi detach disk: failed to disconnect volume Error: " +:+ Error err));;
      mret (Some err)
  | None =>
  call (Disconnect (TargetIqn connector) (TargetPortals connector));;
  err ← call (RemoveAll targetPath);
  match err with
  | Some err =>
      call (Log KlogError ("iscsi: failed to remove mount path Error: " +:+ Error err))
  | None => mret tt
  end;;
  err ← call (Remove iscsiInfoPath);
  match err with
  | Some err => mret (Some err)
  | None =>
  call (Log KlogInfo "successfully detached ISCSI device");;
  mret None
  end end end end end end.

End WithDriverName.
End IscsiUtil.

(** ** A model of the node

    The collaborators of [AttachDisk] and [DetachDisk] (the iSCSI library's
    [Connect], [PersistConnector], [GetConnectorFromFile],
    [DisconnectVolume] and [Disconnect], and the mount and file-system
    calls) are not among the sources.  The model keeps what the spec's
    interface section says they act on. *)

Module Node.
Import Iscsi IscsiUtil.

(** Modelled from the spec: the state the collaborators act on, which is the
    mount table, the paths that exist, the persisted Connector files (one
    per volume) and the open iSCSI sessions. *)
Record World := mkWorld {
  (** the mount table, oldest mount first: (device, mount point) *)
  mounts : list (string * string);
  (** the paths that exist *)
  paths : gset string;
  (** the persisted Connector files, by path *)
  files : gmap string Connector;
  (** the open sessions: (target IQN, portal) *)
  sessions : gset (string * string);
}.

Definition no_such_file (op name : string) : error :=
  LibError true (op +:+ " " +:+ name +:+ ": no such file or directory").

(** [mount.GetDeviceNameFromMount]: the device of the first entry mounted
    at the path (none: the empty name), and how many entries of the table
    have that device. *)
Definition device_at (w : World) (mountPath : string) : string :=
  match list_find (λ m, m.2 = mountPath) (mounts w) with
  | Some (_, m) => m.1
  | None => ""
  end.

Definition ref_count (w : World) (device : string) : Z :=
  Z.of_nat (length (filter (λ m, m.1 = device) (mounts w))).

(** Unmounting takes the newest entry at the path off the table. *)
Fixpoint remove_last (target : string) (ms : list (string * string))
  : option (list (string * string)) :=
  match ms with
  | [] => None
  | m :: ms' =>
      match remove_last target ms' with
      | Some ms'' => Some (m :: ms'')
      | None => if bool_decide (m.2 = target) then Some ms' else None
      end
  end.

Definition device_path (c : Connector) (portal : string) : string :=
  "/dev/disk/by-path/ip-" +:+ portal +:+ "-iscsi-" +:+ TargetIqn c +:+
  "-lun-" +:+ pretty (Lun c).

(** Modelled from the spec: the parent directory [os.MkdirAll] recurses
    into.  As Go's [os] package does it, scanning the path from its end:
    skip the trailing separators, skip the last element, and take what
    stands before the separator found (nothing, when there is none). *)
Definition is_separator (a : Ascii.ascii) : bool := Ascii.eqb a "/".

Fixpoint skip_separators (l : list Ascii.ascii) : list Ascii.ascii :=
  match l with
  | a :: l' => if is_separator a then skip_separators l' else l
  | [] => []
  end.

Fixpoint skip_element (l : list Ascii.ascii) : list Ascii.ascii :=
  match l with
  | a :: l' => if is_separator a then l' else skip_element l'
  | [] => []
  end.

Definition parent_dir (path : string) : string :=
  String.string_of_list_ascii
    (rev (skip_element (skip_separators (rev (String.list_ascii_of_string path))))).

(** Modelled from the spec: [os.MkdirAll] on the set of paths that exist.
    A path that exists is left alone; otherwise the parent, if the path
    names one, is made first in the same way, and then the path itself.
    The parent is shorter than the path, so the length of the path is
    fuel enough. *)
Fixpoint mkdir_all (fuel : nat) (path : string) (ps : gset string) : gset string :=
  if bool_decide (path ∈ ps) then ps else
  match fuel with
  | O => ps
  | S fuel =>
      let parent := parent_dir path in
      if parent =? "" then ps else mkdir_all fuel parent ps
  end ∪ {[path]}.

Definition os_MkdirAll (path : string) (ps : gset string) : gset string :=
  mkdir_all (String.length path) path ps.

(** Modelled from the spec: [os.RemoveAll] removes the path and everything
    beneath it. *)
Definition beneath (dir p : string) : bool :=
  (p =? dir) || String.prefix (dir +:+ "/") p.

Definition os_RemoveAll (path : string) (ps : gset string) : gset string :=
  filter (λ p, beneath path p = false) ps.

(** Modelled from the spec: what each collaborator answers and does when
    nothing fails on its own.  [Connect] logs in to every portal and fails
    when no portal yields a device; the persistence store writes and loads
    one file per volume and reports a missing file as such; unmount fails on
    a path that is not mounted; [Disconnect] logs out of the named portals;
    [MkdirAll] makes the missing parents too and [RemoveAll] takes what is
    beneath the path with it. *)
Definition node : handler (E:=NodeE) World := λ R e,
  match e in NodeE R return World → R * World with
  | Log _ _ => λ w, (tt, w)
  | Connect c => λ w,
      match TargetPortals c with
      | [] => ((c, "", Some (LibError false "no portal to log in to")), w)
      | portal :: _ =>
          ((c, device_path c portal, None),
           mkWorld (mounts w) (paths w) (files w)
             (sessions w ∪ list_to_set ((λ p, (TargetIqn c, p)) <$> TargetPortals c)))
      end
  | IsLikelyNotMountPoint file => λ w,
      if bool_decide (file ∈ paths w)
      then ((bool_decide (file ∉ (mounts w).*2), None), w)
      else ((true, Some (no_such_file "stat" file)), w)
  | MkdirAll path _ => λ w,
      (None, mkWorld (mounts w) (os_MkdirAll path (paths w)) (files w) (sessions w))
  | PersistConnector c filePath => λ w,
      (None, mkWorld (mounts w) (paths w) (<[filePath := c]> (files w)) (sessions w))
  | FormatAndMount source target _ _ => λ w,
      (None, mkWorld (mounts w ++ [(source, target)]) (paths w) (files w) (sessions w))
  | GetDeviceNameFromMount mountPath => λ w,
      let device := device_at w mountPath in
      ((device, ref_count w device, None), w)
  | PathExists path => λ w, ((bool_decide (path ∈ paths w), None), w)
  | GetConnectorFromFile filePath => λ w,
      (match files w !! filePath with
       | Some c => Ok c
       | None => Err (no_such_file "open" filePath)
       end, w)
  | Unmount target => λ w,
      match remove_last target (mounts w) with
      | Some ms => (None, mkWorld ms (paths w) (files w) (sessions w))
      | None => (Some (LibError false ("umount: " +:+ target +:+ ": not mounted")), w)
      end
  | DisconnectVolume c => λ w, ((c, None), w)
  | Disconnect targetIqn targets => λ w,
      (tt, mkWorld (mounts w) (paths w) (files w)
             (sessions w ∖ list_to_set ((λ p, (targetIqn, p)) <$> targets)))
  | RemoveAll path => λ w,
      (None, mkWorld (mounts w) (os_RemoveAll path (paths w)) (files w) (sessions w))
  | Remove name => λ w,
      match files w !! name with
      | Some _ => (None, mkWorld (mounts w) (paths w) (delete name (files w)) (sessions w))
      | None => (Some (no_such_file "remove" name), w)
      end
  end.

(** A call that fails for a reason of its own (an I/O error, a timeout)
    answers with the error and changes nothing.  [Log] and [Disconnect]
    report no error. *)
Definition failed {R} (e : NodeE R) : option (error → R) :=
  match e in NodeE R return option (error → R) with
  | Log _ _ => None
  | Connect c => Some (λ err, (c, "", Some err))
  | IsLikelyNotMountPoint _ => Some (λ err, (true, Some err))
  | MkdirAll _ _ => Some (λ err, Some err)
  | PersistConnector _ _ => Some (λ err, Some err)
  | FormatAndMount _ _ _ _ => Some (λ err, Some err)
  | GetDeviceNameFromMount _ => Some (λ err, ("", 0%Z, Some err))
  | PathExists _ => Some (λ err, (false, Some err))
  | GetConnectorFromFile _ => Some (λ err, Err err)
  | Unmount _ => Some (λ err, Some err)
  | DisconnectVolume c => Some (λ err, (c, Some err))
  | Disconnect _ _ => None
  | RemoveAll _ => Some (λ err, Some err)
  | Remove _ => Some (λ err, Some err)
  end.

(** Which calls fail, and with what text.  The injected errors are not
    "does not exist" errors: those the model raises itself, when the file or
    path is really missing. *)
Definition Faults : Type := ∀ R, NodeE R → option string.

Definition no_faults : Faults := λ _ _, None.

Definition node_with (flt : Faults) : handler (E:=NodeE) World := λ R e w,
  match failed e with
  | Some answer =>
      match flt R e with
      | Some msg => (answer (LibError false msg), w)
      | None => node R e w
      end
  | None => node R e w
  end.

(** Nothing is left to detach at [targetPath]: the path or the Connector
    file of the volume is gone. *)
Definition already_detached (driverName : string) (c : iscsiDiskUnmounter)
  (targetPath : string) (w : World) : Prop :=
  targetPath ∉ paths w ∨
  files w !! getIscsiInfoPath driverName (VolName (unmounter_disk c)) = None.

End Node.

(** ** The controller server *)

Module Controller.

(** Modelled from the spec: the struct [driver] is declared outside these
    files; of its fields the controller calls read the API endpoint and the
    initiator name. *)
Record driver := mkDriver {
  apiURL : string;
  initiatorName : string;
}.

(** The [Driver] pointer is set when the server is built. *)
Record ControllerServer := mkControllerServer {
  Driver : driver;
}.

Record VolumeRequest := mkVolumeRequest {
  vr_InitiatorName : string;
  vr_Capacity : Z;
}.

Record VolumeResponse := mkVolumeResponse {
  VolumeID : string;
  TargetPortal : string;
  Iqn : string;
  Lun : string;
  DiscoveryCHAPAuth : string;
  SessionCHAPAuth : string;
}.

Record DeleteVolumeRequest := mkDeleteVolumeRequest {
  dvr_VolumeID : string;
}.

Record VolumeResizeRequest := mkVolumeResizeRequest {
  vrr_VolumeID : string;
  vrr_Capacity : Z;
}.

(** [csi.CapacityRange] *)
Record CapacityRange := mkCapacityRange {
  RequiredBytes : Z;
  LimitBytes : Z;
}.

(** [csi.CreateVolumeRequest]; [CapacityRange] is a pointer and may be nil. *)
Record CreateVolumeRequest := mkCreateVolumeRequest {
  Name : string;
  cvr_CapacityRange : option CapacityRange;
}.

(** [csi.Volume] *)
Record Volume := mkVolume {
  VolumeId : string;
  CapacityBytes : Z;
  VolumeContext : gmap string string;
}.

Record CreateVolumeResponse := mkCreateVolumeResponse {
  cv_Volume : Volume;
}.

(** [csi.DeleteVolumeRequest] *)
Record csi_DeleteVolumeRequest := mkCsiDeleteVolumeRequest {
  del_VolumeId : string;
}.

(** [csi.ControllerExpandVolumeRequest] *)
Record ControllerExpandVolumeRequest := mkControllerExpandVolumeRequest {
  exp_VolumeId : string;
  exp_CapacityRange : option CapacityRange;
}.

Record ControllerExpandVolumeResponse := mkControllerExpandVolumeResponse {
  exp_CapacityBytes : Z;
}.

(** [encoding/json] for the payloads of the volume API, a parameter like
    [JsonText]. *)
Class JsonApi := {
  json_Marshal_VolumeRequest : VolumeRequest → result string;
  json_Marshal_DeleteVolumeRequest : DeleteVolumeRequest → result string;
  json_Marshal_VolumeResizeRequest : VolumeResizeRequest → result string;
  (** [json.NewDecoder(bytes.NewReader(resp)).Decode(&volResp)] *)
  json_Decode_VolumeResponse : string → result VolumeResponse;
}.

(** The calls of the controller: [klog.V(v)] lines and the HTTP client of
    the volume API, [viriumHttpClient(method, url, body)]. *)
Inductive CtrlE : Type → Type :=
| KlogV (v : nat) (msg : string) : CtrlE unit
| viriumHttpClient (method url body : string) : CtrlE (result string).

Inductive CtrlEv :=
| EvKlogV (v : nat) (msg : string)
| EvHttp (method url body : string) (r : result string).

Definition observe (R : Type) (e : CtrlE R) : R → CtrlEv :=
  match e in CtrlE R return R → CtrlEv with
  | KlogV v msg => λ _, EvKlogV v msg
  | viriumHttpClient method url body => λ r, EvHttp method url body r
  end.

(** How a call ends: it returns its pair, or the goroutine panics. *)
Inductive outcome (A : Type) :=
| Returns (r : result A)
| Panics (msg : string).
Arguments Returns {A} r.
Arguments Panics {A} msg.

Definition nil_dereference : string :=
  "runtime error: invalid memory address or nil pointer dereference".

Section WithJson.
Context `{JsonText} `{JsonApi}.

Definition CreateVolume (cs : ControllerServer) (req : CreateVolumeRequest)
  : Prog CtrlE (outcome CreateVolumeResponse) :=
  call (KlogV 1 ("Creating Volume via API for:" +:+ Name req));;
  (* Step 1: Prepare request payload *)
  let apiURL := apiURL (Driver cs) +:+ "/api/volumes/create" in
  match cvr_CapacityRange req with
  | None => mret (Panics nil_dereference)
  | Some capacityRange =>
  let payload := {| vr_InitiatorName := initiatorName (Driver cs);
                    vr_Capacity := RequiredBytes capacityRange |} in
  match json_Marshal_VolumeRequest payload with
  | Err err =>
      mret (Returns (Err (fmt_Errorf ("failed to marshal request: " +:+ Error err))))
  | Ok jsonData =>
  resp ← call (viriumHttpClient "POST" apiURL jsonData);
  match resp with
  | Err err => mret (Returns (Err (fmt_Errorf ("API request failed: " +:+ Error err))))
  | Ok resp =>
  match json_Decode_VolumeResponse resp with
  | Err err =>
      mret (Returns (Err (fmt_Errorf ("failed to parse volume response: " +:+ Error err))))
  | Ok volResp =>
  let portals : list string := [] in
  let portals := (portals ++ [TargetPortal volResp])%list in
  let portalList := match json_Marshal_strings portals with Ok b => b | Err _ => "" end in
  call (KlogV 1 ("Volume created successfully" +:+ Name req));;
  (* Step 4: Return CSI-compatible volume response *)
  mret (Returns (Ok {| cv_Volume := {|
    VolumeId := VolumeID volResp;
    CapacityBytes := RequiredBytes capacityRange;
    VolumeContext :=
      <["portals" := portalList]> (
      <["targetPortal" := TargetPortal volResp]> (
      <["iqn" := Iqn volResp]> (
      <["lun" := Lun volResp]> (
      <["interface" := "default"]> (
      <["discoveryCHAPAuth" := DiscoveryCHAPAuth volResp]> (
      <["sessionCHAPAuth" := SessionCHAPAuth volResp]> ∅)))))) |} |}))
  end end end end.

Definition DeleteVolume (cs : ControllerServer) (req : csi_DeleteVolumeRequest)
  : Prog CtrlE (outcome unit) :=
  let volumeID := del_VolumeId req in
  if volumeID =? "" then mret (Returns (Err (fmt_Errorf "volume ID is required"))) else
  call (KlogV 1 ("Deleting Volume via API:" +:+ volumeID));;
  (* Step 1: Prepare request payload *)
  let apiURL := apiURL (Driver cs) +:+ "/api/volumes/delete" in
  let payload := {| dvr_VolumeID := volumeID |} in
  match json_Marshal_DeleteVolumeRequest payload with
  | Err err =>
      mret (Returns (Err (fmt_Errorf ("failed to marshal request: " +:+ Error err))))
  | Ok jsonData =>
  resp ← call (viriumHttpClient "DELETE" apiURL jsonData);
  match resp with
  | Err err => mret (Returns (Err (fmt_Errorf ("API request failed: " +:+ Error err))))
  | Ok _ =>
  call (KlogV 1 ("Volume successfully deleted" +:+ volumeID));;
  mret (Returns (Ok tt))
  end end.

Definition ControllerExpandVolume (cs : ControllerServer)
  (req : ControllerExpandVolumeRequest)
  : Prog CtrlE (outcome ControllerExpandVolumeResponse) :=
  if (String.length (exp_VolumeId req) =? 0)%nat then
    mret (Returns (Err (status_Error InvalidArgument "Volume ID missing in request")))
  else
  match exp_CapacityRange req with
  | None =>
      mret (Returns (Err (status_Error InvalidArgument "Capacity Range missing in request")))
  | Some capacityRange =>
  call (KlogV 1 ("Expand Volume" +:+ exp_VolumeId req));;
  let volSizeBytes := RequiredBytes capacityRange in
  (* Step 1: Prepare request payload *)
  let apiURL := apiURL (Driver cs) +:+ "/api/volumes/resize" in
  let payload := {| vrr_VolumeID := exp_VolumeId req; vrr_Capacity := volSizeBytes |} in
  match json_Marshal_VolumeResizeRequest payload with
  | Err err =>
      mret (Returns (Err (fmt_Errorf ("failed to marshal request: " +:+ Error err))))
  | Ok jsonData =>
  resp ← call (viriumHttpClient "POST" apiURL jsonData);
  match resp with
  | Err err => mret (Returns (Err (fmt_Errorf ("API request failed: " +:+ Error err))))
  | Ok resp =>
  match json_Decode_VolumeResponse resp with
  | Err err =>
      mret (Returns (Err (fmt_Errorf ("failed to parse volume response: " +:+ Error err))))
  | Ok volResp =>
  call (KlogV 1 ("Expand Volume " +:+ exp_VolumeId req +:+
    " successfully, currentQuota: " +:+ pretty volSizeBytes +:+ " bytes"));;
  mret (Returns (Ok {| exp_CapacityBytes := RequiredBytes capacityRange |}))
  end end end end.

End WithJson.
End Controller.

(** ** A JSON reader and writer to run the examples with

    [GoJson] instantiates [JsonText] and [JsonApi] on JSON texts the way
    [encoding/json] reads and writes them for the types of the driver.  Bytes
    above 127 pass through unchanged.  No theorem about the driver depends on
    it: the theorems are stated for every decoder. *)

Module Json.

Local Unset Elimination Schemes.
Inductive value :=
| Null
| Bool (b : bool)
| Number (literal : string)
| Str (s : string)
| Array (elements : list value)
| Object (members : list (string * value)).
Local Set Elimination Schemes.

Definition code (a : ascii) : N := N_of_ascii a.
Definition char (n : N) : ascii := ascii_of_N n.

Definition is_space (a : ascii) : bool :=
  let n := code a in ((n =? 32) || (n =? 9) || (n =? 10) || (n =? 13))%N.

Fixpoint skip_space (s : string) : string :=
  match s with
  | String a s' => if is_space a then skip_space s' else s
  | EmptyString => s
  end.

Definition hex_digit (a : ascii) : option N :=
  let n := code a in
  if ((48 <=? n) && (n <=? 57))%N then Some (n - 48)%N
  else if ((97 <=? n) && (n <=? 102))%N then Some (n - 87)%N
  else if ((65 <=? n) && (n <=? 70))%N then Some (n - 55)%N
  else None.

(** The four hex digits after a backslash-u. *)
Definition hex4 (s : string) : option (N * string) :=
  match s with
  | String a (String b (String c (String d rest))) =>
      h1 ← hex_digit a; h2 ← hex_digit b; h3 ← hex_digit c; h4 ← hex_digit d;
      Some (((h1 * 16 + h2) * 16 + h3) * 16 + h4, rest)%N
  | _ => None
  end.

(** A code point in UTF-8. *)
Definition utf8 (n : N) : string :=
  if (n <? 128)%N then String (char n) EmptyString
  else if (n <? 2048)%N then
    String (char (192 + n / 64)) (String (char (128 + n mod 64)) EmptyString)
  else if (n <? 65536)%N then
    String (char (224 + n / 4096))
      (String (char (128 + (n / 64) mod 64)) (String (char (128 + n mod 64)) EmptyString))
  else
    String (char (240 + n / 262144))
      (String (char (128 + (n / 4096) mod 64))
         (String (char (128 + (n / 64) mod 64)) (String (char (128 + n mod 64)) EmptyString))).

Definition replacement : N := 65533.

(** The text of a string literal after its opening quote, and what follows
    the closing quote. *)
Fixpoint string_body (fuel : nat) (s : string) : option (string * string) :=
  match fuel with
  | O => None
  | S fuel =>
      match s with
      | EmptyString => None
      | String a s' =>
          let n := code a in
          if (n =? 34)%N then Some (EmptyString, s')
          else if (n <? 32)%N then None
          else if (n =? 92)%N then
            match s' with
            | EmptyString => None
            | String e s'' =>
                let simple (c : N) :=
                  '(t, rest) ← string_body fuel s''; Some (String (char c) t, rest) in
                let k := code e in
                if (k =? 34)%N then simple 34%N
                else if (k =? 92)%N then simple 92%N
                else if (k =? 47)%N then simple 47%N
                else if (k =? 98)%N then simple 8%N
                else if (k =? 102)%N then simple 12%N
                else if (k =? 110)%N then simple 10%N
                else if (k =? 114)%N then simple 13%N
                else if (k =? 116)%N then simple 9%N
                else if (k =? 117)%N then
                  '(u, after) ← hex4 s'';
                  let '(point, after) :=
                    if ((55296 <=? u) && (u <? 56320))%N then
                      match after with
                      | String b1 (String b2 low) =>
                          if ((code b1 =? 92) && (code b2 =? 117))%N then
                            match hex4 low with
                            | Some (v, after') =>
                                if ((56320 <=? v) && (v <? 57344))%N
                                then (65536 + (u - 55296) * 1024 + (v - 56320), after')%N
                                else (replacement, after)
                            | None => (replacement, after)
                            end
                          else (replacement, after)
                      | _ => (replacement, after)
                      end
                    else if ((56320 <=? u) && (u <? 57344))%N then (replacement, after)
                    else (u, after) in
                  '(t, rest) ← string_body fuel after; Some (utf8 point +:+ t, rest)
                else None
            end
          else '(t, rest) ← string_body fuel s'; Some (String a t, rest)
      end
  end.

Fixpoint digits (s : string) : string * string :=
  match s with
  | String a s' =>
      if is_digit a then let '(d, rest) := digits s' in (String a d, rest)
      else (EmptyString, s)
  | EmptyString => (EmptyString, s)
  end.

(** A number literal: sign, integer part without a leading zero, fraction,
    exponent. *)
Definition number (s : string) : option (string * string) :=
  let '(sign, s) :=
    match s with
    | String "-"%char s' => ("-", s')
    | _ => ("", s)
    end in
  let '(whole, s) := digits s in
  match whole with
  | EmptyString => None
  | String "0"%char (String _ _) => None
  | _ =>
      frac ← match s with
             | String "."%char s' =>
                 let '(d, rest) := digits s' in
                 match d with
                 | EmptyString => None
                 | _ => Some ("." +:+ d, rest)
                 end
             | _ => Some ("", s)
             end;
      let '(frac, s) := frac in
      ex ← match s with
           | String e s' =>
               if ((code e =? 101) || (code e =? 69))%N then
                 let '(esign, s'') :=
                   match s' with
                   | String "+"%char r => ("+", r)
                   | String "-"%char r => ("-", r)
                   | _ => ("", s')
                   end in
                 let '(d, rest) := digits s'' in
                 match d with
                 | EmptyString => None
                 | _ => Some (String e esign +:+ d, rest)
                 end
               else Some ("", s)
           | EmptyString => Some ("", s)
           end;
      let '(ex, s) := ex in
      Some (sign +:+ whole +:+ frac +:+ ex, s)
  end.

Fixpoint string_drop (n : nat) (s : string) : string :=
  match n, s with
  | S n, String _ s' => string_drop n s'
  | _, _ => s
  end.

Definition keyword (word : string) (v : value) (s : string) : option (value * string) :=
  if strings_HasPrefix s word
  then Some (v, string_drop (String.length word) s)
  else None.

Fixpoint parse (fuel : nat) (s : string) : option (value * string) :=
  match fuel with
  | O => None
  | S fuel =>
      match skip_space s with
      | EmptyString => None
      | String a s' =>
          let n := code a in
          if (n =? 34)%N then
            '(t, rest) ← string_body (S (String.length s')) s'; Some (Str t, rest)
          else if (n =? 91)%N then
            match skip_space s' with
            | String "]"%char rest => Some (Array [], rest)
            | _ => '(l, rest) ← elements fuel s'; Some (Array l, rest)
            end
          else if (n =? 123)%N then
            match skip_space s' with
            | String "}"%char rest => Some (Object [], rest)
            | _ => '(l, rest) ← members fuel s'; Some (Object l, rest)
            end
          else if (n =? 110)%N then keyword "null" Null (String a s')
          else if (n =? 116)%N then keyword "true" (Bool true) (String a s')
          else if (n =? 102)%N then keyword "false" (Bool false) (String a s')
          else '(lit, rest) ← number (String a s'); Some (Number lit, rest)
      end
  end
with elements (fuel : nat) (s : string) : option (list value * string) :=
  match fuel with
  | O => None
  | S fuel =>
      '(v, rest) ← parse fuel s;
      match skip_space rest with
      | String ","%char rest' => '(l, rest'') ← elements fuel rest'; Some (v :: l, rest'')
      | String "]"%char rest' => Some ([v], rest')
      | _ => None
      end
  end
with members (fuel : nat) (s : string) : option (list (string * value) * string) :=
  match fuel with
  | O => None
  | S fuel =>
      match skip_space s with
      | String q s' =>
          if (code q =? 34)%N then
            '(k, rest) ← string_body (S (String.length s')) s';
            match skip_space rest with
            | String ":"%char rest' =>
                '(v, rest'') ← parse fuel rest';
                match skip_space rest'' with
                | String ","%char r => '(l, r') ← members fuel r; Some ((k, v) :: l, r')
                | String "}"%char r => Some ([(k, v)], r)
                | _ => None
                end
            | _ => None
            end
          else None
      | EmptyString => None
      end
  end.


Definition json_error (msg : string) : error := LibError false msg.

(** [json.Unmarshal]: the text is one value, with nothing but space around. *)
Definition whole (s : string) : result value :=
  match parse (2 * String.length s + 2) s with
  | Some (v, rest) =>
      if skip_space rest =? ""
      then Ok v
      else Err (json_error "invalid character after top-level value")
  | None =>
      if skip_space s =? ""
      then Err (json_error "unexpected end of JSON input")
      else Err (json_error "invalid character in JSON text")
  end.

(** [Decoder.Decode]: the first value of the stream. *)
Definition leading (s : string) : result value :=
  match parse (2 * String.length s + 2) s with
  | Some (v, _) => Ok v
  | None =>
      if skip_space s =? ""
      then Err (json_error "EOF")
      else Err (json_error "invalid character in JSON text")
  end.

(** A value read into a Go [string]: null changes nothing. *)
Definition into_string (old : string) (v : value) : result string :=
  match v with
  | Str s => Ok s
  | Null => Ok old
  | _ => Err (json_error "json: cannot unmarshal value into Go value of type string")
  end.

Definition into_strings (v : value) : result (list string) :=
  match v with
  | Null => Ok []
  | Array l =>
      foldr (λ x acc, s ← into_string "" x; l' ← acc; Ok (s :: l')) (Ok []) l
  | _ => Err (json_error "json: cannot unmarshal value into Go value of type []string")
  end.

(** Into a map: of two members with one key the later one stays. *)
Definition into_map (v : value) : result (gmap string string) :=
  match v with
  | Null => Ok ∅
  | Object l =>
      foldl (λ acc kv, m ← acc; s ← into_string "" kv.2; Ok (<[kv.1 := s]> m)) (Ok ∅) l
  | _ =>
      Err (json_error "json: cannot unmarshal value into Go value of type map[string]string")
  end.

Definition hex_char (n : N) : ascii :=
  if (n <? 10)%N then char (48 + n) else char (87 + n).

(** A string literal as [json.Marshal] writes it, HTML characters escaped. *)
Fixpoint escape (s : string) : string :=
  match s with
  | EmptyString => EmptyString
  | String a s' =>
      let n := code a in
      let u := String (char 92) ("u00" +:+ String (hex_char (n / 16))
                 (String (hex_char (n mod 16)) EmptyString)) in
      (if ((n =? 34) || (n =? 92))%N then String (char 92) (String a EmptyString)
       else if (n =? 10)%N then String (char 92) "n"
       else if (n =? 13)%N then String (char 92) "r"
       else if (n =? 9)%N then String (char 92) "t"
       else if ((n <? 32) || (n =? 60) || (n =? 62) || (n =? 38))%N then u
       else String a EmptyString) +:+ escape s'
  end.

Definition quoted (s : string) : string := dquote +:+ escape s +:+ dquote.

Fixpoint join (sep : string) (l : list string) : string :=
  match l with
  | [] => ""
  | [s] => s
  | s :: l' => s +:+ sep +:+ join sep l'
  end.

Definition write_strings (l : list string) : string :=
  "[" +:+ join "," (quoted <$> l) +:+ "]".

Definition write_object (l : list (string * string)) : string :=
  "{" +:+ join "," ((λ kv, quoted kv.1 +:+ ":" +:+ kv.2) <$> l) +:+ "}".

Definition lower (a : ascii) : ascii :=
  let n := code a in if ((65 <=? n) && (n <=? 90))%N then char (n + 32) else a.

Fixpoint fold_case (s : string) : string :=
  match s with
  | EmptyString => EmptyString
  | String a s' => String (lower a) (fold_case s')
  end.

(** The struct field a member name selects: the tag that equals it, else a
    tag that equals it up to the case of its letters. *)
Definition select (tags : list string) (name : string) : option string :=
  match list_find (λ t, t = name) tags with
  | Some (_, t) => Some t
  | None => snd <$> list_find (λ t, fold_case t = fold_case name) tags
  end.

End Json.

Global Instance GoJson : JsonText := {|
  json_Unmarshal_strings s := Json.whole s ≫= Json.into_strings;
  json_Unmarshal_map s := Json.whole s ≫= Json.into_map;
  json_Marshal_strings l := Ok (Json.write_strings l);
|}.

Module GoJsonApi.
Import Controller.

Definition tags : list string :=
  ["volume_id"; "targetPortal"; "iqn"; "lun"; "discoveryCHAPAuth"; "sessionCHAPAuth"].

Definition set_field (r : VolumeResponse) (tag : string) (v : Json.value)
  : result VolumeResponse :=
  if tag =? "volume_id" then
    s ← Json.into_string (VolumeID r) v;
    Ok (mkVolumeResponse s (TargetPortal r) (Iqn r) (Lun r)
          (DiscoveryCHAPAuth r) (SessionCHAPAuth r))
  else if tag =? "targetPortal" then
    s ← Json.into_string (TargetPortal r) v;
    Ok (mkVolumeResponse (VolumeID r) s (Iqn r) (Lun r)
          (DiscoveryCHAPAuth r) (SessionCHAPAuth r))
  else if tag =? "iqn" then
    s ← Json.into_string (Iqn r) v;
    Ok (mkVolumeResponse (VolumeID r) (TargetPortal r) s (Lun r)
          (DiscoveryCHAPAuth r) (SessionCHAPAuth r))
  else if tag =? "lun" then
    s ← Json.into_string (Lun r) v;
    Ok (mkVolumeResponse (VolumeID r) (TargetPortal r) (Iqn r) s
          (DiscoveryCHAPAuth r) (SessionCHAPAuth r))
  else if tag =? "discoveryCHAPAuth" then
    s ← Json.into_string (DiscoveryCHAPAuth r) v;
    Ok (mkVolumeResponse (VolumeID r) (TargetPortal r) (Iqn r) (Lun r)
          s (SessionCHAPAuth r))
  else
    s ← Json.into_string (SessionCHAPAuth r) v;
    Ok (mkVolumeResponse (VolumeID r) (TargetPortal r) (Iqn r) (Lun r)
          (DiscoveryCHAPAuth r) s).

Definition into_VolumeResponse (v : Json.value) : result VolumeResponse :=
  let zero := mkVolumeResponse "" "" "" "" "" "" in
  match v with
  | Json.Null => Ok zero
  | Json.Object l =>
      foldl (λ acc kv,
               r ← acc;
               match Json.select tags kv.1 with
               | Some tag => set_field r tag kv.2
               | None => Ok r
               end) (Ok zero) l
  | _ =>
      Err (Json.json_error
             "json: cannot unmarshal value into Go value of type main.VolumeResponse")
  end.

Global Instance GoJsonApi : JsonApi := {|
  json_Marshal_VolumeRequest p :=
    Ok (Json.write_object [("initiator_name", Json.quoted (vr_InitiatorName p));
                           ("capacity", pretty (vr_Capacity p))]);
  json_Marshal_DeleteVolumeRequest p :=
    Ok (Json.write_object [("volume_id", Json.quoted (dvr_VolumeID p))]);
  json_Marshal_VolumeResizeRequest p :=
    Ok (Json.write_object [("volume_id", Json.quoted (vrr_VolumeID p));
                           ("capacity", pretty (vrr_Capacity p))]);
  json_Decode_VolumeResponse s := Json.leading s ≫= into_VolumeResponse;
|}.

End GoJsonApi.

(** ** What the statements below speak of *)

Module Events.
Import IscsiUtil.

(** Calls that take an attachment down: removing the device, logging out of
    the target, deleting the mount directory or the Connector file. *)
Definition is_teardown (ev : NodeEv) : bool :=
  match ev with
  | EvDisconnectVolume _ _ _ | EvDisconnect _ _ | EvRemoveAll _ _ | EvRemove _ _ => true
  | _ => false
  end.

Definition is_unmount (ev : NodeEv) : bool :=
  match ev with
  | EvUnmount _ _ => true
  | _ => false
  end.

Definition is_mount (ev : NodeEv) : bool :=
  match ev with
  | EvFormatAndMount _ _ _ _ _ => true
  | _ => false
  end.

(** [x] is recorded in [tr] before [y]. *)
Definition precedes {A} (x y : A) (tr : list A) : Prop :=
  ∃ i j, i < j ∧ tr !! i = Some x ∧ tr !! j = Some y.

End Events.

(** ** CHAP secrets, as the statements speak of them *)

Module Chap.

Definition session_keys : list string :=
  ["node.session.auth.username"; "node.session.auth.password";
   "node.session.auth.username_in"; "node.session.auth.password_in"].

Definition discovery_keys : list string :=
  ["node.sendtargets.auth.username"; "node.sendtargets.auth.password";
   "node.sendtargets.auth.username_in"; "node.sendtargets.auth.password_in"].

(** All four credentials of [s] are the values the map has under [keys], and
    [s] is tagged [chap]. *)
Definition populated (keys : list string) (m : gmap string string) (s : Secrets) : Prop :=
  SecretsType s = "chap" ∧
  (λ k, m !! k) <$> keys = Some <$> [UserName s; Password s; UserNameIn s; PasswordIn s].

(** A parse either returns populated secrets and no error, or the zero
    secrets and an error, the latter when one of the keys is missing. *)
Definition all_or_nothing (keys : list string) (m : gmap string string)
  (r : Secrets * option error) : Prop :=
  (r.2 = None ∧ populated keys m r.1 ∧ Forall (λ k, is_Some (m !! k)) keys) ∨
  (r.1 = Secrets_zero ∧ is_Some r.2 ∧ Exists (λ k, m !! k = None) keys).

End Chap.

(** ** Concrete requests, nodes and collaborators *)

Module Examples.
Import Iscsi IscsiUtil Node.

(** The run directory of the deployment manifest is
    [/var/run/virium-iscsi.csi.k8s.io]. *)
Definition driverName : string := "virium-iscsi.csi.k8s.io".

(** The scenario of the spec: volume [vol-1], the single portal [10.0.0.5],
    LUN 0, [ext4], no CHAP, no [portals] array. *)
Definition publish_vol1 : NodePublishVolumeRequest :=
  {| VolumeId := "vol-1";
     VolumeContext :=
       <["target_portal" := "10.0.0.5"]> (
       <["target_iqn" := "iqn.2025-01.test:vol1"]> (
       <["lun" := "0"]> ∅));
     TargetPath := "/pods/a/mount";
     Readonly := false;
     Mount := Some {| FsType := "ext4"; MountFlags := [] |} |}.

(** The same request with a [portals] array of two more portals. *)
Definition publish_vol1_multipath : NodePublishVolumeRequest :=
  {| VolumeId := "vol-1";
     VolumeContext :=
       <["portals" := Json.write_strings ["10.0.0.6"; "10.0.0.7:3261"]]>
         (VolumeContext publish_vol1);
     TargetPath := "/pods/a/mount";
     Readonly := false;
     Mount := Some {| FsType := "ext4"; MountFlags := [] |} |}.

(** A request with nothing in its volume context. *)
Definition publish_empty : NodePublishVolumeRequest :=
  {| VolumeId := "vol-1"; VolumeContext := ∅;
     TargetPath := "/pods/a/mount"; Readonly := false; Mount := None |}.

Definition session_secret : gmap string string :=
  <["node.session.auth.username" := "alice"]> (
  <["node.session.auth.password" := "s3cret"]> (
  <["node.session.auth.username_in" := "target"]> (
  <["node.session.auth.password_in" := "t4rget"]> ∅))).

Definition connector_vol1 : Connector :=
  {| VolumeName := "vol-1"; TargetIqn := "iqn.2025-01.test:vol1";
     TargetPortals := ["10.0.0.5:3260"]; Lun := 0; DoCHAPDiscovery := true;
     DiscoverySecrets := Secrets_zero; SessionSecrets := Secrets_zero;
     Interface := ""; MultipathDevice := "" |}.

Definition mounter_vol1 : iscsiDiskMounter :=
  {| mounter_disk := unmounter_disk (getISCSIDiskUnmounter
                       (mkNodeUnpublishVolumeRequest "vol-1" "/pods/a/mount"));
     readOnly := false; fsType := "ext4"; mountOptions := [];
     targetPath := "/pods/a/mount"; connector := Some connector_vol1 |}.

Definition unmounter_vol1 : iscsiDiskUnmounter :=
  getISCSIDiskUnmounter (mkNodeUnpublishVolumeRequest "vol-1" "/pods/a/mount").

(** Collaborators that answer from a script. *)
Record Script := mkScript {
  on_Connect : string * option error;
  on_IsLikelyNotMountPoint : bool * option error;
  on_MkdirAll : option error;
  on_PersistConnector : option error;
  on_FormatAndMount : option error;
  on_GetDeviceNameFromMount : string * Z * option error;
  on_PathExists : bool * option error;
  on_GetConnectorFromFile : result Connector;
  on_Unmount : option error;
  on_DisconnectVolume : option error;
  on_RemoveAll : option error;
  on_Remove : option error;
}.

Definition scripted (s : Script) : oracle (E:=NodeE) (Ev:=NodeEv) := λ R _ e,
  match e in NodeE R return R with
  | Log _ _ => tt
  | Connect c => (c, (on_Connect s).1, (on_Connect s).2)
  | IsLikelyNotMountPoint _ => on_IsLikelyNotMountPoint s
  | MkdirAll _ _ => on_MkdirAll s
  | PersistConnector _ _ => on_PersistConnector s
  | FormatAndMount _ _ _ _ => on_FormatAndMount s
  | GetDeviceNameFromMount _ => on_GetDeviceNameFromMount s
  | PathExists _ => on_PathExists s
  | GetConnectorFromFile _ => on_GetConnectorFromFile s
  | Unmount _ => on_Unmount s
  | DisconnectVolume c => (c, on_DisconnectVolume s)
  | Disconnect _ _ => tt
  | RemoveAll _ => on_RemoveAll s
  | Remove _ => on_Remove s
  end.

Definition io_error : error := LibError false "input/output error".

(** Every call succeeds; the device is mounted once. *)
Definition all_well : Script :=
  {| on_Connect := ("/dev/sdb", None); on_IsLikelyNotMountPoint := (true, None);
     on_MkdirAll := None; on_PersistConnector := None; on_FormatAndMount := None;
     on_GetDeviceNameFromMount := ("/dev/sdb", 1%Z, None);
     on_PathExists := (true, None); on_GetConnectorFromFile := Ok connector_vol1;
     on_Unmount := None; on_DisconnectVolume := None; on_RemoveAll := None;
     on_Remove := None |}.

(** The format-and-mount step fails. *)
Definition mount_fails : Script :=
  {| on_Connect := ("/dev/sdb", None); on_IsLikelyNotMountPoint := (true, None);
     on_MkdirAll := None; on_PersistConnector := None;
     on_FormatAndMount := Some io_error;
     on_GetDeviceNameFromMount := ("/dev/sdb", 1%Z, None);
     on_PathExists := (true, None); on_GetConnectorFromFile := Ok connector_vol1;
     on_Unmount := None; on_DisconnectVolume := None; on_RemoveAll := None;
     on_Remove := None |}.

(** The Connector cannot be written. *)
Definition persist_fails : Script :=
  {| on_Connect := ("/dev/sdb", None); on_IsLikelyNotMountPoint := (true, None);
     on_MkdirAll := None; on_PersistConnector := Some io_error;
     on_FormatAndMount := None;
     on_GetDeviceNameFromMount := ("/dev/sdb", 1%Z, None);
     on_PathExists := (true, None); on_GetConnectorFromFile := Ok connector_vol1;
     on_Unmount := None; on_DisconnectVolume := None; on_RemoveAll := None;
     on_Remove := None |}.

(** The device is mounted at two paths. *)
Definition mounted_twice : Script :=
  {| on_Connect := ("/dev/sdb", None); on_IsLikelyNotMountPoint := (true, None);
     on_MkdirAll := None; on_PersistConnector := None; on_FormatAndMount := None;
     on_GetDeviceNameFromMount := ("/dev/sdb", 2%Z, None);
     on_PathExists := (true, None); on_GetConnectorFromFile := Ok connector_vol1;
     on_Unmount := None; on_DisconnectVolume := None; on_RemoveAll := None;
     on_Remove := None |}.

(** The Connector file is gone. *)
Definition connector_file_gone : Script :=
  {| on_Connect := ("/dev/sdb", None); on_IsLikelyNotMountPoint := (true, None);
     on_MkdirAll := None; on_PersistConnector := None; on_FormatAndMount := None;
     on_GetDeviceNameFromMount := ("", 0%Z, None);
     on_PathExists := (true, None);
     on_GetConnectorFromFile :=
       Err (no_such_file "open" (getIscsiInfoPath driverName "vol-1"));
     on_Unmount := None; on_DisconnectVolume := None; on_RemoveAll := None;
     on_Remove := None |}.

(** A node with nothing attached. *)
Definition fresh_node : World :=
  {| mounts := []; paths := ∅; files := ∅; sessions := ∅ |}.

(** A node with [vol-1] attached and mounted at one path. *)
Definition node_mounted_once : World :=
  {| mounts := [("/dev/sdb", "/pods/a/mount")];
     paths := {[ "/pods/a/mount" ]};
     files := {[ getIscsiInfoPath driverName "vol-1" := connector_vol1 ]};
     sessions := {[ ("iqn.2025-01.test:vol1", "10.0.0.5:3260") ]} |}.

(** A node with the device of [vol-1] mounted at the paths of two pods. *)
Definition node_mounted_twice : World :=
  {| mounts := [("/dev/sdb", "/pods/a/mount"); ("/dev/sdb", "/pods/b/mount")];
     paths := {[ "/pods/a/mount"; "/pods/b/mount" ]};
     files := {[ getIscsiInfoPath driverName "vol-1" := connector_vol1 ]};
     sessions := {[ ("iqn.2025-01.test:vol1", "10.0.0.5:3260") ]} |}.

Definition server : Controller.ControllerServer :=
  Controller.mkControllerServer
    (Controller.mkDriver "http://virium-api:8787" "iqn.2025-04.net.virer.virium:node1").

(** The body the volume API answers a create with. *)
Definition created_body : string :=
  Json.write_object
    [("volume_id", Json.quoted "vol-1");
     ("targetPortal", Json.quoted "10.0.0.5");
     ("iqn", Json.quoted "iqn.2025-01.test:vol1");
     ("lun", Json.quoted "0");
     ("discoveryCHAPAuth", Json.quoted "false");
     ("sessionCHAPAuth", Json.quoted "false")].

Definition volume_api : oracle (E:=Controller.CtrlE) (Ev:=Controller.CtrlEv) := λ R _ e,
  match e in Controller.CtrlE R return R with
  | Controller.KlogV _ _ => tt
  | Controller.viriumHttpClient _ _ _ => Ok created_body
  end.

(** What [CreateVolume] makes of that answer, and a publish request that
    carries the volume context as returned. *)
Definition created_vol1 : Controller.CreateVolumeResponse :=
  Controller.mkCreateVolumeResponse
    (Controller.mkVolume "vol-1" 1073741824
       (<["portals" := Json.write_strings ["10.0.0.5"]]> (
        <["targetPortal" := "10.0.0.5"]> (
        <["iqn" := "iqn.2025-01.test:vol1"]> (
        <["lun" := "0"]> (
        <["interface" := "default"]> (
        <["discoveryCHAPAuth" := "false"]> (
        <["sessionCHAPAuth" := "false"]> ∅)))))))).

Definition publish_created : NodePublishVolumeRequest :=
  {| VolumeId := "vol-1";
     VolumeContext := Controller.VolumeContext (Controller.cv_Volume created_vol1);
     TargetPath := "/pods/a/mount"; Readonly := false; Mount := None |}.

Definition create_vol1 : Controller.CreateVolumeRequest :=
  Controller.mkCreateVolumeRequest "pvc-1"
    (Some (Controller.mkCapacityRange 1073741824 0)).

End Examples.

(** ** The rest of the controller server: snapshots, validation and the
    calls the driver does not implement *)

Module ControllerRest.
Import Controller.

Record SnapshotRequest := mkSnapshotRequest {
  sr_VolumeID : string;
}.

(** The field is named [VolumeID] in the source and tagged [snapshot_id]. *)
Record SnapshotResponse := mkSnapshotResponse {
  sresp_VolumeID : string;
}.

Record DeleteSnapshotRequest := mkDeleteSnapshotRequest {
  dsr_SnapshotID : string;
}.

(** [csi.CreateSnapshotRequest], with the two fields that name things. *)
Record CreateSnapshotRequest := mkCreateSnapshotRequest {
  snap_SourceVolumeId : string;
  snap_Name : string;
}.

(** [timestamppb.Timestamp] *)
Record Timestamp := mkTimestamp {
  Seconds : Z;
  Nanos : Z;
}.

(** [csi.Snapshot] *)
Record Snapshot := mkSnapshot {
  SnapshotId : string;
  SourceVolumeId : string;
  CreationTime : Timestamp;
  ReadyToUse : bool;
}.

Record CreateSnapshotResponse := mkCreateSnapshotResponse {
  cs_Snapshot : Snapshot;
}.

(** [csi.DeleteSnapshotRequest] *)
Record csi_DeleteSnapshotRequest := mkCsiDeleteSnapshotRequest {
  dels_SnapshotId : string;
}.

(** [encoding/json] for the snapshot payloads, a parameter like [JsonApi]. *)
Class JsonSnapshotApi := {
  json_Marshal_SnapshotRequest : SnapshotRequest → result string;
  json_Marshal_DeleteSnapshotRequest : DeleteSnapshotRequest → result string;
  (** [json.NewDecoder(bytes.NewReader(resp)).Decode(&volResp)] *)
  json_Decode_SnapshotResponse : string → result SnapshotResponse;
}.

(** The calls of the snapshot functions: those of the controller, and the
    clock behind [timestamppb.Now()]. *)
Inductive SnapE : Type → Type :=
| Ctrl {R : Type} (e : CtrlE R) : SnapE R
| timestamppb_Now : SnapE Timestamp.

Inductive SnapEv :=
| EvCtrl (ev : CtrlEv)
| EvNow (t : Timestamp).

Definition observe_snap (R : Type) (e : SnapE R) : R → SnapEv :=
  match e in SnapE R return R → SnapEv with
  | Ctrl e => λ r, EvCtrl (observe _ e r)
  | timestamppb_Now => λ t, EvNow t
  end.

(** The requests to the volume API in a trace of the controller. *)
Definition is_api_call (ev : CtrlEv) : bool :=
  match ev with
  | EvHttp _ _ _ _ => true
  | _ => false
  end.

Definition is_http (ev : SnapEv) : bool :=
  match ev with
  | EvCtrl (EvHttp _ _ _ _) => true
  | _ => false
  end.

Section WithJson.
Context `{JsonSnapshotApi}.

Definition CreateSnapshot (cs : ControllerServer) (req : CreateSnapshotRequest)
  : Prog SnapE (outcome CreateSnapshotResponse) :=
  call (Ctrl (KlogV 1 ("Creating snapshot via API for:" +:+ snap_Name req)));;
  (* Step 1: Prepare request payload *)
  let apiURL := apiURL (Driver cs) +:+ "/api/snapshot/create" in
  let payload := {| sr_VolumeID := snap_Name req |} in
  match json_Marshal_SnapshotRequest payload with
  | Err err =>
      mret (Returns (Err (fmt_Errorf ("failed to marshal request: " +:+ Error err))))
  | Ok jsonData =>
  resp ← call (Ctrl (viriumHttpClient "POST" apiURL jsonData));
  match resp with
  | Err err => mret (Returns (Err (fmt_Errorf ("API request failed: " +:+ Error err))))
  | Ok resp =>
  match json_Decode_SnapshotResponse resp with
  | Err err =>
      mret (Returns (Err (fmt_Errorf ("failed to parse volume response: " +:+ Error err))))
  | Ok volResp =>
  call (Ctrl (KlogV 1 ("Snapshot created successfully, snapshotId:" +:+
    sresp_VolumeID volResp)));;
  (* Step 4: Return CSI-compatible volume response *)
  now ← call timestamppb_Now;
  mret (Returns (Ok {| cs_Snapshot := {|
    SnapshotId := sresp_VolumeID volResp;
    SourceVolumeId := snap_Name req;
    CreationTime := now;
    ReadyToUse := true |} |}))
  end end end.

Definition DeleteSnapshot (cs : ControllerServer) (req : csi_DeleteSnapshotRequest)
  : Prog SnapE (outcome unit) :=
  let snapshotID := dels_SnapshotId req in
  if snapshotID =? "" then mret (Returns (Err (fmt_Errorf "snapshot ID is required"))) else
  call (Ctrl (KlogV 1 ("Deleting Volume via API:" +:+ snapshotID)));;
  (* Step 1: Prepare request payload *)
  let apiURL := apiURL (Driver cs) +:+ "/api/snapshot/delete" in
  let payload := {| dsr_SnapshotID := snapshotID |} in
  match json_Marshal_DeleteSnapshotRequest payload with
  | Err err =>
      mret (Returns (Err (fmt_Errorf ("failed to marshal request: " +:+ Error err))))
  | Ok jsonData =>
  resp ← call (Ctrl (viriumHttpClient "DELETE" apiURL jsonData));
  match resp with
  | Err err => mret (Returns (Err (fmt_Errorf ("API request failed: " +:+ Error err))))
  | Ok _ =>
  call (Ctrl (KlogV 1 ("Snapshot successfully deleted:" +:+ snapshotID)));;
  mret (Returns (Ok tt))
  end end.

End WithJson.

Section Validate.
(** [csi.VolumeCapability], and the check [isValidVolumeCapabilities], which
    is declared outside these files. *)
Context {VolumeCapability : Type}.
Variable isValidVolumeCapabilities : list VolumeCapability → option error.

Record ValidateVolumeCapabilitiesRequest := mkValidateVolumeCapabilitiesRequest {
  val_VolumeId : string;
  val_VolumeCapabilities : list VolumeCapability;
}.

(** The response: the confirmed capabilities and the message. *)
Record ValidateVolumeCapabilitiesResponse := mkValidateVolumeCapabilitiesResponse {
  Confirmed : list VolumeCapability;
  Message : string;
}.

Definition ValidateVolumeCapabilities (cs : ControllerServer)
  (req : ValidateVolumeCapabilitiesRequest) : result ValidateVolumeCapabilitiesResponse :=
  if (String.length (val_VolumeId req) =? 0)%nat then
    Err (status_Error InvalidArgument "Volume ID missing in request")
  else
  match isValidVolumeCapabilities (val_VolumeCapabilities req) with
  | Some err => Err (status_Error InvalidArgument (Error err))
  | None =>
      Ok {| Confirmed := val_VolumeCapabilities req; Message := "" |}
  end.

End Validate.

(** The calls that answer [codes.Unimplemented]: [ControllerPublishVolume],
    [ControllerUnpublishVolume], [ListVolumes], [GetCapacity],
    [ListSnapshots] and [ControllerGetVolume] all have this body. *)
Definition unimplemented {Req Resp : Type} (cs : ControllerServer) (req : Req)
  : result Resp :=
  Err (status_Error Unimplemented "").

End ControllerRest.

(** ** More of what the statements speak of *)

Module Calls.
Import IscsiUtil.

Definition is_log (ev : NodeEv) : bool :=
  match ev with
  | EvLog _ _ => true
  | _ => false
  end.

(** Calls that change the node on the way to a mount: creating the mount
    directory, writing the Connector file, formatting and mounting. *)
Definition prepares_mount (ev : NodeEv) : bool :=
  match ev with
  | EvMkdirAll _ _ _ | EvPersistConnector _ _ _ | EvFormatAndMount _ _ _ _ _ => true
  | _ => false
  end.

(** The calls of an attach. *)
Definition is_attach_call (ev : NodeEv) : bool :=
  match ev with
  | EvConnect _ _ _ _ | EvIsLikelyNotMountPoint _ _ _ | EvMkdirAll _ _ _
  | EvPersistConnector _ _ _ | EvFormatAndMount _ _ _ _ _ => true
  | _ => false
  end.

(** The mount options of [AttachDisk]: the access mode, then the flags of
    the request. *)
Definition mount_options (b : iscsiDiskMounter) : list string :=
  (if readOnly b then "ro" else "rw") :: mountOptions b.

End Calls.

(** ** More requests, nodes and collaborators *)

Module Cases.
Import Iscsi IscsiUtil Node Examples.

(** Logging in to the target fails. *)
Definition connect_fails : Script :=
  {| on_Connect := ("", Some io_error); on_IsLikelyNotMountPoint := (true, None);
     on_MkdirAll := None; on_PersistConnector := None; on_FormatAndMount := None;
     on_GetDeviceNameFromMount := ("/dev/sdb", 1%Z, None);
     on_PathExists := (true, None); on_GetConnectorFromFile := Ok connector_vol1;
     on_Unmount := None; on_DisconnectVolume := None; on_RemoveAll := None;
     on_Remove := None |}.

(** The target path is a mount point already. *)
Definition already_mounted : Script :=
  {| on_Connect := ("/dev/sdb", None); on_IsLikelyNotMountPoint := (false, None);
     on_MkdirAll := None; on_PersistConnector := None; on_FormatAndMount := None;
     on_GetDeviceNameFromMount := ("/dev/sdb", 1%Z, None);
     on_PathExists := (true, None); on_GetConnectorFromFile := Ok connector_vol1;
     on_Unmount := None; on_DisconnectVolume := None; on_RemoveAll := None;
     on_Remove := None |}.

(** The target path cannot be examined. *)
Definition stat_fails : Script :=
  {| on_Connect := ("/dev/sdb", None);
     on_IsLikelyNotMountPoint := (true, Some io_error);
     on_MkdirAll := None; on_PersistConnector := None; on_FormatAndMount := None;
     on_GetDeviceNameFromMount := ("/dev/sdb", 1%Z, None);
     on_PathExists := (true, None); on_GetConnectorFromFile := Ok connector_vol1;
     on_Unmount := None; on_DisconnectVolume := None; on_RemoveAll := None;
     on_Remove := None |}.

(** The target path does not exist yet. *)
Definition target_absent : Script :=
  {| on_Connect := ("/dev/sdb", None);
     on_IsLikelyNotMountPoint := (true, Some (no_such_file "stat" "/pods/a/mount"));
     on_MkdirAll := None; on_PersistConnector := None; on_FormatAndMount := None;
     on_GetDeviceNameFromMount := ("/dev/sdb", 1%Z, None);
     on_PathExists := (true, None); on_GetConnectorFromFile := Ok connector_vol1;
     on_Unmount := None; on_DisconnectVolume := None; on_RemoveAll := None;
     on_Remove := None |}.

(** The unmount fails. *)
Definition unmount_fails : Script :=
  {| on_Connect := ("/dev/sdb", None); on_IsLikelyNotMountPoint := (true, None);
     on_MkdirAll := None; on_PersistConnector := None; on_FormatAndMount := None;
     on_GetDeviceNameFromMount := ("/dev/sdb", 1%Z, None);
     on_PathExists := (true, None); on_GetConnectorFromFile := Ok connector_vol1;
     on_Unmount := Some io_error; on_DisconnectVolume := None; on_RemoveAll := None;
     on_Remove := None |}.

(** The volume cannot be disconnected. *)
Definition disconnect_fails : Script :=
  {| on_Connect := ("/dev/sdb", None); on_IsLikelyNotMountPoint := (true, None);
     on_MkdirAll := None; on_PersistConnector := None; on_FormatAndMount := None;
     on_GetDeviceNameFromMount := ("/dev/sdb", 1%Z, None);
     on_PathExists := (true, None); on_GetConnectorFromFile := Ok connector_vol1;
     on_Unmount := None; on_DisconnectVolume := Some io_error; on_RemoveAll := None;
     on_Remove := None |}.

(** The mount directory cannot be removed. *)
Definition rmdir_fails : Script :=
  {| on_Connect := ("/dev/sdb", None); on_IsLikelyNotMountPoint := (true, None);
     on_MkdirAll := None; on_PersistConnector := None; on_FormatAndMount := None;
     on_GetDeviceNameFromMount := ("/dev/sdb", 1%Z, None);
     on_PathExists := (true, None); on_GetConnectorFromFile := Ok connector_vol1;
     on_Unmount := None; on_DisconnectVolume := None; on_RemoveAll := Some io_error;
     on_Remove := None |}.

(** The target path is gone. *)
Definition path_gone : Script :=
  {| on_Connect := ("/dev/sdb", None); on_IsLikelyNotMountPoint := (true, None);
     on_MkdirAll := None; on_PersistConnector := None; on_FormatAndMount := None;
     on_GetDeviceNameFromMount := ("", 0%Z, None);
     on_PathExists := (false, None); on_GetConnectorFromFile := Ok connector_vol1;
     on_Unmount := None; on_DisconnectVolume := None; on_RemoveAll := None;
     on_Remove := None |}.

(** A node with nothing attached on which the directory of the pod
    exists. *)
Definition node_pod_dir : World :=
  {| mounts := []; paths := {[ "/pods"; "/pods/a" ]}; files := ∅; sessions := ∅ |}.

(** The request of the scenario with both CHAP flags away from their
    defaults. *)
Definition publish_flags : NodePublishVolumeRequest :=
  {| VolumeId := "vol-1";
     VolumeContext :=
       <["discoveryCHAPAuth" := "false"]> (
       <["sessionCHAPAuth" := "true"]> (VolumeContext publish_vol1));
     TargetPath := "/pods/a/mount"; Readonly := false;
     Mount := Some {| FsType := "ext4"; MountFlags := [] |} |}.

(** The request of the scenario without its volume ID. *)
Definition publish_no_id : NodePublishVolumeRequest :=
  {| VolumeId := ""; VolumeContext := VolumeContext publish_vol1;
     TargetPath := "/pods/a/mount"; Readonly := false;
     Mount := Some {| FsType := "ext4"; MountFlags := [] |} |}.

(** The request of the scenario with CHAP on: a secret with all eight
    keys. *)
Definition chap_secret : string :=
  Json.write_object
    [("node.session.auth.username", Json.quoted "alice");
     ("node.session.auth.password", Json.quoted "s3cret");
     ("node.session.auth.username_in", Json.quoted "target");
     ("node.session.auth.password_in", Json.quoted "t4rget");
     ("node.sendtargets.auth.username", Json.quoted "alice");
     ("node.sendtargets.auth.password", Json.quoted "s3cret");
     ("node.sendtargets.auth.username_in", Json.quoted "target");
     ("node.sendtargets.auth.password_in", Json.quoted "t4rget")].

Definition publish_chap : NodePublishVolumeRequest :=
  {| VolumeId := "vol-1";
     VolumeContext :=
       <["secret" := chap_secret]> (
       <["sessionCHAPAuth" := "true"]> (VolumeContext publish_vol1));
     TargetPath := "/pods/a/mount"; Readonly := false;
     Mount := Some {| FsType := "ext4"; MountFlags := [] |} |}.

(** The snapshot payloads as [encoding/json] writes and reads them. *)
Definition into_SnapshotResponse (v : Json.value)
  : result ControllerRest.SnapshotResponse :=
  let zero := ControllerRest.mkSnapshotResponse "" in
  match v with
  | Json.Null => Ok zero
  | Json.Object l =>
      foldl (λ acc kv,
               r ← acc;
               match Json.select ["snapshot_id"] kv.1 with
               | Some _ =>
                   s ← Json.into_string (ControllerRest.sresp_VolumeID r) kv.2;
                   Ok (ControllerRest.mkSnapshotResponse s)
               | None => Ok r
               end) (Ok zero) l
  | _ =>
      Err (Json.json_error
             "json: cannot unmarshal value into Go value of type main.SnapshotResponse")
  end.

Global Instance GoJsonSnapshotApi : ControllerRest.JsonSnapshotApi := {|
  ControllerRest.json_Marshal_SnapshotRequest p :=
    Ok (Json.write_object [("volume_id", Json.quoted (ControllerRest.sr_VolumeID p))]);
  ControllerRest.json_Marshal_DeleteSnapshotRequest p :=
    Ok (Json.write_object [("snapshot_id", Json.quoted (ControllerRest.dsr_SnapshotID p))]);
  ControllerRest.json_Decode_SnapshotResponse s := Json.leading s ≫= into_SnapshotResponse;
|}.

(** An API that answers every request with the snapshot [snap-1], and a
    clock that stands still. *)
Definition snapshot_api
  : oracle (E:=ControllerRest.SnapE) (Ev:=ControllerRest.SnapEv) := λ R _ e,
  match e in ControllerRest.SnapE R return R with
  | ControllerRest.Ctrl e' =>
      match e' in Controller.CtrlE R return R with
      | Controller.KlogV _ _ => tt
      | Controller.viriumHttpClient _ _ _ =>
          Ok (Json.write_object [("snapshot_id", Json.quoted "snap-1")])
      end
  | ControllerRest.timestamppb_Now => ControllerRest.mkTimestamp 1762156800 0
  end.

Definition expand_vol1 : Controller.ControllerExpandVolumeRequest :=
  Controller.mkControllerExpandVolumeRequest "vol-1"
    (Some (Controller.mkCapacityRange 2147483648 0)).

End Cases.

(** ** Tactics to run a program symbolically *)

Ltac split_answer a :=
  lazymatch type of a with
  | (_ * _)%type =>
      let x := fresh "x" in
      let y := fresh "y" in
      destruct a as [x y]; split_answer x; split_answer y
  | option _ => let e := fresh "err" in destruct a as [e|]
  | result _ => destruct a as [? | ?]
  | bool => destruct a
  | unit => destruct a
  | _ => idtac
  end.

(** One step of a run: name the answer of the next call and split it into
    its cases, or split on the test the program is stuck at. *)
Ltac answer o :=
  match goal with
  | |- context [o ?R ?tr ?e] =>
      let a := fresh "a" in
      let Ha := fresh "Ha" in
      remember (o R tr e) as a eqn:Ha; clear Ha; split_answer a; cbn
  | |- context [run _ _ _ (if ?b then _ else _)] => destruct b eqn:?; cbn
  end.

(** Membership in an explicit trace, one event after the other. *)
Ltac in_trace :=
  repeat match goal with
  | H : _ ∈ [] |- _ => apply elem_of_nil in H; destruct H
  | H : _ ∈ _ :: _ |- _ =>
      apply elem_of_cons in H; destruct H as [H|H]; [simplify_eq |]
  end.

(** An event is in an explicit trace. *)
Ltac trace_has :=
  first [apply list_elem_of_here | apply list_elem_of_further; trace_has].

(** One step of an execution with faults: does the call fail? *)
Ltac fault flt :=
  match goal with
  | |- context [flt ?R ?e] =>
      let a := fresh "a" in
      let Ha := fresh "Ha" in
      remember (flt R e) as a eqn:Ha; clear Ha; destruct a; cbn
  end.

(** One step of an execution on the model: what does the node hold? *)
Ltac world_case :=
  match goal with
  | |- context [bool_decide ?P] => destruct (bool_decide_reflect P); cbn
  | |- context [Node.files ?w !! ?p] => destruct (Node.files w !! p) eqn:?; cbn
  | |- context [Node.remove_last ?t ?ms] => destruct (Node.remove_last t ms) eqn:?; cbn
  | |- context [exec _ _ _ _ (if ?b then _ else _)] => destruct b eqn:?; cbn
  end.

(** One step of a controller run: the next answer of the API, or the next
    result of the JSON codec. *)
Ltac api_step o :=
  match goal with
  | |- context [o ?R ?tr ?e] =>
      let a := fresh "a" in
      let Ha := fresh "Ha" in
      remember (o R tr e) as a eqn:Ha; clear Ha; split_answer a; cbn
  | |- context [@Controller.json_Marshal_VolumeRequest _ ?p] =>
      destruct (@Controller.json_Marshal_VolumeRequest _ p) eqn:?; cbn
  | |- context [@Controller.json_Marshal_DeleteVolumeRequest _ ?p] =>
      destruct (@Controller.json_Marshal_DeleteVolumeRequest _ p) eqn:?; cbn
  | |- context [@Controller.json_Marshal_VolumeResizeRequest _ ?p] =>
      destruct (@Controller.json_Marshal_VolumeResizeRequest _ p) eqn:?; cbn
  | |- context [@Controller.json_Decode_VolumeResponse _ ?s] =>
      destruct (@Controller.json_Decode_VolumeResponse _ s) eqn:?; cbn
  | |- context [@ControllerRest.json_Marshal_SnapshotRequest _ ?p] =>
      destruct (@ControllerRest.json_Marshal_SnapshotRequest _ p) eqn:?; cbn
  | |- context [@ControllerRest.json_Marshal_DeleteSnapshotRequest _ ?p] =>
      destruct (@ControllerRest.json_Marshal_DeleteSnapshotRequest _ p) eqn:?; cbn
  | |- context [@ControllerRest.json_Decode_SnapshotResponse _ ?s] =>
      destruct (@ControllerRest.json_Decode_SnapshotResponse _ s) eqn:?; cbn
  end.

(** A sequence of events occurs in a trace, in this order. *)
Ltac in_order :=
  repeat first [apply sublist_nil | apply sublist_skip | apply sublist_cons].

(** * Theorems *)

(** ** Request parsing *)

Section Parsing.
Import Iscsi.
Context `{JsonText}.

Lemma strings_Contains_app_r (s t sub : string) :
  strings_Contains t sub = true → strings_Contains (s +:+ t) sub = true.
Proof.
  intros Ht. induction s as [|a s IH]; [exact Ht|].
  change (String a s +:+ t) with (String a (s +:+ t)).
  cbn [strings_Contains]. rewrite IH. apply orb_true_r.
Qed.

(** What [portalMounter] returns names a port. *)
Lemma portalMounter_has_port (portal : string) :
  strings_Contains (portalMounter portal) ":" = true.
Proof.
  unfold portalMounter.
  destruct (strings_Contains portal ":") eqn:Hc; cbn; [exact Hc|].
  by apply strings_Contains_app_r.
Qed.

(** A portal without a port gets the default one, any other is kept. *)
Lemma portalMounter_default_port (portal : string) :
  portalMounter portal =
    if strings_Contains portal ":" then portal else portal +:+ ":3260".
Proof. unfold portalMounter. by destruct (strings_Contains portal ":"). Qed.

Lemma foldl_portalMounter (portals acc : list string) :
  foldl (λ bkportal portal, (bkportal ++ [portalMounter portal])%list) acc portals
  = (acc ++ (portalMounter <$> portals))%list.
Proof.
  revert acc. induction portals as [|p ps IH]; intros acc; cbn.
  - by rewrite app_nil_r.
  - by rewrite IH, <- app_assoc.
Qed.

(** The portal list: every entry names a port; it is empty when the context
    has no [portals] value, and starts with the target portal otherwise. *)
Lemma portals_of_spec (tp portalList : string) (l : list string) :
  portals_of tp portalList = Ok l →
  Forall (λ p, strings_Contains p ":" = true) l ∧
  (portalList = "" → l = []) ∧
  (portalList ≠ "" → ∃ l', l = portalMounter tp :: l').
Proof.
  unfold portals_of. destruct portalList as [|a s]; cbn.
  - intros [= <-]. split; [constructor|]. split; [done|]. by intros [].
  - destruct (json_Unmarshal_strings (String a s)) as [portals|e]; cbn; [|done].
    intros [= <-]. rewrite foldl_portalMounter. cbn. split.
    + constructor; [apply portalMounter_has_port|].
      apply Forall_fmap, Forall_forall. intros p _. apply portalMounter_has_port.
    + split; [done|]. intros _. eauto.
Qed.

(** What a descriptor that [getISCSIInfo] returns tells about the request. *)
Lemma getISCSIInfo_Ok (req : NodePublishVolumeRequest) (d : iscsiDisk) :
  getISCSIInfo req = Ok d →
  index (VolumeContext req) "target_portal" ≠ "" ∧
  index (VolumeContext req) "target_iqn" ≠ "" ∧
  index (VolumeContext req) "lun" ≠ "" ∧
  portals_of (index (VolumeContext req) "target_portal")
             (index (VolumeContext req) "portals") = Ok (Portals d) ∧
  chapDiscovery d = negb (index (VolumeContext req) "discoveryCHAPAuth" =? "false") ∧
  chapSession d = (index (VolumeContext req) "sessionCHAPAuth" =? "true").
Proof.
  unfold getISCSIInfo.
  destruct (index (VolumeContext req) "target_portal" =? "") eqn:Htp; [done|].
  destruct (index (VolumeContext req) "target_iqn" =? "") eqn:Hiqn; [done|].
  destruct (index (VolumeContext req) "lun" =? "") eqn:Hlun; [done|].
  cbn [orb negb].
  destruct (parseSessionSecret _) as [ss [e|]]; [done|].
  destruct (parseDiscoverySecret _) as [ds [e|]]; [done|].
  destruct (portals_of _ _) as [bk|e]; cbn; [|done].
  destruct (strconv_Atoi _) as [l|e]; cbn; [|done].
  intros [= <-]. cbn.
  apply String.eqb_neq in Htp, Hiqn, Hlun.
  repeat split; try done.
  all: by destruct (index (VolumeContext req) _ =? _).
Qed.

(** The part of the portal invariant the code keeps: every portal of a
    descriptor names a port, and a request with a [portals] array gets the
    target portal first. *)
Lemma getISCSIInfo_portals (req : NodePublishVolumeRequest) (d : iscsiDisk) :
  getISCSIInfo req = Ok d →
  Forall (λ p, strings_Contains p ":" = true) (Portals d) ∧
  (index (VolumeContext req) "portals" ≠ "" →
   ∃ l', Portals d = portalMounter (index (VolumeContext req) "target_portal") :: l').
Proof.
  intros Hd. apply getISCSIInfo_Ok in Hd as (_ & _ & _ & Hp & _).
  apply portals_of_spec in Hp as (? & _ & ?). done.
Qed.

(** The part it does not keep: without a [portals] value the descriptor has
    no portal at all, whatever the target portal is. *)
Lemma getISCSIInfo_no_portals_key (req : NodePublishVolumeRequest) (d : iscsiDisk) :
  getISCSIInfo req = Ok d →
  index (VolumeContext req) "portals" = "" →
  Portals d = [].
Proof.
  intros Hd Hnone. apply getISCSIInfo_Ok in Hd as (_ & _ & _ & Hp & _).
  apply portals_of_spec in Hp as (_ & Hp & _). auto.
Qed.

(** C10: discovery CHAP is on unless the context value [discoveryCHAPAuth]
    is exactly [false], and session CHAP is off unless [sessionCHAPAuth] is
    exactly [true]; an absent key reads as the empty string, hence as the
    default.  This holds of every descriptor [getISCSIInfo] builds, and the
    two keys have no part in whether it builds one: a descriptor is
    returned whenever the target values are there, both secret blocks
    parse, the [portals] value, if any, is a JSON array of strings and the
    LUN is a decimal number. *)
Theorem getISCSIInfo_chap_defaults (req : NodePublishVolumeRequest) :
  let ctx := VolumeContext req in
  (∀ d, getISCSIInfo req = Ok d →
     (chapDiscovery d = false ↔ ctx !! "discoveryCHAPAuth" = Some "false") ∧
     (chapSession d = true ↔ ctx !! "sessionCHAPAuth" = Some "true")) ∧
  (index ctx "target_portal" ≠ "" → index ctx "target_iqn" ≠ "" →
   index ctx "lun" ≠ "" →
   (parseSessionSecret (parseSecret (index ctx "secret"))).2 = None →
   (parseDiscoverySecret (parseSecret (index ctx "secret"))).2 = None →
   (index ctx "portals" = "" ∨
    ∃ portals, json_Unmarshal_strings (index ctx "portals") = Ok portals) →
   (∃ l, strconv_Atoi (index ctx "lun") = Ok l) →
   ∃ d, getISCSIInfo req = Ok d ∧
        chapDiscovery d = negb (index ctx "discoveryCHAPAuth" =? "false") ∧
        chapSession d = (index ctx "sessionCHAPAuth" =? "true")).
Proof.
  cbv zeta. split.
  - intros d Hd. apply getISCSIInfo_Ok in Hd as (_ & _ & _ & _ & -> & ->).
    unfold index. split.
    + rewrite negb_false_iff, String.eqb_eq.
      destruct (VolumeContext req !! "discoveryCHAPAuth"); cbn; naive_solver.
    + rewrite String.eqb_eq.
      destruct (VolumeContext req !! "sessionCHAPAuth"); cbn; naive_solver.
  - intros Htp Hiqn Hlun Hs Hds Hp [l Hl].
    unfold getISCSIInfo.
    apply String.eqb_neq in Htp, Hiqn, Hlun. rewrite Htp, Hiqn, Hlun. cbn [orb negb].
    destruct (parseSessionSecret _) as [ss [e|]]; [done|].
    destruct (parseDiscoverySecret _) as [ds [e|]]; [done|].
    rewrite Hl. unfold portals_of.
    assert (Hflags : ∀ b : bool, (if b then false else true) = negb b ∧
                                 (if b then true else false) = b)
      by (intros []; done).
    destruct Hp as [-> | [portals Hp]]; cbn.
    { eexists. split; [reflexivity|]. cbn. split; apply Hflags. }
    destruct (index (VolumeContext req) "portals") as [|a s]; cbn.
    { eexists. split; [reflexivity|]. cbn. split; apply Hflags. }
    rewrite Hp. cbn. eexists. split; [reflexivity|]. cbn. split; apply Hflags.
Qed.

End Parsing.

Section Secrets.
Import Iscsi Chap.

(** C6: for a secret map that is not empty, [parseSessionSecret] and
    [parseDiscoverySecret] each return either secrets with all four
    credentials taken from the map and the type [chap], with no error, or the
    zero [Secrets] with an error, the latter exactly when one of the four
    keys is missing; nothing partially filled is returned. *)
Theorem parse_secrets_all_or_nothing (secretParams : gmap string string) :
  secretParams ≠ ∅ →
  all_or_nothing session_keys secretParams (parseSessionSecret secretParams) ∧
  all_or_nothing discovery_keys secretParams (parseDiscoverySecret secretParams).
Proof.
  intros Hne. apply map_size_non_empty_iff, Nat.eqb_neq in Hne.
  unfold all_or_nothing, populated, parseSessionSecret, parseDiscoverySecret,
    session_keys, discovery_keys.
  rewrite Hne. split.
  - destruct (secretParams !! "node.session.auth.username") eqn:H1;
    [destruct (secretParams !! "node.session.auth.password") eqn:H2;
     [destruct (secretParams !! "node.session.auth.username_in") eqn:H3;
      [destruct (secretParams !! "node.session.auth.password_in") eqn:H4|]|]|];
    cbn; rewrite ?H1, ?H2, ?H3, ?H4.
    1: left; repeat split; eauto 10.
    all: right; repeat split; eauto; rewrite !Exists_cons; tauto.
  - destruct (secretParams !! "node.sendtargets.auth.username") eqn:H1;
    [destruct (secretParams !! "node.sendtargets.auth.password") eqn:H2;
     [destruct (secretParams !! "node.sendtargets.auth.username_in") eqn:H3;
      [destruct (secretParams !! "node.sendtargets.auth.password_in") eqn:H4|]|]|];
    cbn; rewrite ?H1, ?H2, ?H3, ?H4.
    1: left; repeat split; eauto 10.
    all: right; repeat split; eauto; rewrite !Exists_cons; tauto.
Qed.

Lemma parse_secrets_all_or_nothing_witness :
  Examples.session_secret ≠ ∅ ∧
  all_or_nothing session_keys Examples.session_secret
    (parseSessionSecret Examples.session_secret) ∧
  all_or_nothing discovery_keys Examples.session_secret
    (parseDiscoverySecret Examples.session_secret).
Proof.
  assert (Hne : Examples.session_secret ≠ ∅).
  { intros Heq. apply (f_equal (λ m, m !! "node.session.auth.username")) in Heq.
    vm_compute in Heq. discriminate Heq. }
  split; [exact Hne|]. exact (parse_secrets_all_or_nothing _ Hne).
Defined.

End Secrets.

Section ParsingExamples.
Import Iscsi IscsiUtil Examples Cases.

(** C1, at the scenario of the spec: the request names the target portal
    [10.0.0.5], the IQN and LUN 0 and has no [portals] array; [getISCSIInfo]
    accepts it and returns a descriptor with no portal, and the Connector
    built from it has no portal either. *)
Theorem getISCSIInfo_target_portal_alone :
  ∃ d : iscsiDisk,
    getISCSIInfo publish_vol1 = Ok d ∧
    Portals d = [] ∧
    TargetPortals <$> buildISCSIConnector (Some d) = Some [].
Proof.
  eexists. split; [vm_compute; reflexivity|]. split; reflexivity.
Qed.

(** With a [portals] array the target portal comes first and every entry
    names a port, 3260 unless the request gave one. *)
Example getISCSIInfo_multipath :
  Portals <$> (match getISCSIInfo publish_vol1_multipath with
               | Ok d => Some d
               | Err _ => None
               end)
  = Some ["10.0.0.5:3260"; "10.0.0.6:3260"; "10.0.0.7:3261"].
Proof. vm_compute. reflexivity. Qed.

Lemma getISCSIInfo_chap_defaults_witness :
  (∃ d : iscsiDisk,
     getISCSIInfo publish_flags = Ok d ∧
     chapDiscovery d = false ∧
     chapSession d = true ∧
     (chapDiscovery d = false ↔
      VolumeContext publish_flags !! "discoveryCHAPAuth" = Some "false") ∧
     (chapSession d = true ↔
      VolumeContext publish_flags !! "sessionCHAPAuth" = Some "true")) ∧
  (∃ d : iscsiDisk,
     getISCSIInfo publish_vol1 = Ok d ∧
     chapDiscovery d = true ∧
     chapSession d = false ∧
     (chapDiscovery d = false ↔
      VolumeContext publish_vol1 !! "discoveryCHAPAuth" = Some "false") ∧
     (chapSession d = true ↔
      VolumeContext publish_vol1 !! "sessionCHAPAuth" = Some "true")).
Proof.
  split.
  - destruct (proj2 (getISCSIInfo_chap_defaults publish_flags))
      as (d & Hd & Hdiscovery & Hsession).
    1-3: vm_compute; discriminate.
    1-2: vm_compute; reflexivity.
    1: left; vm_compute; reflexivity.
    1: eexists; vm_compute; reflexivity.
    exists d. split; [exact Hd|]. split; [exact Hdiscovery|]. split; [exact Hsession|].
    exact (proj1 (getISCSIInfo_chap_defaults publish_flags) d Hd).
  - destruct (proj2 (getISCSIInfo_chap_defaults publish_vol1))
      as (d & Hd & Hdiscovery & Hsession).
    1-3: vm_compute; discriminate.
    1-2: vm_compute; reflexivity.
    1: left; vm_compute; reflexivity.
    1: eexists; vm_compute; reflexivity.
    exists d. split; [exact Hd|]. split; [exact Hdiscovery|]. split; [exact Hsession|].
    exact (proj1 (getISCSIInfo_chap_defaults publish_vol1) d Hd).
Defined.

End ParsingExamples.

(** ** Attach and detach against arbitrary collaborators *)

Section Orchestrator.
Import Iscsi IscsiUtil Events.
Variable driverName : string.
Variable o : oracle (E:=NodeE) (Ev:=NodeEv).

(** C2: whenever a run of [AttachDisk] calls [FormatAndMount], the trace has,
    in this order, a [Connect] that returned no error and the non-empty
    device path that is mounted, a successful [PersistConnector] of the
    connector as [Connect] left it, and the mount; and when
    [PersistConnector] fails, [AttachDisk] returns an error and the trace
    has no mount. *)
Theorem AttachDisk_persists_between_connect_and_mount
    (b : iscsiDiskMounter) (r : string * option error) (tr : list NodeEv) :
  run observe o [] (AttachDisk driverName b) = (r, tr) →
  (∀ source target fstype options err,
     EvFormatAndMount source target fstype options err ∈ tr →
     ∃ c c',
       source ≠ "" ∧
       precedes (EvConnect c c' source None)
         (EvPersistConnector c'
            (getIscsiInfoPath driverName (VolName (mounter_disk b))) None) tr ∧
       precedes
         (EvPersistConnector c'
            (getIscsiInfoPath driverName (VolName (mounter_disk b))) None)
         (EvFormatAndMount source target fstype options err) tr) ∧
  (∀ c path err,
     EvPersistConnector c path (Some err) ∈ tr →
     (∃ e, r = ("", Some e)) ∧ Forall (λ ev, is_mount ev = false) tr).
Proof.
  unfold AttachDisk. cbn. destruct (connector b) as [c0|]; cbn.
  all: repeat answer o.
  all: intros [= <- <-]; split.
  all: try (intros source target fstype options merr Hin; in_trace).
  all: try (intros c1 path perr Hin; in_trace).
  all: try (split; [eauto | repeat constructor]).
  all: eexists _, _; split;
    [intros ->; match goal with H : (_ =? _) = false |- _ => discriminate H end|].
  all: split; [exists 2, 10 | exists 10, 12].
  all: split; [lia | split; reflexivity].
Qed.

(** C7: when [FormatAndMount] fails in a run of [AttachDisk], the call
    returns the device path with the mount error, and the run makes no call
    that unmounts, disconnects the volume, logs out of the target, or
    deletes the mount directory or the persisted Connector file. *)
Theorem AttachDisk_mount_failure_keeps_state
    (b : iscsiDiskMounter) (r : string * option error) (tr : list NodeEv) :
  run observe o [] (AttachDisk driverName b) = (r, tr) →
  ∀ source target fstype options err,
    EvFormatAndMount source target fstype options (Some err) ∈ tr →
    r = (source, Some err) ∧
    (∃ c c',
       EvConnect c c' source None ∈ tr ∧
       EvPersistConnector c'
         (getIscsiInfoPath driverName (VolName (mounter_disk b))) None ∈ tr) ∧
    Forall (λ ev, is_unmount ev = false ∧ is_teardown ev = false) tr.
Proof.
  unfold AttachDisk. cbn. destruct (connector b) as [c0|]; cbn.
  all: repeat answer o.
  all: intros [= <- <-] source target fstype options merr Hin; in_trace.
  all: split; [reflexivity|].
  all: split; [eexists _, _; split; trace_has | repeat constructor].
Qed.

(** C3: when in a run of [DetachDisk] the unmount succeeds and the reference
    count the mount table gave for the target path, less one, is not zero,
    the call returns nil and the run makes no call to [DisconnectVolume], no
    logout ([Disconnect]) and no deletion of the mount directory or of the
    Connector file. *)
Theorem DetachDisk_still_referenced
    (c : iscsiDiskUnmounter) (targetPath : string) (r : option error)
    (tr : list NodeEv) :
  run observe o [] (DetachDisk driverName c targetPath) = (r, tr) →
  ∀ device refCount,
    EvGetDeviceNameFromMount targetPath device refCount None ∈ tr →
    EvUnmount targetPath None ∈ tr →
    int (refCount - 1) ≠ 0%Z →
    r = None ∧ Forall (λ ev, is_teardown ev = false) tr.
Proof.
  unfold DetachDisk. cbn.
  repeat answer o.
  all: intros [= <- <-] device refCount Hcnt Hum Hne; in_trace.
  all: try (split; [reflexivity | repeat constructor]).
  all: rewrite negb_false_iff in *.
  all: match goal with H : (_ =? _)%Z = true |- _ => apply Z.eqb_eq in H end.
  all: contradiction.
Qed.

(** C4: when in a run of [DetachDisk] the target path exists and loading the
    persisted Connector fails, then if the failure is that the file does not
    exist the call returns nil after logging a warning, and makes no unmount
    or teardown call; any other load failure comes back as an error carrying
    the text of the failure. *)
Theorem DetachDisk_connector_file_absent
    (c : iscsiDiskUnmounter) (targetPath : string) (r : option error)
    (tr : list NodeEv) :
  run observe o [] (DetachDisk driverName c targetPath) = (r, tr) →
  ∀ err,
    EvPathExists targetPath true None ∈ tr →
    EvGetConnectorFromFile
      (getIscsiInfoPath driverName (VolName (unmounter_disk c))) (Err err) ∈ tr →
    if os_IsNotExist err
    then r = None ∧
         EvLog KlogWarning "assuming that ISCSI connection is already closed" ∈ tr ∧
         Forall (λ ev, is_unmount ev = false ∧ is_teardown ev = false) tr
    else r = Some (status_Error Internal (Error err)).
Proof.
  unfold DetachDisk. cbn.
  repeat answer o.
  all: intros [= <- <-] lerr Hpath Hload; in_trace.
  all: match goal with H : os_IsNotExist _ = _ |- _ => rewrite H end.
  all: try reflexivity.
  all: split; [reflexivity|]; split; [trace_has | repeat constructor].
Qed.

End Orchestrator.

Section OrchestratorExamples.
Import Iscsi IscsiUtil Events Examples.

Lemma AttachDisk_persists_between_connect_and_mount_witness :
  (∃ r tr,
     run observe (scripted all_well) [] (AttachDisk driverName mounter_vol1) = (r, tr) ∧
     EvFormatAndMount "/dev/sdb" "/pods/a/mount" "ext4" ["rw"] None ∈ tr ∧
     ∃ c c',
       "/dev/sdb" ≠ "" ∧
       precedes (EvConnect c c' "/dev/sdb" None)
         (EvPersistConnector c' (getIscsiInfoPath driverName "vol-1") None) tr ∧
       precedes (EvPersistConnector c' (getIscsiInfoPath driverName "vol-1") None)
         (EvFormatAndMount "/dev/sdb" "/pods/a/mount" "ext4" ["rw"] None) tr) ∧
  (∃ r tr,
     run observe (scripted persist_fails) [] (AttachDisk driverName mounter_vol1) = (r, tr) ∧
     EvPersistConnector connector_vol1 (getIscsiInfoPath driverName "vol-1")
       (Some io_error) ∈ tr ∧
     (∃ e, r = ("", Some e)) ∧ Forall (λ ev, is_mount ev = false) tr).
Proof.
  split.
  - eexists _, _.
    assert (Hrun : run observe (scripted all_well) [] (AttachDisk driverName mounter_vol1)
                   = (_, _)) by (vm_compute; reflexivity).
    assert (Hin : EvFormatAndMount "/dev/sdb" "/pods/a/mount" "ext4" ["rw"] None
                  ∈ (run observe (scripted all_well) []
                       (AttachDisk driverName mounter_vol1)).2)
      by (vm_compute; trace_has).
    split; [exact Hrun|]. split; [exact Hin|].
    exact (proj1 (AttachDisk_persists_between_connect_and_mount
                    driverName (scripted all_well) mounter_vol1 _ _ Hrun) _ _ _ _ _ Hin).
  - eexists _, _.
    assert (Hrun : run observe (scripted persist_fails) []
                     (AttachDisk driverName mounter_vol1) = (_, _))
      by (vm_compute; reflexivity).
    assert (Hin : EvPersistConnector connector_vol1 (getIscsiInfoPath driverName "vol-1")
                    (Some io_error)
                  ∈ (run observe (scripted persist_fails) []
                       (AttachDisk driverName mounter_vol1)).2)
      by (vm_compute; trace_has).
    split; [exact Hrun|]. split; [exact Hin|].
    exact (proj2 (AttachDisk_persists_between_connect_and_mount
                    driverName (scripted persist_fails) mounter_vol1 _ _ Hrun) _ _ _ Hin).
Defined.

Lemma AttachDisk_mount_failure_keeps_state_witness :
  ∃ r tr,
    run observe (scripted mount_fails) [] (AttachDisk driverName mounter_vol1) = (r, tr) ∧
    EvFormatAndMount "/dev/sdb" "/pods/a/mount" "ext4" ["rw"] (Some io_error) ∈ tr ∧
    r = ("/dev/sdb", Some io_error) ∧
    (∃ c c',
       EvConnect c c' "/dev/sdb" None ∈ tr ∧
       EvPersistConnector c' (getIscsiInfoPath driverName "vol-1") None ∈ tr) ∧
    Forall (λ ev, is_unmount ev = false ∧ is_teardown ev = false) tr.
Proof.
  eexists _, _.
  assert (Hrun : run observe (scripted mount_fails) [] (AttachDisk driverName mounter_vol1)
                 = (_, _)) by (vm_compute; reflexivity).
  assert (Hin : EvFormatAndMount "/dev/sdb" "/pods/a/mount" "ext4" ["rw"] (Some io_error)
                ∈ (run observe (scripted mount_fails) []
                     (AttachDisk driverName mounter_vol1)).2)
    by (vm_compute; trace_has).
  split; [exact Hrun|]. split; [exact Hin|].
  exact (AttachDisk_mount_failure_keeps_state
           driverName (scripted mount_fails) mounter_vol1 _ _ Hrun _ _ _ _ _ Hin).
Defined.

Lemma DetachDisk_still_referenced_witness :
  ∃ r tr,
    run observe (scripted mounted_twice) []
      (DetachDisk driverName unmounter_vol1 "/pods/a/mount") = (r, tr) ∧
    EvGetDeviceNameFromMount "/pods/a/mount" "/dev/sdb" 2 None ∈ tr ∧
    EvUnmount "/pods/a/mount" None ∈ tr ∧
    int (2 - 1) ≠ 0%Z ∧
    r = None ∧ Forall (λ ev, is_teardown ev = false) tr.
Proof.
  eexists _, _.
  assert (Hrun : run observe (scripted mounted_twice) []
                   (DetachDisk driverName unmounter_vol1 "/pods/a/mount") = (_, _))
    by (vm_compute; reflexivity).
  assert (Hcnt : EvGetDeviceNameFromMount "/pods/a/mount" "/dev/sdb" 2 None
                 ∈ (run observe (scripted mounted_twice) []
                      (DetachDisk driverName unmounter_vol1 "/pods/a/mount")).2)
    by (vm_compute; trace_has).
  assert (Hum : EvUnmount "/pods/a/mount" None
                ∈ (run observe (scripted mounted_twice) []
                     (DetachDisk driverName unmounter_vol1 "/pods/a/mount")).2)
    by (vm_compute; trace_has).
  assert (Hne : int (2 - 1) ≠ 0%Z) by (vm_compute; discriminate).
  split; [exact Hrun|]. split; [exact Hcnt|]. split; [exact Hum|]. split; [exact Hne|].
  exact (DetachDisk_still_referenced
           driverName (scripted mounted_twice) unmounter_vol1 _ _ _ Hrun _ _ Hcnt Hum Hne).
Defined.

Lemma DetachDisk_connector_file_absent_witness :
  ∃ r tr,
    run observe (scripted connector_file_gone) []
      (DetachDisk driverName unmounter_vol1 "/pods/a/mount") = (r, tr) ∧
    EvPathExists "/pods/a/mount" true None ∈ tr ∧
    EvGetConnectorFromFile (getIscsiInfoPath driverName "vol-1")
      (Err (Node.no_such_file "open" (getIscsiInfoPath driverName "vol-1"))) ∈ tr ∧
    r = None ∧
    EvLog KlogWarning "assuming that ISCSI connection is already closed" ∈ tr ∧
    Forall (λ ev, is_unmount ev = false ∧ is_teardown ev = false) tr.
Proof.
  eexists _, _.
  assert (Hrun : run observe (scripted connector_file_gone) []
                   (DetachDisk driverName unmounter_vol1 "/pods/a/mount") = (_, _))
    by (vm_compute; reflexivity).
  assert (Hpath : EvPathExists "/pods/a/mount" true None
                  ∈ (run observe (scripted connector_file_gone) []
                       (DetachDisk driverName unmounter_vol1 "/pods/a/mount")).2)
    by (vm_compute; trace_has).
  assert (Hload : EvGetConnectorFromFile (getIscsiInfoPath driverName "vol-1")
                    (Err (Node.no_such_file "open" (getIscsiInfoPath driverName "vol-1")))
                  ∈ (run observe (scripted connector_file_gone) []
                       (DetachDisk driverName unmounter_vol1 "/pods/a/mount")).2)
    by (vm_compute; trace_has).
  split; [exact Hrun|]. split; [exact Hpath|]. split; [exact Hload|].
  exact (DetachDisk_connector_file_absent
           driverName (scripted connector_file_gone) unmounter_vol1 _ _ _ Hrun _ Hpath Hload).
Defined.

End OrchestratorExamples.

(** ** Detaching twice, on the model of the node *)

Section Idempotence.
Import Iscsi IscsiUtil Events Node.
Variable driverName : string.

(** A detach that returns nil and either deleted the Connector file or
    unmounted nothing leaves nothing to detach. *)
Lemma DetachDisk_leaves_detached flt w c targetPath w1 tr1 :
  exec observe (node_with flt) w [] (DetachDisk driverName c targetPath)
    = (None, w1, tr1) →
  EvRemove (getIscsiInfoPath driverName (VolName (unmounter_disk c))) None ∈ tr1 ∨
    Forall (λ ev, is_unmount ev = false) tr1 →
  already_detached driverName c targetPath w1.
Proof.
  remember (already_detached driverName c targetPath) as P eqn:HP.
  unfold DetachDisk, node_with. cbn.
  repeat first [fault flt | world_case].
  all: intros [= <- <-]; subst P; unfold already_detached; cbn.
  all: try (intros _; left; assumption).
  all: try (intros _; right; first [assumption | apply lookup_delete_eq]).
  all: intros [Hrm | Hum];
    [in_trace | repeat rewrite Forall_cons in Hum; cbn in Hum; intuition discriminate].
Qed.

(** With nothing left to detach, [DetachDisk] returns nil, changes nothing
    and calls neither unmount nor teardown. *)
Lemma DetachDisk_when_detached w c targetPath :
  already_detached driverName c targetPath w →
  ∃ tr,
    exec observe node w [] (DetachDisk driverName c targetPath) = (None, w, tr) ∧
    Forall (λ ev, is_unmount ev = false ∧ is_teardown ev = false) tr.
Proof.
  unfold DetachDisk, already_detached. cbn. intros Hd.
  repeat world_case.
  all: try (eexists; split; [reflexivity | repeat constructor]).
  all: destruct Hd; congruence.
Qed.

(** Where a second call is a no-op: after a [DetachDisk] call that returns
    nil and either went through the whole teardown (it deleted the Connector
    file) or unmounted nothing (path or Connector file already gone), a
    second call on the same volume and target path returns nil, leaves the
    node as it is, and makes no unmount, disconnect, logout or delete call.
    The first call may meet any failures of the collaborators; the second
    runs without new ones. *)
Theorem DetachDisk_twice_after_teardown flt w c targetPath w1 tr1 :
  exec observe (node_with flt) w [] (DetachDisk driverName c targetPath)
    = (None, w1, tr1) →
  EvRemove (getIscsiInfoPath driverName (VolName (unmounter_disk c))) None ∈ tr1 ∨
    Forall (λ ev, is_unmount ev = false) tr1 →
  ∃ tr2,
    exec observe node w1 [] (DetachDisk driverName c targetPath) = (None, w1, tr2) ∧
    Forall (λ ev, is_unmount ev = false ∧ is_teardown ev = false) tr2.
Proof.
  intros Hfirst Hfull.
  eapply DetachDisk_when_detached, DetachDisk_leaves_detached; eauto.
Qed.

End Idempotence.

Section IdempotenceExamples.
Import Iscsi IscsiUtil Events Node Examples.

(** C5: [DetachDisk] is not idempotent after every successful call.  The
    device is mounted at two paths; the first [DetachDisk] unmounts
    [/pods/a/mount], finds the device still referenced and returns nil,
    leaving the target path and the Connector file in place; the second
    call on the same volume and path loads the Connector, calls unmount
    again on a path that is no longer mounted, and returns its error
    instead of nil.  The case of a target path that exists and is not
    mounted is missing from the function. *)
Lemma DetachDisk_twice_shared_mount :
  let first :=
    exec observe node node_mounted_twice []
      (DetachDisk driverName unmounter_vol1 "/pods/a/mount") in
  let second :=
    exec observe node first.1.2 []
      (DetachDisk driverName unmounter_vol1 "/pods/a/mount") in
  first.1.1 = None ∧
  Exists (λ ev, is_unmount ev = true) second.2 ∧
  ¬ (second.1.1 = None ∧
     Forall (λ ev, is_unmount ev = false ∧ is_teardown ev = false) second.2).
Proof.
  cbv zeta. split; [vm_compute; reflexivity|]. split.
  - vm_compute. do 4 apply Exists_cons_tl. apply Exists_cons_hd. reflexivity.
  - intros [Hnil _]. vm_compute in Hnil. discriminate Hnil.
Qed.

Lemma DetachDisk_twice_after_teardown_witness :
  ∃ w1 tr1,
    exec observe (node_with no_faults) node_mounted_once []
      (DetachDisk driverName unmounter_vol1 "/pods/a/mount") = (None, w1, tr1) ∧
    (EvRemove (getIscsiInfoPath driverName "vol-1") None ∈ tr1 ∨
     Forall (λ ev, is_unmount ev = false) tr1) ∧
    ∃ tr2,
      exec observe node w1 [] (DetachDisk driverName unmounter_vol1 "/pods/a/mount")
        = (None, w1, tr2) ∧
      Forall (λ ev, is_unmount ev = false ∧ is_teardown ev = false) tr2.
Proof.
  eexists _, _.
  assert (Hrun : exec observe (node_with no_faults) node_mounted_once []
                   (DetachDisk driverName unmounter_vol1 "/pods/a/mount")
                 = (None, _, _)) by (vm_compute; reflexivity).
  assert (Hfull :
    EvRemove (getIscsiInfoPath driverName "vol-1") None
      ∈ (exec observe (node_with no_faults) node_mounted_once []
           (DetachDisk driverName unmounter_vol1 "/pods/a/mount")).2 ∨
    Forall (λ ev, is_unmount ev = false)
      (exec observe (node_with no_faults) node_mounted_once []
         (DetachDisk driverName unmounter_vol1 "/pods/a/mount")).2)
    by (left; vm_compute; trace_has).
  split; [exact Hrun|]. split; [exact Hfull|].
  exact (DetachDisk_twice_after_teardown driverName no_faults node_mounted_once
           unmounter_vol1 "/pods/a/mount" _ _ Hrun Hfull).
Defined.

End IdempotenceExamples.

(** ** The controller and the keys of the volume context *)

Section ControllerCalls.
Import Iscsi Controller.
Context `{JsonText} `{JsonApi}.
Variable o : oracle (E:=CtrlE) (Ev:=CtrlEv).

(** The volume context [CreateVolume] returns has exactly the keys of its
    map literal. *)
Lemma CreateVolume_context (cs : ControllerServer) (req : CreateVolumeRequest)
    (resp : CreateVolumeResponse) (tr : list CtrlEv) :
  run observe o [] (CreateVolume cs req) = (Returns (Ok resp), tr) →
  ∃ portalList volResp,
    Controller.VolumeContext (cv_Volume resp) =
      <["portals" := portalList]> (
      <["targetPortal" := TargetPortal volResp]> (
      <["iqn" := Controller.Iqn volResp]> (
      <["lun" := Controller.Lun volResp]> (
      <["interface" := "default"]> (
      <["discoveryCHAPAuth" := DiscoveryCHAPAuth volResp]> (
      <["sessionCHAPAuth" := SessionCHAPAuth volResp]> ∅)))))).
Proof.
  unfold CreateVolume. cbn.
  destruct (cvr_CapacityRange req) as [capacityRange|]; cbn; [|done].
  destruct (json_Marshal_VolumeRequest _) as [jsonData|e]; cbn; [|done].
  destruct (o _ _ (viriumHttpClient _ _ _)) as [body|e]; cbn; [|done].
  destruct (json_Decode_VolumeResponse body) as [volResp|e]; cbn; [|done].
  intros [= <- <-]. cbn. eauto.
Qed.

(** C9: a volume context that a successful [CreateVolume] returned makes
    [getISCSIInfo] fail on any publish request that carries it: the context
    has the portal and the IQN under [targetPortal] and [iqn], and nothing
    under [target_portal] and [target_iqn], the keys [getISCSIInfo] reads. *)
Theorem CreateVolume_context_unreadable (cs : ControllerServer)
    (req : CreateVolumeRequest) (resp : CreateVolumeResponse) (tr : list CtrlEv)
    (publish : NodePublishVolumeRequest) :
  run observe o [] (CreateVolume cs req) = (Returns (Ok resp), tr) →
  Iscsi.VolumeContext publish = Controller.VolumeContext (cv_Volume resp) →
  is_Some (Iscsi.VolumeContext publish !! "targetPortal") ∧
  is_Some (Iscsi.VolumeContext publish !! "iqn") ∧
  Iscsi.VolumeContext publish !! "target_portal" = None ∧
  Iscsi.VolumeContext publish !! "target_iqn" = None ∧
  getISCSIInfo publish = Err (fmt_Errorf "ISCSI target information is missing").
Proof.
  intros Hrun Hctx.
  apply CreateVolume_context in Hrun as (portalList & volResp & Hmap).
  unfold getISCSIInfo, index. rewrite Hctx, Hmap.
  repeat split; by simplify_map_eq.
Qed.

(** C8, amended: a request that lacks a required field is rejected at once,
    before any call to a collaborator.  [getISCSIInfo] without
    [target_portal], [target_iqn] or [lun] returns the plain error "ISCSI
    target information is missing", which carries no status code;
    [DeleteVolume] with an empty volume ID returns an error;
    [ControllerExpandVolume] with an empty volume ID or without a capacity
    range returns an error classified invalid-argument. *)
Theorem missing_fields_rejected :
  (∀ publish : NodePublishVolumeRequest,
     index (Iscsi.VolumeContext publish) "target_portal" = "" ∨
     index (Iscsi.VolumeContext publish) "target_iqn" = "" ∨
     index (Iscsi.VolumeContext publish) "lun" = "" →
     getISCSIInfo publish = Err (fmt_Errorf "ISCSI target information is missing")) ∧
  (∀ cs (req : csi_DeleteVolumeRequest),
     del_VolumeId req = "" →
     ∃ e, run observe o [] (DeleteVolume cs req) = (Returns (Err e), [])) ∧
  (∀ cs (req : ControllerExpandVolumeRequest),
     exp_VolumeId req = "" ∨ exp_CapacityRange req = None →
     ∃ e, run observe o [] (ControllerExpandVolume cs req) = (Returns (Err e), []) ∧
          status_Code e = InvalidArgument).
Proof.
  split; [|split].
  - intros publish Hmissing. unfold getISCSIInfo.
    destruct Hmissing as [-> | [-> | ->]]; cbn; by rewrite ?orb_true_r.
  - intros cs req Hid. unfold DeleteVolume. rewrite Hid. cbn. eauto.
  - intros cs req Hmissing. unfold ControllerExpandVolume.
    destruct (exp_VolumeId req) as [|a s] eqn:Hid; cbn; [eauto|].
    destruct Hmissing as [[=] | ->]. cbn. eauto.
Qed.

End ControllerCalls.

Section ControllerExamples.
Import Iscsi Controller Examples.

(** C8, as stated: the rejection of [getISCSIInfo] is not classified
    invalid-argument.  On the request with an empty volume context it is a
    plain error, whose status code is Unknown. *)
Lemma getISCSIInfo_rejection_unclassified :
  ∃ e, getISCSIInfo publish_empty = Err e ∧ status_Code e ≠ InvalidArgument.
Proof. eexists. split; [vm_compute; reflexivity | discriminate]. Qed.

(** [DeleteVolume] with an empty volume ID: a plain error as well. *)
Example DeleteVolume_empty_id :
  run observe volume_api [] (DeleteVolume server (mkCsiDeleteVolumeRequest ""))
  = (Returns (Err (fmt_Errorf "volume ID is required")), []).
Proof. reflexivity. Qed.

Lemma missing_fields_rejected_witness :
  (index (Iscsi.VolumeContext publish_empty) "target_portal" = "" ∧
   getISCSIInfo publish_empty = Err (fmt_Errorf "ISCSI target information is missing")) ∧
  (del_VolumeId (mkCsiDeleteVolumeRequest "") = "" ∧
   ∃ e, run observe volume_api [] (DeleteVolume server (mkCsiDeleteVolumeRequest ""))
        = (Returns (Err e), [])) ∧
  (exp_CapacityRange (mkControllerExpandVolumeRequest "vol-1" None) = None ∧
   ∃ e, run observe volume_api []
          (ControllerExpandVolume server (mkControllerExpandVolumeRequest "vol-1" None))
        = (Returns (Err e), []) ∧ status_Code e = InvalidArgument).
Proof.
  destruct (missing_fields_rejected volume_api) as (Hnode & Hdel & Hexp).
  split; [|split].
  - split; [reflexivity|]. apply Hnode. left. reflexivity.
  - split; [reflexivity|]. apply Hdel. reflexivity.
  - split; [reflexivity|]. apply Hexp. right. reflexivity.
Defined.

Lemma CreateVolume_context_unreadable_witness :
  (run observe volume_api [] (CreateVolume server create_vol1)).1
    = Returns (Ok created_vol1) ∧
  Iscsi.VolumeContext publish_created !! "targetPortal" = Some "10.0.0.5" ∧
  Iscsi.VolumeContext publish_created !! "target_portal" = None ∧
  Iscsi.VolumeContext publish_created !! "target_iqn" = None ∧
  getISCSIInfo publish_created = Err (fmt_Errorf "ISCSI target information is missing").
Proof.
  assert (Hrun : run observe volume_api [] (CreateVolume server create_vol1)
                 = (Returns (Ok created_vol1),
                    (run observe volume_api [] (CreateVolume server create_vol1)).2))
    by (vm_compute; reflexivity).
  split; [vm_compute; reflexivity|]. split; [vm_compute; reflexivity|].
  exact (proj2 (proj2 (CreateVolume_context_unreadable volume_api server create_vol1
                         _ _ publish_created Hrun eq_refl))).
Defined.

End ControllerExamples.

(** ** Scenarios of the spec, on the model of the node *)

Section Scenarios.
Import Iscsi IscsiUtil Events Node Examples Cases.

(** Publishing [vol-1] with a connector that has its portal: the device is
    mounted read-write at the target path and the Connector is on file.
    Unpublishing takes all of it back but the parent directories the attach
    made on the way to the target path. *)
Example publish_then_unpublish :
  let attached := exec observe node fresh_node [] (AttachDisk driverName mounter_vol1) in
  let detached :=
    exec observe node attached.1.2 []
      (DetachDisk driverName unmounter_vol1 "/pods/a/mount") in
  attached.1.1 = (device_path connector_vol1 "10.0.0.5:3260", None) ∧
  EvFormatAndMount (device_path connector_vol1 "10.0.0.5:3260") "/pods/a/mount" "ext4"
    ["rw"] None ∈ attached.2 ∧
  files attached.1.2 !! getIscsiInfoPath driverName "vol-1" = Some connector_vol1 ∧
  detached.1.1 = None ∧
  detached.1.2 = node_pod_dir.
Proof.
  cbv zeta. repeat split; try (vm_compute; reflexivity).
  vm_compute. trace_has.
Qed.

(** The request of the single-portal scenario, taken through
    [getISCSIInfo] and [getISCSIDiskMounter]: the connector has no portal,
    and the attach ends at [Connect]. *)
Example publish_single_portal :
  (d ← getISCSIInfo publish_vol1;
   Ok (exec observe node fresh_node []
         (AttachDisk driverName (getISCSIDiskMounter d publish_vol1))).1.1)
  = Ok ("", Some (LibError false "no portal to log in to")).
Proof. vm_compute. reflexivity. Qed.

End Scenarios.

(** * More about the code *)

(** ** [AttachDisk], step by step *)

Section AttachSteps.
Import Iscsi IscsiUtil Events Calls.
Variable driverName : string.
Variable o : oracle (E:=NodeE) (Ev:=NodeEv).

(** X1: a failed [Connect] is returned as it is, with an empty device path,
    and the attach stops there: besides log lines the trace has that one
    call, so nothing is checked, created, persisted or mounted. *)
Theorem AttachDisk_connect_failure
    (b : iscsiDiskMounter) (r : string * option error) (tr : list NodeEv) :
  run observe o [] (AttachDisk driverName b) = (r, tr) →
  ∀ c c' devicePath err,
    EvConnect c c' devicePath (Some err) ∈ tr →
    r = ("", Some err) ∧
    connector b = Some c ∧
    filter (λ ev, is_log ev = false) tr = [EvConnect c c' devicePath (Some err)].
Proof.
  unfold AttachDisk. cbn. destruct (connector b) as [c0|]; cbn.
  all: repeat answer o.
  all: intros [= <- <-] c c' devicePath cerr Hin; in_trace.
  repeat split.
Qed.

(** X2: when the target path is already a mount point, the attach is a
    no-op after [Connect]: it returns the empty path and no error, and it
    neither creates the directory, nor persists the Connector, nor mounts. *)
Theorem AttachDisk_already_mounted
    (b : iscsiDiskMounter) (r : string * option error) (tr : list NodeEv) :
  run observe o [] (AttachDisk driverName b) = (r, tr) →
  ∀ file err,
    EvIsLikelyNotMountPoint file false err ∈ tr →
    from_option os_IsNotExist true err = true →
    r = ("", None) ∧
    file = targetPath b ∧
    Forall (λ ev, prepares_mount ev = false) tr.
Proof.
  unfold AttachDisk. cbn. destruct (connector b) as [c0|]; cbn.
  all: repeat answer o.
  all: intros [= <- <-] file merr Hin Hok; in_trace.
  all: try (split; [reflexivity|]; split; [reflexivity|]; repeat constructor).
  all: cbn in Hok; rewrite Hok in *; discriminate.
Qed.

(** X3: the mount-point check.  An error other than "does not exist" ends
    the attach with an error that quotes it, and nothing is created,
    persisted or mounted.  A "does not exist" error is not an error: when
    the answer says the path is not a mount point, the directory is
    created next. *)
Theorem AttachDisk_mount_point_check
    (b : iscsiDiskMounter) (r : string * option error) (tr : list NodeEv) :
  run observe o [] (AttachDisk driverName b) = (r, tr) →
  ∀ file notMnt err,
    EvIsLikelyNotMountPoint file notMnt (Some err) ∈ tr →
    if os_IsNotExist err
    then notMnt = true → ∃ merr, EvMkdirAll (targetPath b) perm_0o750 merr ∈ tr
    else r = ("", Some (fmt_Errorf
                 ("heuristic determination of mount point failed:" +:+ Error err))) ∧
         Forall (λ ev, prepares_mount ev = false) tr.
Proof.
  unfold AttachDisk. cbn. destruct (connector b) as [c0|]; cbn.
  all: repeat answer o.
  all: intros [= <- <-] file notMnt cerr Hin.
  all: destruct (os_IsNotExist cerr) eqn:Hne; in_trace.
  all: try (rewrite Hne in *; cbn in *; discriminate).
  all: try (split; [reflexivity | repeat constructor]).
  all: try (intros [=]).
  all: eexists; trace_has.
Qed.

(** X4: whatever is mounted is the device [Connect] returned, at the target
    path of the request, with its file-system type, and with the options
    [ro] or [rw] (by the read-only flag) followed by the mount flags of the
    request. *)
Theorem AttachDisk_mount_arguments
    (b : iscsiDiskMounter) (r : string * option error) (tr : list NodeEv) :
  run observe o [] (AttachDisk driverName b) = (r, tr) →
  ∀ source target fstype options err,
    EvFormatAndMount source target fstype options err ∈ tr →
    (∃ c c', EvConnect c c' source None ∈ tr) ∧
    target = targetPath b ∧
    fstype = fsType b ∧
    options = mount_options b ∧
    r = (source, err).
Proof.
  unfold AttachDisk, mount_options. cbn. destruct (connector b) as [c0|]; cbn.
  all: repeat answer o.
  all: intros [= <- <-] source target fstype options merr Hin; in_trace.
  all: split; [eexists _, _; trace_has|].
  all: by destruct (readOnly b).
Qed.

(** X5: the two ways an attach succeeds.  It returns no error and a device
    path exactly when it has persisted the Connector and mounted that
    device; it returns no error and the empty path exactly when it found
    the target path mounted already. *)
Theorem AttachDisk_success
    (b : iscsiDiskMounter) (devicePath : string) (tr : list NodeEv) :
  run observe o [] (AttachDisk driverName b) = ((devicePath, None), tr) →
  if devicePath =? ""
  then (∃ err, EvIsLikelyNotMountPoint (targetPath b) false err ∈ tr) ∧
       Forall (λ ev, prepares_mount ev = false) tr
  else ∃ c c',
         [EvConnect c c' devicePath None;
          EvMkdirAll (targetPath b) perm_0o750 None;
          EvPersistConnector c'
            (getIscsiInfoPath driverName (VolName (mounter_disk b))) None;
          EvFormatAndMount devicePath (targetPath b) (fsType b) (mount_options b) None]
         `sublist_of` tr.
Proof.
  unfold AttachDisk, mount_options. cbn. destruct (connector b) as [c0|]; cbn.
  all: repeat answer o.
  all: intros [= <- <-].
  all: try match goal with H : (_ =? _) = false |- _ => rewrite H end.
  all: try (split; [eexists; trace_has | repeat constructor]).
  all: eexists _, _; destruct (readOnly b); in_order.
Qed.

End AttachSteps.


(** ** [DetachDisk], step by step *)

Section DetachSteps.
Import Iscsi IscsiUtil Events Calls.
Variable driverName : string.
Variable o : oracle (E:=NodeE) (Ev:=NodeEv).

(** X6: a detach never attaches: no run of it connects, checks or creates a
    mount point, persists a Connector, or mounts. *)
Theorem DetachDisk_never_attaches
    (c : iscsiDiskUnmounter) (targetPath : string) (r : option error)
    (tr : list NodeEv) :
  run observe o [] (DetachDisk driverName c targetPath) = (r, tr) →
  Forall (λ ev, is_attach_call ev = false) tr.
Proof.
  unfold DetachDisk. cbn.
  repeat answer o.
  all: intros [= <- <-]; repeat constructor.
Qed.

(** X7: the order of a full teardown.  Whenever a detach gets as far as
    deleting the Connector file, it has before that, in this order: loaded
    the Connector of the volume, unmounted the target path, disconnected the
    volume, logged out of the IQN and portals of the Connector as the
    disconnect left it, and removed the mount directory; and the reference
    count of the mount table was exactly one. *)
Theorem DetachDisk_teardown_order
    (c : iscsiDiskUnmounter) (targetPath : string) (r : option error)
    (tr : list NodeEv) :
  run observe o [] (DetachDisk driverName c targetPath) = (r, tr) →
  ∀ name err,
    EvRemove name err ∈ tr →
    name = getIscsiInfoPath driverName (VolName (unmounter_disk c)) ∧
    r = err ∧
    ∃ device refCount connector connector' rerr,
      int (refCount - 1) = 0%Z ∧
      [EvGetDeviceNameFromMount targetPath device refCount None;
       EvGetConnectorFromFile name (Ok connector);
       EvUnmount targetPath None;
       EvDisconnectVolume connector connector' None;
       EvDisconnect (TargetIqn connector') (TargetPortals connector');
       EvRemoveAll targetPath rerr;
       EvRemove name err] `sublist_of` tr.
Proof.
  unfold DetachDisk. cbn.
  repeat answer o.
  all: intros [= <- <-] name rmerr Hin; in_trace.
  all: split; [reflexivity|]; split; [reflexivity|].
  all: eexists _, _, _, _, _; split; [|in_order].
  all: match goal with H : negb (_ =? _)%Z = false |- _ =>
         apply negb_false_iff, Z.eqb_eq in H; exact H
       end.
Qed.

(** X8: when the unmount fails, the detach returns that error and the
    session is left alone: no disconnect, no logout, nothing deleted. *)
Theorem DetachDisk_unmount_failure
    (c : iscsiDiskUnmounter) (targetPath : string) (r : option error)
    (tr : list NodeEv) :
  run observe o [] (DetachDisk driverName c targetPath) = (r, tr) →
  ∀ target err,
    EvUnmount target (Some err) ∈ tr →
    r = Some err ∧ Forall (λ ev, is_teardown ev = false) tr.
Proof.
  unfold DetachDisk. cbn.
  repeat answer o.
  all: intros [= <- <-] target uerr Hin; in_trace.
  all: split; [reflexivity | repeat constructor].
Qed.

(** X9: when disconnecting the volume fails, after a successful unmount,
    the detach returns that error without logging out of the target and
    without deleting the mount directory or the Connector file. *)
Theorem DetachDisk_disconnect_failure
    (c : iscsiDiskUnmounter) (targetPath : string) (r : option error)
    (tr : list NodeEv) :
  run observe o [] (DetachDisk driverName c targetPath) = (r, tr) →
  ∀ connector connector' err,
    EvDisconnectVolume connector connector' (Some err) ∈ tr →
    r = Some err ∧
    EvUnmount targetPath None ∈ tr ∧
    Forall (λ ev, match ev with
                  | EvDisconnect _ _ | EvRemoveAll _ _ | EvRemove _ _ => False
                  | _ => True
                  end) tr.
Proof.
  unfold DetachDisk. cbn.
  repeat answer o.
  all: intros [= <- <-] connector connector' derr Hin; in_trace.
  all: split; [reflexivity|]; split; [trace_has | repeat constructor].
Qed.

(** X10: a mount directory that cannot be removed does not fail the detach:
    the failure is logged, the Connector file is deleted all the same, and
    the result of the detach is the result of that deletion. *)
Theorem DetachDisk_directory_removal_not_fatal
    (c : iscsiDiskUnmounter) (targetPath : string) (r : option error)
    (tr : list NodeEv) :
  run observe o [] (DetachDisk driverName c targetPath) = (r, tr) →
  ∀ path err,
    EvRemoveAll path (Some err) ∈ tr →
    path = targetPath ∧
    EvLog KlogError ("iscsi: failed to remove mount path Error: " +:+ Error err) ∈ tr ∧
    EvRemove (getIscsiInfoPath driverName (VolName (unmounter_disk c))) r ∈ tr.
Proof.
  unfold DetachDisk. cbn.
  repeat answer o.
  all: intros [= <- <-] path rerr Hin; in_trace.
  all: split; [reflexivity|]; split; trace_has.
Qed.

(** X11: when the target path does not exist, the detach returns nil after
    a warning, and does not even load the Connector: the only calls are the
    mount-table lookup and the path check. *)
Theorem DetachDisk_path_missing
    (c : iscsiDiskUnmounter) (targetPath : string) (r : option error)
    (tr : list NodeEv) :
  run observe o [] (DetachDisk driverName c targetPath) = (r, tr) →
  ∀ path,
    EvPathExists path false None ∈ tr →
    r = None ∧
    ∃ device refCount,
      filter (λ ev, is_log ev = false) tr =
        [EvGetDeviceNameFromMount targetPath device refCount None;
         EvPathExists targetPath false None].
Proof.
  unfold DetachDisk. cbn.
  repeat answer o.
  all: intros [= <- <-] path Hin; in_trace.
  split; [reflexivity|]. eexists _, _. reflexivity.
Qed.

(** X12: the four ways a detach succeeds.  When it returns nil, then the
    target path did not exist, or the Connector file did not exist, or the
    path was unmounted and the device is still referenced, or the teardown
    ran to the end and deleted the Connector file. *)
Theorem DetachDisk_success
    (c : iscsiDiskUnmounter) (targetPath : string) (tr : list NodeEv) :
  run observe o [] (DetachDisk driverName c targetPath) = (None, tr) →
  let name := getIscsiInfoPath driverName (VolName (unmounter_disk c)) in
  EvPathExists targetPath false None ∈ tr ∨
  (∃ err, os_IsNotExist err = true ∧ EvGetConnectorFromFile name (Err err) ∈ tr) ∨
  (∃ device refCount,
     int (refCount - 1) ≠ 0%Z ∧
     EvGetDeviceNameFromMount targetPath device refCount None ∈ tr ∧
     EvUnmount targetPath None ∈ tr ∧
     Forall (λ ev, is_teardown ev = false) tr) ∨
  EvRemove name None ∈ tr.
Proof.
  unfold DetachDisk. cbn.
  repeat answer o.
  all: intros [= <-]; cbv zeta.
  all: first
    [ left; trace_has
    | right; left; eexists; split; [eassumption | trace_has]
    | right; right; right; trace_has
    | right; right; left; eexists _, _; split;
      [ match goal with H : negb (_ =? _)%Z = true |- _ =>
          apply negb_true_iff, Z.eqb_neq in H; exact H
        end
      | split; [trace_has | split; [trace_has | repeat constructor]]] ].
Qed.

End DetachSteps.


Section AttachExamples.
Import Iscsi IscsiUtil Events Calls Examples Cases.

Lemma AttachDisk_connect_failure_witness :
  ∃ r tr,
    run observe (scripted connect_fails) [] (AttachDisk driverName mounter_vol1) = (r, tr) ∧
    EvConnect connector_vol1 connector_vol1 "" (Some io_error) ∈ tr ∧
    r = ("", Some io_error) ∧
    connector mounter_vol1 = Some connector_vol1 ∧
    filter (λ ev, is_log ev = false) tr
      = [EvConnect connector_vol1 connector_vol1 "" (Some io_error)].
Proof.
  eexists _, _.
  assert (Hrun : run observe (scripted connect_fails) []
                   (AttachDisk driverName mounter_vol1) = (_, _))
    by (vm_compute; reflexivity).
  assert (Hin : EvConnect connector_vol1 connector_vol1 "" (Some io_error)
                ∈ (run observe (scripted connect_fails) []
                     (AttachDisk driverName mounter_vol1)).2)
    by (vm_compute; trace_has).
  split; [exact Hrun|]. split; [exact Hin|].
  exact (AttachDisk_connect_failure driverName (scripted connect_fails) mounter_vol1
           _ _ Hrun _ _ _ _ Hin).
Defined.

Lemma AttachDisk_already_mounted_witness :
  ∃ r tr,
    run observe (scripted already_mounted) [] (AttachDisk driverName mounter_vol1)
      = (r, tr) ∧
    EvIsLikelyNotMountPoint "/pods/a/mount" false None ∈ tr ∧
    r = ("", None) ∧
    "/pods/a/mount" = targetPath mounter_vol1 ∧
    Forall (λ ev, prepares_mount ev = false) tr.
Proof.
  eexists _, _.
  assert (Hrun : run observe (scripted already_mounted) []
                   (AttachDisk driverName mounter_vol1) = (_, _))
    by (vm_compute; reflexivity).
  assert (Hin : EvIsLikelyNotMountPoint "/pods/a/mount" false None
                ∈ (run observe (scripted already_mounted) []
                     (AttachDisk driverName mounter_vol1)).2)
    by (vm_compute; trace_has).
  split; [exact Hrun|]. split; [exact Hin|].
  exact (AttachDisk_already_mounted driverName (scripted already_mounted) mounter_vol1
           _ _ Hrun _ _ Hin eq_refl).
Defined.

Lemma AttachDisk_mount_point_check_witness :
  (∃ r tr,
     run observe (scripted stat_fails) [] (AttachDisk driverName mounter_vol1) = (r, tr) ∧
     EvIsLikelyNotMountPoint "/pods/a/mount" true (Some io_error) ∈ tr ∧
     r = ("", Some (fmt_Errorf
             "heuristic determination of mount point failed:input/output error")) ∧
     Forall (λ ev, prepares_mount ev = false) tr) ∧
  (∃ r tr,
     run observe (scripted target_absent) [] (AttachDisk driverName mounter_vol1)
       = (r, tr) ∧
     EvIsLikelyNotMountPoint "/pods/a/mount" true
       (Some (Node.no_such_file "stat" "/pods/a/mount")) ∈ tr ∧
     ∃ merr, EvMkdirAll "/pods/a/mount" perm_0o750 merr ∈ tr).
Proof.
  split.
  - eexists _, _.
    assert (Hrun : run observe (scripted stat_fails) []
                     (AttachDisk driverName mounter_vol1) = (_, _))
      by (vm_compute; reflexivity).
    assert (Hin : EvIsLikelyNotMountPoint "/pods/a/mount" true (Some io_error)
                  ∈ (run observe (scripted stat_fails) []
                       (AttachDisk driverName mounter_vol1)).2)
      by (vm_compute; trace_has).
    split; [exact Hrun|]. split; [exact Hin|].
    exact (AttachDisk_mount_point_check driverName (scripted stat_fails) mounter_vol1
             _ _ Hrun _ _ _ Hin).
  - eexists _, _.
    assert (Hrun : run observe (scripted target_absent) []
                     (AttachDisk driverName mounter_vol1) = (_, _))
      by (vm_compute; reflexivity).
    assert (Hin : EvIsLikelyNotMountPoint "/pods/a/mount" true
                    (Some (Node.no_such_file "stat" "/pods/a/mount"))
                  ∈ (run observe (scripted target_absent) []
                       (AttachDisk driverName mounter_vol1)).2)
      by (vm_compute; trace_has).
    split; [exact Hrun|]. split; [exact Hin|].
    exact (AttachDisk_mount_point_check driverName (scripted target_absent) mounter_vol1
             _ _ Hrun _ _ _ Hin eq_refl).
Defined.

Lemma AttachDisk_mount_arguments_witness :
  ∃ r tr,
    run observe (scripted mount_fails) [] (AttachDisk driverName mounter_vol1) = (r, tr) ∧
    EvFormatAndMount "/dev/sdb" "/pods/a/mount" "ext4" ["rw"] (Some io_error) ∈ tr ∧
    (∃ c c', EvConnect c c' "/dev/sdb" None ∈ tr) ∧
    "/pods/a/mount" = targetPath mounter_vol1 ∧
    "ext4" = fsType mounter_vol1 ∧
    ["rw"] = mount_options mounter_vol1 ∧
    r = ("/dev/sdb", Some io_error).
Proof.
  eexists _, _.
  assert (Hrun : run observe (scripted mount_fails) []
                   (AttachDisk driverName mounter_vol1) = (_, _))
    by (vm_compute; reflexivity).
  assert (Hin : EvFormatAndMount "/dev/sdb" "/pods/a/mount" "ext4" ["rw"] (Some io_error)
                ∈ (run observe (scripted mount_fails) []
                     (AttachDisk driverName mounter_vol1)).2)
    by (vm_compute; trace_has).
  split; [exact Hrun|]. split; [exact Hin|].
  exact (AttachDisk_mount_arguments driverName (scripted mount_fails) mounter_vol1
           _ _ Hrun _ _ _ _ _ Hin).
Defined.

Lemma AttachDisk_success_witness :
  (∃ tr,
     run observe (scripted all_well) [] (AttachDisk driverName mounter_vol1)
       = (("/dev/sdb", None), tr) ∧
     ∃ c c',
       [EvConnect c c' "/dev/sdb" None;
        EvMkdirAll "/pods/a/mount" perm_0o750 None;
        EvPersistConnector c' (getIscsiInfoPath driverName "vol-1") None;
        EvFormatAndMount "/dev/sdb" "/pods/a/mount" "ext4" ["rw"] None]
       `sublist_of` tr) ∧
  (∃ tr,
     run observe (scripted already_mounted) [] (AttachDisk driverName mounter_vol1)
       = (("", None), tr) ∧
     (∃ err, EvIsLikelyNotMountPoint "/pods/a/mount" false err ∈ tr) ∧
     Forall (λ ev, prepares_mount ev = false) tr).
Proof.
  split.
  - eexists.
    assert (Hrun : run observe (scripted all_well) []
                     (AttachDisk driverName mounter_vol1) = (("/dev/sdb", None), _))
      by (vm_compute; reflexivity).
    split; [exact Hrun|].
    exact (AttachDisk_success driverName (scripted all_well) mounter_vol1 _ _ Hrun).
  - eexists.
    assert (Hrun : run observe (scripted already_mounted) []
                     (AttachDisk driverName mounter_vol1) = (("", None), _))
      by (vm_compute; reflexivity).
    split; [exact Hrun|].
    exact (AttachDisk_success driverName (scripted already_mounted) mounter_vol1
             _ _ Hrun).
Defined.

End AttachExamples.

Section DetachExamples.
Import Iscsi IscsiUtil Events Calls Examples Cases.

Lemma DetachDisk_never_attaches_witness :
  ∃ r tr,
    run observe (scripted all_well) []
      (DetachDisk driverName unmounter_vol1 "/pods/a/mount") = (r, tr) ∧
    Forall (λ ev, is_attach_call ev = false) tr.
Proof.
  eexists _, _.
  assert (Hrun : run observe (scripted all_well) []
                   (DetachDisk driverName unmounter_vol1 "/pods/a/mount") = (_, _))
    by (vm_compute; reflexivity).
  split; [exact Hrun|].
  exact (DetachDisk_never_attaches driverName (scripted all_well) unmounter_vol1
           _ _ _ Hrun).
Defined.

Lemma DetachDisk_teardown_order_witness :
  ∃ r tr,
    run observe (scripted all_well) []
      (DetachDisk driverName unmounter_vol1 "/pods/a/mount") = (r, tr) ∧
    EvRemove (getIscsiInfoPath driverName "vol-1") None ∈ tr ∧
    getIscsiInfoPath driverName "vol-1"
      = getIscsiInfoPath driverName (VolName (unmounter_disk unmounter_vol1)) ∧
    r = None ∧
    ∃ device refCount connector connector' rerr,
      int (refCount - 1) = 0%Z ∧
      [EvGetDeviceNameFromMount "/pods/a/mount" device refCount None;
       EvGetConnectorFromFile (getIscsiInfoPath driverName "vol-1") (Ok connector);
       EvUnmount "/pods/a/mount" None;
       EvDisconnectVolume connector connector' None;
       EvDisconnect (TargetIqn connector') (TargetPortals connector');
       EvRemoveAll "/pods/a/mount" rerr;
       EvRemove (getIscsiInfoPath driverName "vol-1") None] `sublist_of` tr.
Proof.
  eexists _, _.
  assert (Hrun : run observe (scripted all_well) []
                   (DetachDisk driverName unmounter_vol1 "/pods/a/mount") = (_, _))
    by (vm_compute; reflexivity).
  assert (Hin : EvRemove (getIscsiInfoPath driverName "vol-1") None
                ∈ (run observe (scripted all_well) []
                     (DetachDisk driverName unmounter_vol1 "/pods/a/mount")).2)
    by (vm_compute; trace_has).
  split; [exact Hrun|]. split; [exact Hin|].
  exact (DetachDisk_teardown_order driverName (scripted all_well) unmounter_vol1
           _ _ _ Hrun _ _ Hin).
Defined.

Lemma DetachDisk_unmount_failure_witness :
  ∃ r tr,
    run observe (scripted unmount_fails) []
      (DetachDisk driverName unmounter_vol1 "/pods/a/mount") = (r, tr) ∧
    EvUnmount "/pods/a/mount" (Some io_error) ∈ tr ∧
    r = Some io_error ∧ Forall (λ ev, is_teardown ev = false) tr.
Proof.
  eexists _, _.
  assert (Hrun : run observe (scripted unmount_fails) []
                   (DetachDisk driverName unmounter_vol1 "/pods/a/mount") = (_, _))
    by (vm_compute; reflexivity).
  assert (Hin : EvUnmount "/pods/a/mount" (Some io_error)
                ∈ (run observe (scripted unmount_fails) []
                     (DetachDisk driverName unmounter_vol1 "/pods/a/mount")).2)
    by (vm_compute; trace_has).
  split; [exact Hrun|]. split; [exact Hin|].
  exact (DetachDisk_unmount_failure driverName (scripted unmount_fails) unmounter_vol1
           _ _ _ Hrun _ _ Hin).
Defined.

Lemma DetachDisk_disconnect_failure_witness :
  ∃ r tr,
    run observe (scripted disconnect_fails) []
      (DetachDisk driverName unmounter_vol1 "/pods/a/mount") = (r, tr) ∧
    EvDisconnectVolume connector_vol1 connector_vol1 (Some io_error) ∈ tr ∧
    r = Some io_error ∧
    EvUnmount "/pods/a/mount" None ∈ tr ∧
    Forall (λ ev, match ev with
                  | EvDisconnect _ _ | EvRemoveAll _ _ | EvRemove _ _ => False
                  | _ => True
                  end) tr.
Proof.
  eexists _, _.
  assert (Hrun : run observe (scripted disconnect_fails) []
                   (DetachDisk driverName unmounter_vol1 "/pods/a/mount") = (_, _))
    by (vm_compute; reflexivity).
  assert (Hin : EvDisconnectVolume connector_vol1 connector_vol1 (Some io_error)
                ∈ (run observe (scripted disconnect_fails) []
                     (DetachDisk driverName unmounter_vol1 "/pods/a/mount")).2)
    by (vm_compute; trace_has).
  split; [exact Hrun|]. split; [exact Hin|].
  exact (DetachDisk_disconnect_failure driverName (scripted disconnect_fails)
           unmounter_vol1 _ _ _ Hrun _ _ _ Hin).
Defined.

Lemma DetachDisk_directory_removal_not_fatal_witness :
  ∃ r tr,
    run observe (scripted rmdir_fails) []
      (DetachDisk driverName unmounter_vol1 "/pods/a/mount") = (r, tr) ∧
    EvRemoveAll "/pods/a/mount" (Some io_error) ∈ tr ∧
    "/pods/a/mount" = "/pods/a/mount" ∧
    EvLog KlogError ("iscsi: failed to remove mount path Error: " +:+ Error io_error)
      ∈ tr ∧
    EvRemove (getIscsiInfoPath driverName (VolName (unmounter_disk unmounter_vol1))) r
      ∈ tr.
Proof.
  eexists _, _.
  assert (Hrun : run observe (scripted rmdir_fails) []
                   (DetachDisk driverName unmounter_vol1 "/pods/a/mount") = (_, _))
    by (vm_compute; reflexivity).
  assert (Hin : EvRemoveAll "/pods/a/mount" (Some io_error)
                ∈ (run observe (scripted rmdir_fails) []
                     (DetachDisk driverName unmounter_vol1 "/pods/a/mount")).2)
    by (vm_compute; trace_has).
  split; [exact Hrun|]. split; [exact Hin|].
  exact (DetachDisk_directory_removal_not_fatal driverName (scripted rmdir_fails)
           unmounter_vol1 _ _ _ Hrun _ _ Hin).
Defined.

Lemma DetachDisk_path_missing_witness :
  ∃ r tr,
    run observe (scripted path_gone) []
      (DetachDisk driverName unmounter_vol1 "/pods/a/mount") = (r, tr) ∧
    EvPathExists "/pods/a/mount" false None ∈ tr ∧
    r = None ∧
    ∃ device refCount,
      filter (λ ev, is_log ev = false) tr =
        [EvGetDeviceNameFromMount "/pods/a/mount" device refCount None;
         EvPathExists "/pods/a/mount" false None].
Proof.
  eexists _, _.
  assert (Hrun : run observe (scripted path_gone) []
                   (DetachDisk driverName unmounter_vol1 "/pods/a/mount") = (_, _))
    by (vm_compute; reflexivity).
  assert (Hin : EvPathExists "/pods/a/mount" false None
                ∈ (run observe (scripted path_gone) []
                     (DetachDisk driverName unmounter_vol1 "/pods/a/mount")).2)
    by (vm_compute; trace_has).
  split; [exact Hrun|]. split; [exact Hin|].
  exact (DetachDisk_path_missing driverName (scripted path_gone) unmounter_vol1
           _ _ _ Hrun _ Hin).
Defined.

Lemma DetachDisk_success_witness :
  ∃ tr,
    run observe (scripted mounted_twice) []
      (DetachDisk driverName unmounter_vol1 "/pods/a/mount") = (None, tr) ∧
    (EvPathExists "/pods/a/mount" false None ∈ tr ∨
     (∃ err, os_IsNotExist err = true ∧
             EvGetConnectorFromFile (getIscsiInfoPath driverName "vol-1") (Err err) ∈ tr) ∨
     (∃ device refCount,
        int (refCount - 1) ≠ 0%Z ∧
        EvGetDeviceNameFromMount "/pods/a/mount" device refCount None ∈ tr ∧
        EvUnmount "/pods/a/mount" None ∈ tr ∧
        Forall (λ ev, is_teardown ev = false) tr) ∨
     EvRemove (getIscsiInfoPath driverName "vol-1") None ∈ tr).
Proof.
  eexists.
  assert (Hrun : run observe (scripted mounted_twice) []
                   (DetachDisk driverName unmounter_vol1 "/pods/a/mount") = (None, _))
    by (vm_compute; reflexivity).
  split; [exact Hrun|].
  exact (DetachDisk_success driverName (scripted mounted_twice) unmounter_vol1
           _ _ Hrun).
Defined.

End DetachExamples.
(** ** More about request parsing *)

Section ParsingMore.
Import Iscsi IscsiUtil Chap.
Context `{JsonText}.

(** X13: completing the port is idempotent: a portal that went through
    [portalMounter] comes out of it unchanged. *)
Theorem portalMounter_idempotent (portal : string) :
  portalMounter (portalMounter portal) = portalMounter portal.
Proof.
  unfold portalMounter at 1. by rewrite portalMounter_has_port.
Qed.



(** Everything an accepted request determines. *)
Lemma getISCSIInfo_inv (req : NodePublishVolumeRequest) (d : iscsiDisk) :
  getISCSIInfo req = Ok d →
  let ctx := VolumeContext req in
  ∃ l,
    index ctx "target_portal" ≠ "" ∧ index ctx "target_iqn" ≠ "" ∧
    index ctx "lun" ≠ "" ∧
    parseSessionSecret (parseSecret (index ctx "secret")) = (sessionSecret d, None) ∧
    parseDiscoverySecret (parseSecret (index ctx "secret")) = (discoverySecret d, None) ∧
    portals_of (index ctx "target_portal") (index ctx "portals") = Ok (Portals d) ∧
    strconv_Atoi (index ctx "lun") = Ok l ∧
    d = {| VolName := VolumeId req; Portals := Portals d;
           Iqn := index ctx "target_iqn"; lun := int32 l;
           Iface := index ctx "iscsiInterface";
           chapDiscovery := negb (index ctx "discoveryCHAPAuth" =? "false");
           chapSession := (index ctx "sessionCHAPAuth" =? "true");
           secret := parseSecret (index ctx "secret");
           sessionSecret := sessionSecret d; discoverySecret := discoverySecret d;
           InitiatorName := index ctx "initiatorName" |}.
Proof.
  unfold getISCSIInfo. cbv zeta.
  destruct (index (VolumeContext req) "target_portal" =? "") eqn:Htp; [done|].
  destruct (index (VolumeContext req) "target_iqn" =? "") eqn:Hiqn; [done|].
  destruct (index (VolumeContext req) "lun" =? "") eqn:Hlun; [done|].
  cbn [orb negb].
  destruct (parseSessionSecret _) as [ss [e|]]; [done|].
  destruct (parseDiscoverySecret _) as [ds [e|]]; [done|].
  destruct (portals_of _ _) as [bk|e]; cbn; [|done].
  destruct (strconv_Atoi _) as [l|e]; cbn; [|done].
  intros [= <-]. cbn. exists l.
  apply String.eqb_neq in Htp, Hiqn, Hlun.
  repeat split; try done.
  by destruct (index (VolumeContext req) "discoveryCHAPAuth" =? "false"),
              (index (VolumeContext req) "sessionCHAPAuth" =? "true").
Qed.

(** The Connector of a descriptor that names its volume and IQN. *)
Lemma buildISCSIConnector_fields (d : iscsiDisk) :
  buildISCSIConnector (Some d) =
    if (VolName d =? "") || (Iqn d =? "") then None
    else Some {| VolumeName := VolName d;
                 TargetIqn := Iqn d;
                 TargetPortals := Portals d;
                 Lun := lun d;
                 DoCHAPDiscovery := chapDiscovery d;
                 DiscoverySecrets := discoverySecret d;
                 SessionSecrets := sessionSecret d;
                 Interface := Iface d;
                 MultipathDevice := "" |}.
Proof.
  unfold buildISCSIConnector.
  destruct ((VolName d =? "") || (Iqn d =? "")); [done|].
  by repeat case_bool_decide.
Qed.


(** X15: the LUN of an accepted request is the decimal number of the
    context, cut to 32 bits: it lies in the [int32] range, agrees with the
    number modulo 2^32, and equals it when the number is in range. *)
Theorem getISCSIInfo_lun (req : NodePublishVolumeRequest) (d : iscsiDisk) :
  getISCSIInfo req = Ok d →
  ∃ l,
    strconv_Atoi (index (VolumeContext req) "lun") = Ok l ∧
    (- 2 ^ 31 ≤ lun d < 2 ^ 31)%Z ∧
    ((lun d - l) `mod` 2 ^ 32 = 0)%Z ∧
    ((- 2 ^ 31 ≤ l < 2 ^ 31)%Z → lun d = l).
Proof.
  intros Hd. apply getISCSIInfo_inv in Hd as (l & _ & _ & _ & _ & _ & _ & Hl & Hd).
  exists l. split; [exact Hl|]. rewrite Hd. cbn. unfold int32.
  pose proof (Z.mod_pos_bound (l + 2 ^ 31) (2 ^ 32) ltac:(lia)).
  split; [lia|]. split.
  - rewrite (Z.mod_eq (l + 2 ^ 31) (2 ^ 32)) by lia.
    replace (l + 2 ^ 31 - 2 ^ 32 * ((l + 2 ^ 31) `div` 2 ^ 32) - 2 ^ 31 - l)%Z
      with ((- ((l + 2 ^ 31) `div` 2 ^ 32)) * 2 ^ 32)%Z by lia.
    apply Z.mod_mul. lia.
  - intros Hr. rewrite Z.mod_small by lia. lia.
Qed.

(** X16: which requests are accepted.  [getISCSIInfo] returns a descriptor
    exactly when the three target values are there, both secret blocks
    parse, the [portals] value, if any, is a JSON array of strings, and the
    LUN is a decimal number. *)
Theorem getISCSIInfo_accepts_iff (req : NodePublishVolumeRequest) :
  let ctx := VolumeContext req in
  (∃ d, getISCSIInfo req = Ok d) ↔
  index ctx "target_portal" ≠ "" ∧ index ctx "target_iqn" ≠ "" ∧
  index ctx "lun" ≠ "" ∧
  (parseSessionSecret (parseSecret (index ctx "secret"))).2 = None ∧
  (parseDiscoverySecret (parseSecret (index ctx "secret"))).2 = None ∧
  (index ctx "portals" = "" ∨
   ∃ portals, json_Unmarshal_strings (index ctx "portals") = Ok portals) ∧
  (∃ l, strconv_Atoi (index ctx "lun") = Ok l).
Proof.
  cbv zeta. split.
  - intros [d Hd].
    apply getISCSIInfo_inv in Hd as (l & Htp & Hiqn & Hlun & Hs & Hds & Hp & Hl & _).
    rewrite Hs, Hds. repeat split; eauto.
    unfold portals_of in Hp.
    destruct (index (VolumeContext req) "portals") as [|a s]; [by left|right].
    cbn in Hp. destruct (json_Unmarshal_strings (String a s)); [eauto|done].
  - intros (Htp & Hiqn & Hlun & Hs & Hds & Hp & [l Hl]).
    unfold getISCSIInfo.
    apply String.eqb_neq in Htp, Hiqn, Hlun. rewrite Htp, Hiqn, Hlun. cbn [orb negb].
    destruct (parseSessionSecret _) as [ss [e|]]; [done|].
    destruct (parseDiscoverySecret _) as [ds [e|]]; [done|].
    rewrite Hl. unfold portals_of.
    destruct Hp as [-> | [portals Hp]]; cbn; [eauto|].
    destruct (index (VolumeContext req) "portals") as [|a s]; cbn; [eauto|].
    rewrite Hp. cbn. eauto.
Qed.

(** X17: with a [portals] array the portal list is the target portal
    followed by the entries of the array, in their order, each with its
    port completed; nothing is removed, so a portal named twice is listed
    twice. *)
Theorem getISCSIInfo_portal_list (req : NodePublishVolumeRequest) (d : iscsiDisk) :
  getISCSIInfo req = Ok d →
  index (VolumeContext req) "portals" ≠ "" →
  ∃ portals,
    json_Unmarshal_strings (index (VolumeContext req) "portals") = Ok portals ∧
    Portals d =
      portalMounter (index (VolumeContext req) "target_portal")
        :: (portalMounter <$> portals).
Proof.
  intros Hd Hne. apply getISCSIInfo_inv in Hd as (l & _ & _ & _ & _ & _ & Hp & _).
  unfold portals_of in Hp.
  destruct (index (VolumeContext req) "portals") as [|a s]; [done|]. cbn in Hp.
  destruct (json_Unmarshal_strings (String a s)) as [portals|]; [|done].
  cbn in Hp. injection Hp as <-. rewrite foldl_portalMounter. eauto.
Qed.

(** X18: from request to Connector.  For an accepted request the Connector
    of the mounter is nil exactly when the volume ID is empty; otherwise it
    carries the volume ID, the IQN, portals, LUN, discovery flag, both
    secrets and the interface of the descriptor, and no multipath device. *)
Theorem getISCSIInfo_connector (req : NodePublishVolumeRequest) (d : iscsiDisk) :
  getISCSIInfo req = Ok d →
  connector (getISCSIDiskMounter d req) =
    if VolumeId req =? "" then None
    else Some {| VolumeName := VolumeId req;
                 TargetIqn := index (VolumeContext req) "target_iqn";
                 TargetPortals := Portals d;
                 Lun := lun d;
                 DoCHAPDiscovery := chapDiscovery d;
                 DiscoverySecrets := discoverySecret d;
                 SessionSecrets := sessionSecret d;
                 Interface := index (VolumeContext req) "iscsiInterface";
                 MultipathDevice := "" |}.
Proof.
  intros Hd. apply getISCSIInfo_inv in Hd as (l & _ & Hiqn & _ & _ & _ & _ & _ & Hd).
  change (connector (getISCSIDiskMounter d req)) with (buildISCSIConnector (Some d)).
  rewrite buildISCSIConnector_fields.
  rewrite (f_equal VolName Hd), (f_equal Iqn Hd), (f_equal Iface Hd). cbn.
  apply String.eqb_neq in Hiqn. by rewrite Hiqn, orb_false_r.
Qed.

(** X19: the session-CHAP flag and the initiator name of the request never
    reach the Connector: setting [sessionCHAPAuth] or [initiatorName] to any
    value leaves the request accepted and the Connector of its mounter the
    same. *)
Theorem connector_ignores_session_flag (req : NodePublishVolumeRequest) (d : iscsiDisk)
    (key value : string) :
  getISCSIInfo req = Ok d →
  key = "sessionCHAPAuth" ∨ key = "initiatorName" →
  let req' :=
    {| VolumeId := VolumeId req;
       VolumeContext := <[key := value]> (VolumeContext req);
       TargetPath := TargetPath req; Readonly := Readonly req; Mount := Mount req |} in
  ∃ d',
    getISCSIInfo req' = Ok d' ∧
    connector (getISCSIDiskMounter d' req') = connector (getISCSIDiskMounter d req).
Proof.
  intros Hd Hkey. cbv zeta.
  assert (Hother : ∀ k, k ≠ "sessionCHAPAuth" → k ≠ "initiatorName" →
            index (<[key := value]> (VolumeContext req)) k = index (VolumeContext req) k).
  { intros k ? ?. unfold index. rewrite lookup_insert_ne; [done|].
    destruct Hkey; congruence. }
  apply getISCSIInfo_inv in Hd as (l & Htp & Hiqn & Hlun & Hs & Hds & Hp & Hl & Hd).
  apply String.eqb_neq in Htp, Hiqn, Hlun.
  eexists. split.
  - unfold getISCSIInfo. cbn [VolumeContext VolumeId].
    rewrite !(Hother "target_portal"), !(Hother "target_iqn"), !(Hother "lun"),
      !(Hother "secret"), !(Hother "portals"), !(Hother "iscsiInterface"),
      !(Hother "discoveryCHAPAuth") by done.
    rewrite Htp, Hiqn, Hlun. cbn [orb negb].
    rewrite Hs, Hds, Hp, Hl. cbn. reflexivity.
  - unfold getISCSIDiskMounter. cbn [connector]. rewrite !buildISCSIConnector_fields.
    rewrite (f_equal VolName Hd), (f_equal Iqn Hd), (f_equal Iface Hd),
      (f_equal lun Hd), (f_equal chapDiscovery Hd).
    reflexivity.
Qed.

(** X20: with an empty volume ID an accepted request cannot be attached:
    its mounter has no Connector, and [AttachDisk] returns "connector is
    nil" without calling any collaborator. *)
Theorem AttachDisk_without_volume_id (driverName : string)
    (o : oracle (E:=NodeE) (Ev:=NodeEv)) (req : NodePublishVolumeRequest) (d : iscsiDisk) :
  getISCSIInfo req = Ok d →
  VolumeId req = "" →
  run observe o [] (AttachDisk driverName (getISCSIDiskMounter d req))
  = (("", Some (fmt_Errorf "connector is nil")), [EvLog StdLog "AttachDisk1"]).
Proof.
  intros Hd Hid.
  apply getISCSIInfo_inv in Hd as (l & _ & _ & _ & _ & _ & _ & _ & Hd).
  assert (Hc : connector (getISCSIDiskMounter d req) = None).
  { change (connector (getISCSIDiskMounter d req)) with (buildISCSIConnector (Some d)).
    rewrite buildISCSIConnector_fields, (f_equal VolName Hd). cbn.
    by rewrite Hid. }
  unfold AttachDisk. rewrite Hc. reflexivity.
Qed.

End ParsingMore.

Section InfoPath.
Import IscsiUtil.

Lemma string_length_app (s t : string) :
  String.length (s +:+ t) = String.length s + String.length t.
Proof.
  induction s as [|a s IH]; [done|].
  change (String a s +:+ t) with (String a (s +:+ t)). cbn. by rewrite IH.
Qed.

Lemma string_app_inv_tail (s1 s2 t : string) : s1 +:+ t = s2 +:+ t → s1 = s2.
Proof.
  revert s2. induction s1 as [|a s1 IH]; intros [|b s2] Heq.
  - done.
  - exfalso. apply (f_equal String.length) in Heq.
    rewrite !string_length_app in Heq. cbn in Heq. lia.
  - exfalso. apply (f_equal String.length) in Heq.
    rewrite !string_length_app in Heq. cbn in Heq. lia.
  - change (String a (s1 +:+ t) = String b (s2 +:+ t)) in Heq.
    injection Heq as -> Heq. f_equal. by apply IH.
Qed.

(** X21: one Connector file per volume: for a given driver name, two
    different volume IDs have different Connector file paths. *)
Theorem getIscsiInfoPath_distinct (driverName volumeID1 volumeID2 : string) :
  volumeID1 ≠ volumeID2 →
  getIscsiInfoPath driverName volumeID1 ≠ getIscsiInfoPath driverName volumeID2.
Proof.
  unfold getIscsiInfoPath. intros Hne Heq. apply Hne.
  apply (inj (String.app _)), (inj (String.app _)) in Heq.
  by apply string_app_inv_tail in Heq.
Qed.

End InfoPath.


(** ** More about the controller *)

Section ControllerMore.
Import Controller ControllerRest.
Context `{JsonText} `{JsonApi}.
Variable o : oracle (E:=CtrlE) (Ev:=CtrlEv).

(** X22: [CreateVolume] panics exactly when the request has no capacity
    range, on reading its required bytes; by then it has written one log
    line and has not called the volume API. *)
Theorem CreateVolume_panics_iff (cs : ControllerServer) (req : CreateVolumeRequest) :
  (cvr_CapacityRange req = None ↔
   ∃ msg, (run observe o [] (CreateVolume cs req)).1 = Panics msg) ∧
  (cvr_CapacityRange req = None →
   run observe o [] (CreateVolume cs req) =
     (Panics nil_dereference,
      [EvKlogV 1 ("Creating Volume via API for:" +:+ Name req)])).
Proof.
  unfold CreateVolume. cbn.
  destruct (cvr_CapacityRange req) as [capacityRange|]; cbn.
  - repeat api_step o; (split; [split; [done | intros [msg [=]]] | done]).
  - split; [split; eauto | done].
Qed.

(** X23: the request [CreateVolume] sends.  It calls the volume API at most
    once, and the call is a POST to the create endpoint of the configured
    API with the JSON of the initiator name of the driver and the required
    bytes of the request. *)
Theorem CreateVolume_request (cs : ControllerServer) (req : CreateVolumeRequest)
    (r : outcome CreateVolumeResponse) (tr : list CtrlEv) :
  run observe o [] (CreateVolume cs req) = (r, tr) →
  (length (filter (λ ev, is_api_call ev = true) tr) ≤ 1)%nat ∧
  ∀ method url body answer,
    EvHttp method url body answer ∈ tr →
    method = "POST" ∧
    url = apiURL (Driver cs) +:+ "/api/volumes/create" ∧
    ∃ capacityRange,
      cvr_CapacityRange req = Some capacityRange ∧
      json_Marshal_VolumeRequest
        {| vr_InitiatorName := initiatorName (Driver cs);
           vr_Capacity := RequiredBytes capacityRange |} = Ok body.
Proof.
  unfold CreateVolume. cbn.
  destruct (cvr_CapacityRange req) as [capacityRange|]; cbn.
  all: repeat api_step o.
  all: intros [= <- <-]; split; [apply Nat.leb_le; reflexivity|].
  all: intros method url body answer Hin; in_trace.
  all: repeat split; eauto.
Qed.

(** X24: what a successful [CreateVolume] returns.  The API answered with a
    body that decodes to a volume response; the volume has the ID of that
    response and the capacity the request required (not one the API
    reported); and the volume context has exactly seven keys: the portal,
    IQN, LUN and the two CHAP values of the response, the interface
    [default], and under [portals] the JSON array of the one target
    portal. *)
Theorem CreateVolume_success (cs : ControllerServer) (req : CreateVolumeRequest)
    (resp : CreateVolumeResponse) (tr : list CtrlEv) :
  run observe o [] (CreateVolume cs req) = (Returns (Ok resp), tr) →
  ∃ capacityRange method url sent body volResp,
    cvr_CapacityRange req = Some capacityRange ∧
    EvHttp method url sent (Ok body) ∈ tr ∧
    json_Decode_VolumeResponse body = Ok volResp ∧
    VolumeId (cv_Volume resp) = VolumeID volResp ∧
    CapacityBytes (cv_Volume resp) = RequiredBytes capacityRange ∧
    VolumeContext (cv_Volume resp) =
      list_to_map
        [("portals", match json_Marshal_strings [TargetPortal volResp] with
                     | Ok text => text
                     | Err _ => ""
                     end);
         ("targetPortal", TargetPortal volResp);
         ("iqn", Iqn volResp);
         ("lun", Lun volResp);
         ("interface", "default");
         ("discoveryCHAPAuth", DiscoveryCHAPAuth volResp);
         ("sessionCHAPAuth", SessionCHAPAuth volResp)] ∧
    size (VolumeContext (cv_Volume resp)) = 7.
Proof.
  unfold CreateVolume. cbn.
  destruct (cvr_CapacityRange req) as [capacityRange|]; cbn.
  all: repeat api_step o.
  all: intros [= <- <-].
  eexists _, _, _, _, _, _. split; [reflexivity|]. split; [trace_has|].
  split; [eassumption|]. cbn. repeat split.
Qed.

(** X25: [DeleteVolume] with a volume ID sends exactly one request, a DELETE
    to the delete endpoint with the JSON of the ID, unless the JSON cannot
    be written; and it succeeds exactly when that request does, whatever
    body the API answers with. *)
Theorem DeleteVolume_request (cs : ControllerServer) (req : csi_DeleteVolumeRequest)
    (r : outcome unit) (tr : list CtrlEv) (sent : string) :
  run observe o [] (DeleteVolume cs req) = (r, tr) →
  del_VolumeId req ≠ "" →
  json_Marshal_DeleteVolumeRequest {| dvr_VolumeID := del_VolumeId req |} = Ok sent →
  ∃ answer,
    filter (λ ev, is_api_call ev = true) tr =
      [EvHttp "DELETE" (apiURL (Driver cs) +:+ "/api/volumes/delete") sent answer] ∧
    (r = Returns (Ok tt) ↔ ∃ body, answer = Ok body).
Proof.
  unfold DeleteVolume. cbn. intros Hrun Hid%String.eqb_neq Hsent. revert Hrun.
  rewrite Hid, Hsent. cbn.
  repeat api_step o.
  all: intros [= <- <-]; eexists; split; [reflexivity|].
  all: split; [try done; eauto | try done; by intros [? [=]]].
Qed.

(** X26: a successful [ControllerExpandVolume] answers with the required
    bytes of the request, after one POST to the resize endpoint with the
    volume ID and those bytes; the call fails when the answer of the API
    does not decode, although the API had accepted the resize. *)
Theorem ControllerExpandVolume_result (cs : ControllerServer)
    (req : ControllerExpandVolumeRequest)
    (r : outcome ControllerExpandVolumeResponse) (tr : list CtrlEv) :
  run observe o [] (ControllerExpandVolume cs req) = (r, tr) →
  (∀ resp, r = Returns (Ok resp) →
     ∃ capacityRange sent body,
       exp_CapacityRange req = Some capacityRange ∧
       exp_CapacityBytes resp = RequiredBytes capacityRange ∧
       json_Marshal_VolumeResizeRequest
         {| vrr_VolumeID := exp_VolumeId req;
            vrr_Capacity := RequiredBytes capacityRange |} = Ok sent ∧
       filter (λ ev, is_api_call ev = true) tr =
         [EvHttp "POST" (apiURL (Driver cs) +:+ "/api/volumes/resize") sent (Ok body)]) ∧
  (∀ method url sent body e,
     EvHttp method url sent (Ok body) ∈ tr →
     json_Decode_VolumeResponse body = Err e →
     r = Returns (Err (fmt_Errorf ("failed to parse volume response: " +:+ Error e)))).
Proof.
  unfold ControllerExpandVolume. cbn.
  destruct (String.length (exp_VolumeId req) =? 0)%nat; cbn.
  2: destruct (exp_CapacityRange req) as [capacityRange|]; cbn.
  all: repeat api_step o.
  all: intros [= <- <-]; split.
  all: try (intros resp [= <-]).
  all: try (intros method url sent body derr Hin Hdec; in_trace; congruence).
  eexists _, _, _. repeat split. eassumption.
Qed.

End ControllerMore.


(** ** Snapshots and capability validation *)

Section SnapshotCalls.
Import Controller ControllerRest.
Context `{JsonSnapshotApi}.
Variable o : oracle (E:=SnapE) (Ev:=SnapEv).

(** X27: [CreateSnapshot] names the volume by the [Name] of the request: the
    source volume ID of the request is never read, so changing it changes
    nothing; a snapshot that is returned has the [Name] as its source
    volume, the ID the API answered, the time of the clock, and is ready to
    use. *)
Theorem CreateSnapshot_uses_name (cs : ControllerServer) (req : CreateSnapshotRequest) :
  (∀ sourceVolumeId,
     CreateSnapshot cs (mkCreateSnapshotRequest sourceVolumeId (snap_Name req))
     = CreateSnapshot cs req) ∧
  (∀ resp tr,
     run observe_snap o [] (CreateSnapshot cs req) = (Returns (Ok resp), tr) →
     ∃ sent body snapResp now,
       json_Marshal_SnapshotRequest {| sr_VolumeID := snap_Name req |} = Ok sent ∧
       EvCtrl (EvHttp "POST" (apiURL (Driver cs) +:+ "/api/snapshot/create") sent (Ok body))
         ∈ tr ∧
       json_Decode_SnapshotResponse body = Ok snapResp ∧
       last tr = Some (EvNow now) ∧
       cs_Snapshot resp =
         {| SnapshotId := sresp_VolumeID snapResp;
            SourceVolumeId := snap_Name req;
            CreationTime := now;
            ReadyToUse := true |}).
Proof.
  split; [intros sourceVolumeId; destruct req; reflexivity|].
  intros resp tr. unfold CreateSnapshot. cbn.
  repeat api_step o.
  all: intros [= <- <-].
  eexists _, _, _, _. split; [reflexivity|]. split; [trace_has|].
  split; [eassumption|]. split; reflexivity.
Qed.

(** X28: [DeleteSnapshot] rejects an empty snapshot ID with a plain error
    before any call; with an ID it sends one DELETE to the snapshot delete
    endpoint and succeeds exactly when that request does. *)
Theorem DeleteSnapshot_request (cs : ControllerServer) (req : csi_DeleteSnapshotRequest)
    (r : outcome unit) (tr : list SnapEv) :
  run observe_snap o [] (DeleteSnapshot cs req) = (r, tr) →
  (dels_SnapshotId req = "" →
   r = Returns (Err (fmt_Errorf "snapshot ID is required")) ∧ tr = []) ∧
  (∀ sent,
     dels_SnapshotId req ≠ "" →
     json_Marshal_DeleteSnapshotRequest {| dsr_SnapshotID := dels_SnapshotId req |}
       = Ok sent →
     ∃ answer,
       filter (λ ev, is_http ev = true) tr =
         [EvCtrl (EvHttp "DELETE" (apiURL (Driver cs) +:+ "/api/snapshot/delete")
                    sent answer)] ∧
       (r = Returns (Ok tt) ↔ ∃ body, answer = Ok body)).
Proof.
  unfold DeleteSnapshot. cbn.
  destruct (dels_SnapshotId req =? "") eqn:Hid; cbn.
  - intros [= <- <-]. split; [done|]. intros sent Hne.
    by apply String.eqb_eq in Hid.
  - apply String.eqb_neq in Hid.
    repeat api_step o.
    all: intros [= <- <-]; split; [done|]; intros sent _ [=]; subst.
    all: eexists; split; [reflexivity|].
    all: split; [try done; eauto | try done; by intros [? [=]]].
Qed.

End SnapshotCalls.

Section ValidateCalls.
Import Controller ControllerRest.
Context {VolumeCapability : Type}.
Variable isValidVolumeCapabilities : list VolumeCapability → option error.

(** X29: [ValidateVolumeCapabilities] confirms exactly the capabilities of
    the request, with an empty message, when the volume ID is not empty and
    the check accepts them; otherwise it fails, and every error it returns
    is classified invalid-argument. *)
Theorem ValidateVolumeCapabilities_result (cs : ControllerServer)
    (req : ValidateVolumeCapabilitiesRequest (VolumeCapability:=VolumeCapability)) :
  match ValidateVolumeCapabilities isValidVolumeCapabilities cs req with
  | Ok resp =>
      val_VolumeId req ≠ "" ∧
      isValidVolumeCapabilities (val_VolumeCapabilities req) = None ∧
      Confirmed resp = val_VolumeCapabilities req ∧ Message resp = ""
  | Err e =>
      status_Code e = InvalidArgument ∧
      (val_VolumeId req = "" ∨
       is_Some (isValidVolumeCapabilities (val_VolumeCapabilities req)))
  end.
Proof.
  unfold ValidateVolumeCapabilities.
  destruct (val_VolumeId req) as [|a s] eqn:Hid; cbn; [eauto|].
  destruct (isValidVolumeCapabilities _) eqn:Hv; cbn; eauto.
Qed.

End ValidateCalls.


(** ** Publishing and unpublishing, on the model of the node *)

Section RoundTrip.
Import Iscsi IscsiUtil Events Calls Node.
Variable driverName : string.


















End RoundTrip.

Section ParsingMoreExamples.
Import Iscsi IscsiUtil Chap Examples Cases.


Lemma getISCSIInfo_lun_witness :
  ∃ d : iscsiDisk,
    getISCSIInfo publish_vol1 = Ok d ∧
    ∃ l,
      strconv_Atoi (index (VolumeContext publish_vol1) "lun") = Ok l ∧
      (- 2 ^ 31 ≤ lun d < 2 ^ 31)%Z ∧
      ((lun d - l) `mod` 2 ^ 32 = 0)%Z ∧
      ((- 2 ^ 31 ≤ l < 2 ^ 31)%Z → lun d = l).
Proof.
  eexists.
  assert (Hd : getISCSIInfo publish_vol1 = Ok _) by (vm_compute; reflexivity).
  split; [exact Hd|]. exact (getISCSIInfo_lun _ _ Hd).
Defined.

Lemma getISCSIInfo_portal_list_witness :
  ∃ d : iscsiDisk,
    getISCSIInfo publish_vol1_multipath = Ok d ∧
    index (VolumeContext publish_vol1_multipath) "portals" ≠ "" ∧
    ∃ portals,
      json_Unmarshal_strings (index (VolumeContext publish_vol1_multipath) "portals")
        = Ok portals ∧
      Portals d =
        portalMounter (index (VolumeContext publish_vol1_multipath) "target_portal")
          :: (portalMounter <$> portals).
Proof.
  eexists.
  assert (Hd : getISCSIInfo publish_vol1_multipath = Ok _) by (vm_compute; reflexivity).
  assert (Hne : index (VolumeContext publish_vol1_multipath) "portals" ≠ "")
    by (vm_compute; discriminate).
  split; [exact Hd|]. split; [exact Hne|].
  exact (getISCSIInfo_portal_list _ _ Hd Hne).
Defined.

Lemma getISCSIInfo_connector_witness :
  ∃ d : iscsiDisk,
    getISCSIInfo publish_chap = Ok d ∧
    connector (getISCSIDiskMounter d publish_chap) =
      Some {| VolumeName := "vol-1";
              TargetIqn := "iqn.2025-01.test:vol1";
              TargetPortals := Portals d;
              Lun := lun d;
              DoCHAPDiscovery := chapDiscovery d;
              DiscoverySecrets := discoverySecret d;
              SessionSecrets := sessionSecret d;
              Interface := "";
              MultipathDevice := "" |}.
Proof.
  eexists.
  assert (Hd : getISCSIInfo publish_chap = Ok _) by (vm_compute; reflexivity).
  split; [exact Hd|]. exact (getISCSIInfo_connector _ _ Hd).
Defined.

Lemma connector_ignores_session_flag_witness :
  ∃ d : iscsiDisk,
    getISCSIInfo publish_vol1 = Ok d ∧
    ∃ d',
      getISCSIInfo
        {| VolumeId := VolumeId publish_vol1;
           VolumeContext := <["sessionCHAPAuth" := "true"]> (VolumeContext publish_vol1);
           TargetPath := TargetPath publish_vol1; Readonly := Readonly publish_vol1;
           Mount := Mount publish_vol1 |} = Ok d' ∧
      connector (getISCSIDiskMounter d'
        {| VolumeId := VolumeId publish_vol1;
           VolumeContext := <["sessionCHAPAuth" := "true"]> (VolumeContext publish_vol1);
           TargetPath := TargetPath publish_vol1; Readonly := Readonly publish_vol1;
           Mount := Mount publish_vol1 |})
      = connector (getISCSIDiskMounter d publish_vol1).
Proof.
  eexists.
  assert (Hd : getISCSIInfo publish_vol1 = Ok _) by (vm_compute; reflexivity).
  split; [exact Hd|].
  exact (connector_ignores_session_flag publish_vol1 _ "sessionCHAPAuth" "true" Hd
           (or_introl eq_refl)).
Defined.

Lemma AttachDisk_without_volume_id_witness :
  ∃ d : iscsiDisk,
    getISCSIInfo publish_no_id = Ok d ∧
    VolumeId publish_no_id = "" ∧
    run observe (scripted all_well) []
      (AttachDisk driverName (getISCSIDiskMounter d publish_no_id))
    = (("", Some (fmt_Errorf "connector is nil")), [EvLog StdLog "AttachDisk1"]).
Proof.
  eexists.
  assert (Hd : getISCSIInfo publish_no_id = Ok _) by (vm_compute; reflexivity).
  split; [exact Hd|]. split; [reflexivity|].
  exact (AttachDisk_without_volume_id driverName (scripted all_well) publish_no_id _
           Hd eq_refl).
Defined.

Lemma getIscsiInfoPath_distinct_witness :
  "vol-1" ≠ "vol-2" ∧
  getIscsiInfoPath driverName "vol-1" ≠ getIscsiInfoPath driverName "vol-2".
Proof.
  assert (Hne : "vol-1" ≠ "vol-2") by discriminate.
  split; [exact Hne|]. exact (getIscsiInfoPath_distinct driverName "vol-1" "vol-2" Hne).
Defined.

End ParsingMoreExamples.

Section ControllerMoreExamples.
Import Controller ControllerRest Examples Cases.

Lemma CreateVolume_request_witness :
  ∃ r tr,
    run observe volume_api [] (CreateVolume server create_vol1) = (r, tr) ∧
    (length (filter (λ ev, is_api_call ev = true) tr) ≤ 1)%nat ∧
    ∀ method url body answer,
      EvHttp method url body answer ∈ tr →
      method = "POST" ∧
      url = apiURL (Driver server) +:+ "/api/volumes/create" ∧
      ∃ capacityRange,
        cvr_CapacityRange create_vol1 = Some capacityRange ∧
        json_Marshal_VolumeRequest
          {| vr_InitiatorName := initiatorName (Driver server);
             vr_Capacity := RequiredBytes capacityRange |} = Ok body.
Proof.
  eexists _, _.
  assert (Hrun : run observe volume_api [] (CreateVolume server create_vol1) = (_, _))
    by (vm_compute; reflexivity).
  split; [exact Hrun|].
  exact (CreateVolume_request volume_api server create_vol1 _ _ Hrun).
Defined.

Lemma CreateVolume_success_witness :
  ∃ tr,
    run observe volume_api [] (CreateVolume server create_vol1)
      = (Returns (Ok created_vol1), tr) ∧
    ∃ capacityRange method url sent body volResp,
      cvr_CapacityRange create_vol1 = Some capacityRange ∧
      EvHttp method url sent (Ok body) ∈ tr ∧
      json_Decode_VolumeResponse body = Ok volResp ∧
      VolumeId (cv_Volume created_vol1) = VolumeID volResp ∧
      CapacityBytes (cv_Volume created_vol1) = RequiredBytes capacityRange ∧
      VolumeContext (cv_Volume created_vol1) =
        list_to_map
          [("portals", match json_Marshal_strings [TargetPortal volResp] with
                       | Ok text => text
                       | Err _ => ""
                       end);
           ("targetPortal", TargetPortal volResp);
           ("iqn", Iqn volResp);
           ("lun", Lun volResp);
           ("interface", "default");
           ("discoveryCHAPAuth", DiscoveryCHAPAuth volResp);
           ("sessionCHAPAuth", SessionCHAPAuth volResp)] ∧
      size (VolumeContext (cv_Volume created_vol1)) = 7.
Proof.
  eexists.
  assert (Hrun : run observe volume_api [] (CreateVolume server create_vol1)
                 = (Returns (Ok created_vol1), _)) by (vm_compute; reflexivity).
  split; [exact Hrun|].
  exact (CreateVolume_success volume_api server create_vol1 _ _ Hrun).
Defined.

Lemma DeleteVolume_request_witness :
  ∃ r tr,
    run observe volume_api [] (DeleteVolume server (mkCsiDeleteVolumeRequest "vol-1"))
      = (r, tr) ∧
    ∃ answer,
      filter (λ ev, is_api_call ev = true) tr =
        [EvHttp "DELETE" (apiURL (Driver server) +:+ "/api/volumes/delete")
           (Json.write_object [("volume_id", Json.quoted "vol-1")]) answer] ∧
      (r = Returns (Ok tt) ↔ ∃ body, answer = Ok body).
Proof.
  eexists _, _.
  assert (Hrun : run observe volume_api []
                   (DeleteVolume server (mkCsiDeleteVolumeRequest "vol-1")) = (_, _))
    by (vm_compute; reflexivity).
  assert (Hid : del_VolumeId (mkCsiDeleteVolumeRequest "vol-1") ≠ "") by discriminate.
  split; [exact Hrun|].
  exact (DeleteVolume_request volume_api server (mkCsiDeleteVolumeRequest "vol-1")
           _ _ _ Hrun Hid eq_refl).
Defined.

Lemma ControllerExpandVolume_result_witness :
  ∃ r tr,
    run observe volume_api [] (ControllerExpandVolume server expand_vol1) = (r, tr) ∧
    r = Returns (Ok (mkControllerExpandVolumeResponse 2147483648)) ∧
    (∀ resp, r = Returns (Ok resp) →
       ∃ capacityRange sent body,
         exp_CapacityRange expand_vol1 = Some capacityRange ∧
         exp_CapacityBytes resp = RequiredBytes capacityRange ∧
         json_Marshal_VolumeResizeRequest
           {| vrr_VolumeID := exp_VolumeId expand_vol1;
              vrr_Capacity := RequiredBytes capacityRange |} = Ok sent ∧
         filter (λ ev, is_api_call ev = true) tr =
           [EvHttp "POST" (apiURL (Driver server) +:+ "/api/volumes/resize") sent
              (Ok body)]) ∧
    (∀ method url sent body e,
       EvHttp method url sent (Ok body) ∈ tr →
       json_Decode_VolumeResponse body = Err e →
       r = Returns (Err (fmt_Errorf ("failed to parse volume response: " +:+ Error e)))).
Proof.
  eexists _, _.
  assert (Hrun : run observe volume_api [] (ControllerExpandVolume server expand_vol1)
                 = (_, _)) by (vm_compute; reflexivity).
  split; [exact Hrun|]. split; [reflexivity|].
  exact (ControllerExpandVolume_result volume_api server expand_vol1 _ _ Hrun).
Defined.

Lemma DeleteSnapshot_request_witness :
  ∃ r tr,
    run observe_snap snapshot_api []
      (DeleteSnapshot server (mkCsiDeleteSnapshotRequest "snap-1")) = (r, tr) ∧
    r = Returns (Ok tt) ∧
    (dels_SnapshotId (mkCsiDeleteSnapshotRequest "snap-1") = "" →
     r = Returns (Err (fmt_Errorf "snapshot ID is required")) ∧ tr = []) ∧
    (∀ sent,
       dels_SnapshotId (mkCsiDeleteSnapshotRequest "snap-1") ≠ "" →
       json_Marshal_DeleteSnapshotRequest
         {| dsr_SnapshotID := dels_SnapshotId (mkCsiDeleteSnapshotRequest "snap-1") |}
         = Ok sent →
       ∃ answer,
         filter (λ ev, is_http ev = true) tr =
           [EvCtrl (EvHttp "DELETE" (apiURL (Driver server) +:+ "/api/snapshot/delete")
                      sent answer)] ∧
         (r = Returns (Ok tt) ↔ ∃ body, answer = Ok body)).
Proof.
  eexists _, _.
  assert (Hrun : run observe_snap snapshot_api []
                   (DeleteSnapshot server (mkCsiDeleteSnapshotRequest "snap-1")) = (_, _))
    by (vm_compute; reflexivity).
  split; [exact Hrun|]. split; [reflexivity|].
  exact (DeleteSnapshot_request snapshot_api server (mkCsiDeleteSnapshotRequest "snap-1")
           _ _ Hrun).
Defined.

End ControllerMoreExamples.

Section RoundTripExamples.
Import Iscsi IscsiUtil Events Node Examples Cases.


(** On the pod directory the round trip restores the node. *)
Example publish_then_unpublish_restores :
  let attached := exec observe node node_pod_dir [] (AttachDisk driverName mounter_vol1) in
  (exec observe node attached.1.2 []
     (DetachDisk driverName unmounter_vol1 "/pods/a/mount")).1 = (None, node_pod_dir).
Proof. vm_compute. reflexivity. Qed.

End RoundTripExamples.
